(** * WorldCupPrediction: the tournament engine of [wcpredictor/src/tournament.py]

    A shallow embedding of the [Group] and [Tournament] classes and the proofs
    of the properties stated about them.

    Conventions of the embedding.
    - A team is a Python [str], here a [string].
    - A two-dimensional numpy array is an [ndarray]: its rows along axis 0 and
      the length of axis 1, which numpy keeps even when there is no row.
    - A score array is an int64 array: its entries are [Z] here, and the sums
      of the code wrap around at [2^63] ([Np.wrap64]).  The table is a
      float64 array that only ever receives integers: an entry is the [Z]
      value of the float, which is rounded to a significand of 53 bits when
      an integer is stored ([Np.to_float]).
    - A draw of [np.random.random] is a float [k / 2^53]; only the order of
      the draws is used, so a draw is the integer [k].
    - A Python exception is a value of [exn]; a call returns a [result].  The
      message of a fault of numpy that quotes shapes or sizes is cut before
      them. *)

From Stdlib Require Import List ZArith Lia Bool String Ascii Arith PeanoNat.
From Stdlib Require Import Permutation DecimalString Sorted Finite.
Import ListNotations.
Local Open Scope string_scope.
Local Open Scope Z_scope.

(** ** Exceptions and results *)

Inductive exn : Type :=
| RuntimeError (msg : string)
| NotImplementedError (msg : string)
| AttributeError (msg : string)
| TypeError (msg : string)
| ValueError (msg : string)
| KeyError (key : string)
| IndexError (msg : string).

Inductive result (A : Type) : Type :=
| Ok (a : A)
| Raise (e : exn).
Arguments Ok {A} a.
Arguments Raise {A} e.

Definition bind {A B : Type} (r : result A) (k : A -> result B) : result B :=
  match r with
  | Ok a => k a
  | Raise e => Raise e
  end.

Notation "x <- c ;; k" := (bind c (fun x => k))
  (at level 61, c at next level, right associativity).

(** [str(n)] for a natural number. *)
Definition str_of_nat (n : nat) : string := NilEmpty.string_of_uint (Nat.to_uint n).

(** ** numpy arrays *)

Module Np.

Record ndarray : Type := mk_ndarray {
  axis1 : nat;               (* shape[1] *)
  rows : list (list Z)       (* one list per index of axis 0 *)
}.

Definition axis0 (a : ndarray) : nat := List.length (rows a).

(** Every row has the length of axis 1. *)
Definition wf (a : ndarray) : Prop :=
  Forall (fun r => List.length r = axis1 a) (rows a).

Definition get (a : ndarray) (i s : nat) : Z := nth s (nth i (rows a) []) 0.

Fixpoint map2 {A B C : Type} (f : A -> B -> C) (l : list A) (m : list B) : list C :=
  match l, m with
  | x :: l', y :: m' => f x y :: map2 f l' m'
  | _, _ => []
  end.

(** Element-wise binary operation of two arrays of one shape.  numpy raises
    on shapes that do not broadcast together; [Group.table_fault] decides
    that before this function is applied. *)
Definition zip (f : Z -> Z -> Z) (a b : ndarray) : ndarray :=
  mk_ndarray (axis1 a) (map2 (map2 f) (rows a) (rows b)).

(** [a[mask]] for a boolean mask of the length of axis 0.  numpy raises on a
    mask of another length; [Group.table_fault] and [Group.add_results]
    decide that before this function is applied. *)
Fixpoint select (mask : list bool) (rs : list (list Z)) : list (list Z) :=
  match mask, rs with
  | b :: mask', r :: rs' => if b then r :: select mask' rs' else select mask' rs'
  | _, _ => []
  end.

(** The value of an int64 result: two's complement wrap-around. *)
Definition wrap64 (z : Z) : Z := (z + 2 ^ 63) mod 2 ^ 64 - 2 ^ 63.

(** The float64 that holds an integer: the integer itself below [2^53] in
    absolute value, and otherwise the nearest float of that size, which is a
    multiple of [2^e]; a tie goes to the even significand. *)
Definition to_float (v : Z) : Z :=
  let a := Z.abs v in
  if a <? 2 ^ 53 then v
  else
    let e := Z.log2 a - 52 in
    let q := a / 2 ^ e in
    let r := a mod 2 ^ e in
    let half := 2 ^ (e - 1) in
    let q' :=
      if r <? half then q
      else if half <? r then q + 1
      else if Z.even q then q else q + 1 in
    Z.sgn v * (q' * 2 ^ e).

(** The sum of two int64 rows. *)
Definition vadd (u v : list Z) : list Z := map2 (fun a b => wrap64 (a + b)) u v.

(** An int64 row stored into a float64 row. *)
Definition as_float (u : list Z) : list Z := map to_float u.

(** The difference of two float64 rows of integers. *)
Definition vsub (u v : list Z) : list Z := map2 (fun a b => to_float (a - b)) u v.

(** Two lengths of an axis that numpy broadcasts together, and the length of
    the axis of the result. *)
Definition compatible (a b : nat) : bool :=
  Nat.eqb a b || Nat.eqb a 1 || Nat.eqb b 1.

Definition broadcast_len (a b : nat) : nat := if Nat.eqb a 1 then b else a.

(** An array of one column broadcast to [S] columns. *)
Definition broadcast_cols (S : nat) (a : ndarray) : ndarray :=
  if Nat.eqb (axis1 a) 1 && negb (Nat.eqb S 1)
  then mk_ndarray S (map (fun row => repeat (hd 0 row) S) (rows a))
  else a.

(** [rs.sum(axis=0)] for int64 rows of length [S]: zeros when there is no
    row. *)
Definition sum_axis0 (S : nat) (rs : list (list Z)) : list Z :=
  fold_left vadd rs (repeat 0 S).

(** Column [s] of an array. *)
Definition column (a : ndarray) (s : nat) : list Z :=
  map (fun r => nth s r 0) (rows a).

(** The array whose columns are given, with [n] rows. *)
Definition of_columns (n : nat) (cols : list (list Z)) : ndarray :=
  mk_ndarray (List.length cols)
             (map (fun i => map (fun c => nth i c 0) cols) (seq 0 n)).

End Np.

(** ** Group: results and table *)

Module Group.

Import Np.

(** [self.results]: the fixtures of the group and their scores, one row per
    fixture and one column per sample. *)
Record Results : Type := mk_results {
  home_team : list string;
  away_team : list string;
  home_score : ndarray;
  away_score : ndarray
}.

Definition results_wf (r : Results) : Prop :=
  wf (home_score r) /\ wf (away_score r) /\
  axis1 (away_score r) = axis1 (home_score r) /\
  axis0 (home_score r) = List.length (home_team r) /\
  axis0 (away_score r) = List.length (home_team r) /\
  List.length (away_team r) = List.length (home_team r).

(** [self.table]. *)
Record Table : Type := mk_table {
  points : ndarray;
  goals_for : ndarray;
  goals_against : ndarray;
  goal_difference : ndarray
}.

Definition b2z (b : bool) : Z := if b then 1 else 0.

(** [3 * (x > y)] with the entries of a draw then set to 1. *)
Definition pts (x y : Z) : Z :=
  let p := 3 * b2z (x >? y) in
  if x =? y then 1 else p.

(** [home_pts] after the draws are written. *)
Definition home_pts (r : Results) : ndarray :=
  zip pts (home_score r) (away_score r).

(** [away_pts] after the draws are written: [3 * (home < away)], and 1 on the
    draw mask [home == away]. *)
Definition away_pts (r : Results) : ndarray :=
  zip (fun h a => let p := 3 * b2z (h <? a) in if h =? a then 1 else p)
      (home_score r) (away_score r).

(** One pass of the loop over [enumerate(self.teams)]: the four rows of
    [team], as the float64 table stores them. *)
Definition team_rows (r : Results) (team : string)
  : list Z * list Z * list Z * list Z :=
  let S := axis1 (home_score r) in
  let team_home_idx := map (fun t => String.eqb t team) (home_team r) in
  let team_home_pts := sum_axis0 S (select team_home_idx (rows (home_pts r))) in
  let team_home_goals_for := sum_axis0 S (select team_home_idx (rows (home_score r))) in
  let team_home_goals_against := sum_axis0 S (select team_home_idx (rows (away_score r))) in
  let team_away_idx := map (fun t => String.eqb t team) (away_team r) in
  let team_away_pts := sum_axis0 S (select team_away_idx (rows (away_pts r))) in
  let team_away_goals_for := sum_axis0 S (select team_away_idx (rows (away_score r))) in
  let team_away_goals_against := sum_axis0 S (select team_away_idx (rows (home_score r))) in
  let points := as_float (vadd team_home_pts team_away_pts) in
  let gf := as_float (vadd team_home_goals_for team_away_goals_for) in
  let ga := as_float (vadd team_home_goals_against team_away_goals_against) in
  (points, gf, ga, vsub gf ga).

(** The away scores broadcast to the columns of the home scores, as the
    operations of [calc_table] do when the away scores have one column. *)
Definition broadcast_away (r : Results) : Results :=
  mk_results (home_team r) (away_team r) (home_score r)
             (broadcast_cols (axis1 (home_score r)) (away_score r)).

(** The table that [calc_table] computes from stored results, when numpy
    raises no fault on their shapes. *)
Definition calc_table_of (teams : list string) (r : Results) : Table :=
  let S := axis1 (home_score r) in
  let rs := map (team_rows (broadcast_away r)) teams in
  mk_table
    (mk_ndarray S (map (fun q => fst (fst (fst q))) rs))
    (mk_ndarray S (map (fun q => snd (fst (fst q))) rs))
    (mk_ndarray S (map (fun q => snd (fst q)) rs))
    (mk_ndarray S (map (fun q => snd q) rs)).

(** The four arrays of a table have the same shape. *)
Definition table_wf (tb : Table) : Prop :=
  Forall (fun a => wf a /\ axis0 a = axis0 (points tb) /\ axis1 a = axis1 (points tb))
         [points tb; goals_for tb; goals_against tb; goal_difference tb].

(** The state of a [Group] object.  [standings] is the array written by the
    default policy of [calc_standings]: one row per team, one column per
    sample. *)
Record t : Type := mk {
  name : string;
  teams : list string;
  table : option Table;
  standings : option ndarray;
  results : option Results
}.

Definition set_table (g : t) (tb : Table) : t :=
  mk (name g) (teams g) (Some tb) (standings g) (results g).

Definition set_standings (g : t) (st : ndarray) : t :=
  mk (name g) (teams g) (table g) (Some st) (results g).

Definition set_results (g : t) (r : Results) : t :=
  mk (name g) (teams g) (table g) (standings g) (Some r).

(** [Group(name, teams)]. *)
Definition init (n : string) (ts : list string) : t := mk n ts None None None.

(** A method returns its value or raises, and leaves a state in both cases. *)
Definition M (A : Type) : Type := t -> result A * t.

(** The fault that numpy raises in [calc_table] on the shapes of the stored
    results, for a roster of [n] teams.  The comparison of the two score
    arrays raises when their shapes do not broadcast.  In the first pass of
    the loop a boolean mask raises when its length is not that of axis 0 of
    the array it selects from, and the assignment of a row raises when the
    row has more than one entry and not as many as the table has columns. *)
Definition table_fault (n : nat) (r : Results) : option exn :=
  let h := List.length (home_team r) in
  let a := List.length (away_team r) in
  let m1 := axis0 (home_score r) in
  let s1 := axis1 (home_score r) in
  let m2 := axis0 (away_score r) in
  let s2 := axis1 (away_score r) in
  if negb (compatible m1 m2 && compatible s1 s2) then
    Some (ValueError "operands could not be broadcast together")
  else if Nat.eqb n 0 then None
  else
    let m := broadcast_len m1 m2 in
    let s := broadcast_len s1 s2 in
    if negb (Nat.eqb h m && Nat.eqb h m1 && Nat.eqb h m2
             && Nat.eqb a m && Nat.eqb a m2 && Nat.eqb a m1) then
      Some (IndexError "boolean index did not match indexed array along axis 0")
    else if negb (Nat.eqb s s1 || Nat.eqb s 1) then
      Some (ValueError "could not broadcast input array")
    else None.

(** [calc_table]: subscripting [self.results] while it is [None] raises, and
    so do the array operations on results of mixed shapes.  After a fault in
    the loop the code has already replaced the table by arrays of NaN; the
    tables of this model hold numbers only, and the group is left as it
    was. *)
Definition calc_table : M unit := fun g =>
  match results g with
  | None => (Raise (TypeError "'NoneType' object is not subscriptable"), g)
  | Some r =>
      match table_fault (List.length (teams g)) r with
      | Some e => (Raise e, g)
      | None => (Ok tt, set_table g (calc_table_of (teams g) r))
      end
  end.

(** *** [np.lexsort] *)

(** The keys of one team in one sample, the primary key first. *)
Definition key : Type := (Z * Z * Z * Z)%type.

Definition key_ltb (a b : key) : bool :=
  let '(a1, a2, a3, a4) := a in
  let '(b1, b2, b3, b4) := b in
  (a1 <? b1) || ((a1 =? b1) &&
  ((a2 <? b2) || ((a2 =? b2) &&
  ((a3 <? b3) || ((a3 =? b3) && (a4 <? b4)))))).

Definition key_at (ks : list key) (i : nat) : key := nth i ks (0, 0, 0, 0).

(** Insertion of index [i] after every index whose key is not larger: the
    sort is stable, as [np.lexsort] is. *)
Fixpoint insert (ks : list key) (i : nat) (sorted : list nat) : list nat :=
  match sorted with
  | [] => [i]
  | j :: rest =>
      if key_ltb (key_at ks i) (key_at ks j) then i :: j :: rest
      else j :: insert ks i rest
  end.

(** The indices that sort [ks] in increasing order. *)
Definition argsort (ks : list key) : list nat :=
  fold_left (fun sorted i => insert ks i sorted) (seq 0 (List.length ks)) [].

(** The keys of column [s], one per row. *)
Definition column_keys (k4 k3 k2 k1 : ndarray) (s : nat) : list key :=
  map (fun i => (get k1 i s, get k2 i s, get k3 i s, get k4 i s))
      (seq 0 (axis0 k1)).

(** [np.lexsort((k4, k3, k2, k1), axis=0)]: the last key is the primary one;
    entry [(k, s)] is the index of the row that comes [k]-th in column [s]. *)
Definition lexsort (k4 k3 k2 k1 : ndarray) : ndarray :=
  of_columns (axis0 k1)
    (map (fun s => map Z.of_nat (argsort (column_keys k4 k3 k2 k1 s)))
         (seq 0 (axis1 k1))).

(** [len(self.teams) - np.lexsort(...)] of the default policy; [rnd] is the
    array drawn by [np.random.random]. *)
Definition default_standings (n : nat) (tb : Table) (rnd : ndarray) : ndarray :=
  let a := lexsort rnd (goals_for tb) (goal_difference tb) (points tb) in
  mk_ndarray (axis1 a) (map (map (fun v => Z.of_nat n - v)) (rows a)).

(** [calc_standings(head_to_head)]. *)
Definition calc_standings (head_to_head : bool) (rnd : ndarray) : M unit := fun g =>
  let '(r, g1) :=
    match table g with
    | None => calc_table g
    | Some _ => (Ok tt, g)
    end in
  match r with
  | Raise e => (Raise e, g1)
  | Ok _ =>
      match table g1 with
      | None => (Raise (TypeError "'NoneType' object is not subscriptable"), g1)
      | Some tb =>
          if negb head_to_head then
            (Ok tt, set_standings g1 (default_standings (List.length (teams g1)) tb rnd))
          else
            (Raise (NotImplementedError "Not updated head-to-head logic"), g1)
      end
  end.

(** The first row that holds [v] in sample [s], of the first [n] rows. *)
Definition row_of (st : ndarray) (n : nat) (v : Z) (s : nat) : nat :=
  hd O (filter (fun k => get st k s =? v) (seq 0 n)).

(** [np.nonzero(a.T == v)[1]]: for every sample in turn, the rows holding
    [v]. *)
Definition nonzero_T_eq (a : ndarray) (v : Z) : list nat :=
  flat_map (fun s => filter (fun k => get a k s =? v) (seq 0 (axis0 a)))
           (seq 0 (axis1 a)).

(** [self.teams[idx]] for an index array. *)
Fixpoint take (ts : list string) (idx : list nat) : result (list string) :=
  match idx with
  | [] => Ok []
  | k :: idx' =>
      match nth_error ts k with
      | None => Raise (IndexError "index out of bounds")
      | Some team => l <- take ts idx' ;; Ok (team :: l)
      end
  end.

(** [get_qualifiers]. *)
Definition get_qualifiers (rnd : ndarray) : M (list string * list string) := fun g =>
  let '(r, g1) :=
    match standings g with
    | None => calc_standings false rnd g
    | Some _ => (Ok tt, g)
    end in
  match r with
  | Raise e => (Raise e, g1)
  | Ok _ =>
      match standings g1 with
      | None => (Raise (AttributeError "'NoneType' object has no attribute 'T'"), g1)
      | Some st =>
          let first := nonzero_T_eq st 1 in
          let second := nonzero_T_eq st 2 in
          (t1 <- take (teams g1) first ;;
           t2 <- take (teams g1) second ;;
           Ok (t1, t2), g1)
      end
  end.

(** [add_results]: the fixtures whose home team is in the group.  The mask
    has the length of the home teams, and indexing an array of another
    length along axis 0 with it raises. *)
Definition isin (ts : list string) (x : string) : bool :=
  existsb (String.eqb x) ts.

Fixpoint select_str (mask : list bool) (l : list string) : list string :=
  match mask, l with
  | b :: mask', x :: l' => if b then x :: select_str mask' l' else select_str mask' l'
  | _, _ => []
  end.

Definition add_results (all : Results) : M unit := fun g =>
  let group_mask := map (isin (teams g)) (home_team all) in
  let h := List.length (home_team all) in
  if Nat.eqb (List.length (away_team all)) h
     && Nat.eqb (axis0 (home_score all)) h
     && Nat.eqb (axis0 (away_score all)) h then
    (Ok tt,
     set_results g
       (mk_results (select_str group_mask (home_team all))
                   (select_str group_mask (away_team all))
                   (mk_ndarray (axis1 (home_score all))
                               (select group_mask (rows (home_score all))))
                   (mk_ndarray (axis1 (away_score all))
                               (select group_mask (rows (away_score all))))))
  else
    (Raise (IndexError "boolean index did not match indexed array along axis 0"), g).

(** *** [__str__] *)

(** The loop over [self.teams] that finds the longest name. *)
Definition max_team_name_length (ts : list string) : nat :=
  fold_left (fun m t => if Nat.ltb m (String.length t) then String.length t else m)
            ts O.

(** [' ' * n]. *)
Fixpoint spaces (n : nat) : string :=
  match n with
  | O => ""
  | S n' => String " " (spaces n')
  end.

Definition newline : string := String (ascii_of_nat 10) "".

(** The first line of the printed table. *)
Definition header (ts : list string) : string :=
  "Position |  Team" ++ spaces (max_team_name_length ts - 8)
  ++ "| Points | GS |  GA " ++ newline.

(** [__str__]: after [self.calc_standings()] the standings are an array, and
    an array has no [items]. *)
Definition __str__ (rnd : ndarray) : M string := fun g =>
  let output := header (teams g) in
  let '(r, g1) := calc_standings false rnd g in
  match r with
  | Raise e => (Raise e, g1)
  | Ok _ =>
      (Raise (AttributeError "'numpy.ndarray' object has no attribute 'items'"), g1)
  end.

End Group.

(** ** The head-to-head cascade

    [fill_standings_position], [find_head_to_head_winner] and
    [set_positions_using_metric] work on the dictionary form of the group
    state: [standings] maps a position name to a team or [None], [table] maps
    a team to its row (a dictionary from metric name to value) and [results]
    is a list of dictionaries from team to score.  These are not the forms
    that the other methods of the class store: [standings_form] and
    [results_form] list those, with what the two methods that read one
    attribute do on each of them. *)

Module Cascade.

Definition dict (V : Type) : Type := list (string * V).

Fixpoint dict_get {V : Type} (d : dict V) (k : string) : result V :=
  match d with
  | [] => Raise (KeyError k)
  | (k', v) :: d' => if String.eqb k' k then Ok v else dict_get d' k
  end.

Fixpoint dict_set {V : Type} (d : dict V) (k : string) (v : V) : dict V :=
  match d with
  | [] => [(k, v)]
  | (k', v') :: d' =>
      if String.eqb k' k then (k, v) :: d' else (k', v') :: dict_set d' k v
  end.

Definition keys {V : Type} (d : dict V) : list string := map fst d.

Record state : Type := mk_state {
  standings : dict (option string);
  table : dict (dict Z);
  results : list (dict Z);
  rng : list nat               (* the draws [random] will make *)
}.

Definition set_standings (st : state) (s : dict (option string)) : state :=
  mk_state s (table st) (results st) (rng st).

Definition metrics : list string :=
  ["points"; "goal_difference"; "goals_for"; "head-to-head"; "random"].

(** The truth value of a team name or [None]. *)
Definition truthy (v : option string) : bool :=
  match v with
  | None => false
  | Some s => negb (String.eqb s "")
  end.

(** A call that may not have returned yet ([None]: the recursion budget of
    the model is spent), and otherwise returns or raises in a state. *)
Definition C (A : Type) : Type := state -> option (result A * state).


Definition ret {A : Type} (a : A) : C A := fun st => Some (Ok a, st).
Definition raise {A : Type} (e : exn) : C A := fun st => Some (Raise e, st).
Definition lift {A : Type} (r : result A) : C A := fun st => Some (r, st).

Definition cbind {A B : Type} (c : C A) (k : A -> C B) : C B := fun st =>
  match c st with
  | None => None
  | Some (Ok a, st') => k a st'
  | Some (Raise e, st') => Some (Raise e, st')
  end.

Notation "x <-- c ;;; k" := (cbind c (fun x => k))
  (at level 61, c at next level, right associativity).
Notation "c ;;; k" := (cbind c (fun _ => k))
  (at level 61, right associativity).

(** [fill_standings_position(team, position)]. *)
Definition fill_standings_position (team position : string) : C unit := fun st =>
  match dict_get (standings st) position with
  | Raise e => Some (Raise e, st)
  | Ok cur =>
      if truthy cur then
        Some (Raise (RuntimeError ("Position " ++ position ++ " is already filled!")), st)
      else
        Some (Ok tt, set_standings st (dict_set (standings st) position (Some team)))
  end.

Definition subset (l m : list string) : bool :=
  forallb (fun x => existsb (String.eqb x) m) l.

Definition set_eq (l m : list string) : bool := subset l m && subset m l.

(** [find_head_to_head_winner(team_A, team_B)]. *)
Fixpoint find_head_to_head_winner (rs : list (dict Z)) (team_A team_B : string)
  : result (option string * option string) :=
  match rs with
  | [] => Ok (None, None)
  | r :: rs' =>
      if set_eq (keys r) [team_A; team_B] then
        a <- dict_get r team_A ;;
        b <- dict_get r team_B ;;
        if a >? b then Ok (Some team_A, Some team_B)
        else if b >? a then Ok (Some team_B, Some team_A)
        else Ok (None, None)
      else find_head_to_head_winner rs' team_A team_B
  end.

(** *** The forms of the attributes *)

(** What [self.standings] holds: [None] after [__init__], the array of
    [calc_standings], or the dictionary of the head-to-head logic. *)
Inductive standings_form : Type :=
| standings_none
| standings_array (a : Np.ndarray)
| standings_dict (d : dict (option string)).

(** What [self.results] holds: [None] after [__init__], the dictionary of
    four arrays of [add_results], or the list of dictionaries of the
    head-to-head logic. *)
Inductive results_form : Type :=
| results_none
| results_arrays (r : Group.Results)
| results_list (rs : list (dict Z)).

(** [self.standings[position]] for the name of a position. *)
Definition standings_item (s : standings_form) (position : string)
  : result (option string) :=
  match s with
  | standings_none => Raise (TypeError "'NoneType' object is not subscriptable")
  | standings_array _ =>
      Raise (IndexError
        "only integers, slices (`:`), ellipsis (`...`), numpy.newaxis (`None`) and integer or boolean arrays are valid indices")
  | standings_dict d => dict_get d position
  end.

(** [fill_standings_position(team, position)] on every form of the
    standings. *)
Definition fill_standings_position_form (team position : string) (s : standings_form)
  : result unit * standings_form :=
  match standings_item s position with
  | Raise e => (Raise e, s)
  | Ok cur =>
      if truthy cur then
        (Raise (RuntimeError ("Position " ++ position ++ " is already filled!")), s)
      else
        (Ok tt,
         match s with
         | standings_dict d => standings_dict (dict_set d position (Some team))
         | _ => s
         end)
  end.

(** [find_head_to_head_winner(team_A, team_B)] on every form of the results:
    [None] is not iterable, and the loop over the dictionary of
    [add_results] yields its keys, which are strings. *)
Definition find_head_to_head_winner_form (r : results_form) (team_A team_B : string)
  : result (option string * option string) :=
  match r with
  | results_none => Raise (TypeError "'NoneType' object is not iterable")
  | results_arrays _ => Raise (AttributeError "'str' object has no attribute 'keys'")
  | results_list rs => find_head_to_head_winner rs team_A team_B
  end.

(** What a call leaves of a state: the positions of the standings, the table
    and the results are those of [st], and every position that held a
    non-empty name still holds it. *)
Definition keeps (st st' : state) : Prop :=
  keys (standings st') = keys (standings st)
  /\ table st' = table st
  /\ results st' = results st
  /\ forall p t, dict_get (standings st) p = Ok (Some t) -> t <> "" ->
                 dict_get (standings st') p = Ok (Some t).

(** Every outcome of the call keeps the state. *)
Definition preserves {A : Type} (c : state -> option (result A * state)) : Prop :=
  forall st r st', c st = Some (r, st') -> keeps st st'.

(** [check_if_result_exists(team_1, team_2)]. *)
Fixpoint check_if_result_exists (rs : list (dict Z)) (team_1 team_2 : string) : bool :=
  match rs with
  | [] => false
  | r :: rs' =>
      if set_eq [team_1; team_2] (keys r) then true
      else check_if_result_exists rs' team_1 team_2
  end.

(** *** [random.shuffle] *)

Fixpoint set_nth {A : Type} (l : list A) (i : nat) (x : A) : list A :=
  match l, i with
  | [], _ => []
  | _ :: l', O => x :: l'
  | y :: l', S i' => y :: set_nth l' i' x
  end.

Definition swap (l : list string) (i j : nat) : list string :=
  match nth_error l i, nth_error l j with
  | Some a, Some b => set_nth (set_nth l i b) j a
  | _, _ => l
  end.

(** The loop [for i in reversed(range(1, len(x)))] with [j = randbelow(i+1)];
    [i] runs from [n] down to 1. *)
Fixpoint shuffle_from (n : nat) (draws : list nat) (l : list string)
  : list string * list nat :=
  match n with
  | O => (l, draws)
  | S n' =>
      let '(d, draws') :=
        match draws with
        | [] => (O, [])
        | d :: draws' => (d, draws')
        end in
      shuffle_from n' draws' (swap l n (Nat.modulo d (S n)))
  end.

Definition shuffle (l : list string) : C (list string) := fun st =>
  let '(l', draws') := shuffle_from (List.length l - 1) (rng st) l in
  Some (Ok l', mk_state (standings st) (table st) (results st) draws').

(** *** [set_positions_using_metric] *)

(** An element of the list returned by [sort_teams_by]: the dictionary of a
    team, with its name under ["team"] and its values under the metrics. *)
Record entry : Type := mk_entry {
  team : string;
  scores : dict Z
}.

(** [l[i]]. *)
Definition item {A : Type} (l : list A) (i : nat) : result A :=
  match nth_error l i with
  | Some x => Ok x
  | None => Raise (IndexError "list index out of range")
  end.

(** [self.metrics.index(metric)]. *)
Fixpoint index_from (l : list string) (m : string) (i : nat) : result nat :=
  match l with
  | [] => Raise (ValueError ("'" ++ m ++ "' is not in list"))
  | x :: l' => if String.eqb x m then Ok i else index_from l' m (S i)
  end.

Definition index (m : string) : result nat := index_from metrics m 0.

(** [{t: self.table[t] for t in teams_to_sort}]. *)
Fixpoint team_dict_of (tb : dict (dict Z)) (ts : list string) (acc : dict (dict Z))
  : result (dict (dict Z)) :=
  match ts with
  | [] => Ok acc
  | t :: ts' => row <- dict_get tb t ;; team_dict_of tb ts' (dict_set acc t row)
  end.

(** [team_scores[i][metric]]. *)
Definition score (team_scores : list entry) (metric : string) (i : nat) : result Z :=
  e <- item team_scores i ;; dict_get (scores e) metric.

Definition gt (team_scores : list entry) (metric : string) (i j : nat) : result bool :=
  a <- score team_scores metric i ;; b <- score team_scores metric j ;; Ok (a >? b).

Definition eq (team_scores : list entry) (metric : string) (i j : nat) : result bool :=
  a <- score team_scores metric i ;; b <- score team_scores metric j ;; Ok (a =? b).

(** [a and b]: [b] is evaluated only when [a] holds. *)
Definition and_ (a b : result bool) : result bool :=
  match a with
  | Ok true => b
  | _ => a
  end.

Definition ifc {A : Type} (c : result bool) (a b : C A) : C A :=
  cbind (lift c) (fun x => if x then a else b).

(** [self.fill_standings_position(team_list[i], positions_to_fill[j])]. *)
Definition fill_at (team_list : list string) (i : nat) (positions : list string) (j : nat)
  : C unit :=
  t <-- lift (item team_list i) ;;;
  p <-- lift (item positions j) ;;;
  fill_standings_position t p.

(** [self.fill_standings_position(team_list[i], position)]. *)
Definition fill_named (team_list : list string) (i : nat) (position : string) : C unit :=
  t <-- lift (item team_list i) ;;;
  fill_standings_position t position.

(** [for i, pos in enumerate(positions_to_fill)] of the random case. *)
Fixpoint fill_all (ts : list string) (i : nat) (positions : list string) : C unit :=
  match positions with
  | [] => ret tt
  | pos :: ps =>
      t <-- lift (item ts i) ;;;
      fill_standings_position t pos ;;;
      fill_all ts (S i) ps
  end.

Definition slice {A : Type} (l : list A) (lo hi : nat) : list A :=
  firstn (hi - lo) (skipn lo l).



Section SetPositions.

(** [sort_teams_by] of [utils]: the dictionaries of the teams, in the order of
    the metric. *)
Variable sort_teams_by : dict (dict Z) -> string -> result (list entry).

(** The body of [set_positions_using_metric]; [self] is the method itself, as
    the body calls it. *)
Definition body
  (self : list string -> list string -> string -> C unit)
  (teams_to_sort positions_to_fill : list string) (metric : string) : C unit :=
  if negb (Nat.eqb (List.length teams_to_sort) (List.length positions_to_fill)) then
    raise (RuntimeError ("Can't fill " ++ str_of_nat (List.length positions_to_fill)
                         ++ " positions with "
                         ++ str_of_nat (List.length teams_to_sort) ++ " teams"))
  else if String.eqb metric "random" then
    shuffled <-- shuffle teams_to_sort ;;;
    fill_all shuffled 0 positions_to_fill
  else if String.eqb metric "head-to-head" then
    if Nat.ltb 2 (List.length teams_to_sort) then
      self teams_to_sort positions_to_fill "random"
    else
      a <-- lift (item teams_to_sort 0) ;;;
      b <-- lift (item teams_to_sort 1) ;;;
      w <-- (fun st => lift (find_head_to_head_winner (results st) a b) st) ;;;
      match w with
      | (Some team_1, Some team_2) =>
          if truthy (Some team_1) && truthy (Some team_2) then
            p0 <-- lift (item positions_to_fill 0) ;;;
            fill_standings_position team_1 p0 ;;;
            p1 <-- lift (item positions_to_fill 1) ;;;
            fill_standings_position team_2 p1
          else self teams_to_sort positions_to_fill "random"
      | _ => self teams_to_sort positions_to_fill "random"
      end
  else
    team_dict <-- (fun st => lift (team_dict_of (table st) teams_to_sort []) st) ;;;
    team_scores <-- lift (sort_teams_by team_dict metric) ;;;
    let team_list := map team team_scores in
    current_metric_index <-- lift (index metric) ;;;
    new_metric <-- lift (item metrics (S current_metric_index)) ;;;
    let gt := gt team_scores metric in
    let eq := eq team_scores metric in
    match List.length team_list with
    | 2%nat =>
        ifc (gt 0 1)%nat
          (fill_at team_list 0 positions_to_fill 0 ;;;
           fill_at team_list 1 positions_to_fill 1)
          (self team_list positions_to_fill new_metric)
    | 3%nat =>
        ifc (and_ (gt 0 1) (gt 1 2))%nat
          (fill_at team_list 0 positions_to_fill 0 ;;;
           fill_at team_list 1 positions_to_fill 1 ;;;
           fill_at team_list 2 positions_to_fill 2)
       (ifc (and_ (gt 0 1) (eq 1 2))%nat
          (fill_at team_list 0 positions_to_fill 0 ;;;
           self (skipn 1 team_list) (skipn 1 positions_to_fill) new_metric)
       (ifc (and_ (eq 0 1) (gt 1 2))%nat
          (fill_at team_list 2 positions_to_fill 2 ;;;
           self (firstn 2 team_list) (firstn 2 positions_to_fill) new_metric)
          (self team_list positions_to_fill new_metric)))
    | 4%nat =>
        ifc (and_ (gt 0 1) (and_ (gt 1 2) (gt 2 3)))%nat
          (fill_named team_list 0 "1st" ;;;
           fill_named team_list 1 "2nd" ;;;
           fill_named team_list 2 "3rd" ;;;
           fill_named team_list 3 "4th")
       (ifc (and_ (eq 0 1) (and_ (gt 1 2) (gt 2 3)))%nat
          (fill_named team_list 2 "3rd" ;;;
           fill_named team_list 3 "4th" ;;;
           self (firstn 2 team_list) (firstn 2 positions_to_fill) new_metric)
       (ifc (and_ (gt 0 1) (and_ (eq 1 2) (gt 2 3)))%nat
          (fill_named team_list 0 "1st" ;;;
           fill_named team_list 3 "4th" ;;;
           self (slice team_list 1 3) (slice positions_to_fill 1 3) new_metric)
       (ifc (and_ (gt 0 1) (and_ (gt 1 2) (eq 2 3)))%nat
          (fill_named team_list 0 "1st" ;;;
           fill_named team_list 1 "2nd" ;;;
           self (skipn 2 team_list) (skipn 2 positions_to_fill) new_metric)
       (ifc (and_ (eq 0 1) (and_ (eq 1 2) (gt 2 3)))%nat
          (fill_named team_list 3 "4th" ;;;
           self (firstn 3 team_list) (firstn 3 positions_to_fill) new_metric)
       (ifc (and_ (gt 0 1) (and_ (eq 1 2) (eq 2 3)))%nat
          (fill_named team_list 0 "1st" ;;;
           self (skipn 1 team_list) (skipn 1 positions_to_fill) new_metric)
       (ifc (and_ (eq 0 1) (and_ (gt 1 2) (eq 2 3)))%nat
          (self (firstn 2 team_list) (firstn 2 positions_to_fill) new_metric ;;;
           self (skipn 2 team_list) (skipn 2 positions_to_fill) new_metric)
          (self team_list positions_to_fill new_metric)))))))
    | _ => ret tt
    end.

(** [set_positions_using_metric] with a bound [depth] on the nesting of its
    calls: a call that would nest deeper has not returned. *)
Fixpoint set_positions_using_metric (depth : nat)
  (teams_to_sort positions_to_fill : list string) (metric : string) : C unit :=
  match depth with
  | O => fun _ => None
  | S d => body (set_positions_using_metric d) teams_to_sort positions_to_fill metric
  end.

End SetPositions.

End Cascade.

(** ** Tournament *)

Module Tournament.

(** A row of [fixtures_df]. *)
Record fixture : Type := mk_fixture {
  Stage : string;
  Team_1 : string;
  Team_2 : string
}.

(** The [aliases] data frame: [index_len] rows (one per sample) and named
    columns of teams, in the order of their creation. *)
Record frame : Type := mk_frame {
  index_len : nat;
  columns : list (string * list string)
}.

Fixpoint lookup (cols : list (string * list string)) (k : string)
  : option (list string) :=
  match cols with
  | [] => None
  | (k', v) :: cols' => if String.eqb k' k then Some v else lookup cols' k
  end.

Fixpoint upsert (cols : list (string * list string)) (k : string) (v : list string)
  : list (string * list string) :=
  match cols with
  | [] => [(k, v)]
  | (k', v') :: cols' =>
      if String.eqb k' k then (k, v) :: cols' else (k', v') :: upsert cols' k v
  end.

(** [df[key] = values] on the frame of the aliases, whose index the
    constructor makes with one row per sample and no assignment changes: the
    column is replaced when it exists and added otherwise, and values of
    another length than the index raise.  (On a frame without any row pandas
    takes the index from values that are not empty; that case is outside
    this model.) *)
Definition frame_set (df : frame) (k : string) (v : list string) : result frame :=
  if Nat.eqb (List.length v) (index_len df) then
    Ok (mk_frame (index_len df) (upsert (columns df) k v))
  else
    Raise (ValueError ("Length of values (" ++ str_of_nat (List.length v)
                       ++ ") does not match length of index ("
                       ++ str_of_nat (index_len df) ++ ")")).

(** [df[keys]] for a list of column names. *)
Fixpoint frame_get (df : frame) (ks : list string) : result (list (list string)) :=
  match ks with
  | [] => Ok []
  | k :: ks' =>
      match lookup (columns df) k with
      | None => Raise (KeyError k)
      | Some c => cs <- frame_get df ks' ;; Ok (c :: cs)
      end
  end.

(** [.values.flatten()] of the selected columns: sample by sample. *)
Definition flatten (S : nat) (cols : list (list string)) : list string :=
  flat_map (fun s => map (fun c => nth s c "") cols) (seq 0 S).

(** Column [f] of [out.reshape((S, F))]. *)
Definition reshaped_column (S F : nat) (out : list string) (f : nat) : list string :=
  map (fun s => nth (s * F + f) out "") (seq 0 S).

(** [df[keys] = results]: the columns are written one key after the other. *)
Fixpoint frame_set_all (df : frame) (S F : nat) (out : list string)
  (ks : list string) (f : nat) : result frame :=
  match ks with
  | [] => Ok df
  | k :: ks' =>
      df' <- frame_set df k (reshaped_column S F out f) ;;
      frame_set_all df' S F out ks' (Datatypes.S f)
  end.

(** The state of a [Tournament] object; [winner] is absent until the final
    is played. *)
Record t : Type := mk {
  teams_df : list (string * string);         (* Team, Group *)
  fixtures_df : list fixture;
  groups : list (string * Group.t);
  aliases : frame;
  is_complete : bool;
  num_samples : nat;
  winner : option (list string)
}.

Definition set_groups (x : t) (gs : list (string * Group.t)) : t :=
  mk (teams_df x) (fixtures_df x) gs (aliases x) (is_complete x) (num_samples x) (winner x).

Definition set_aliases (x : t) (a : frame) : t :=
  mk (teams_df x) (fixtures_df x) (groups x) a (is_complete x) (num_samples x) (winner x).

Definition set_winner (x : t) (w : list string) : t :=
  mk (teams_df x) (fixtures_df x) (groups x) (aliases x) (is_complete x) (num_samples x) (Some w).

Definition set_complete (x : t) : t :=
  mk (teams_df x) (fixtures_df x) (groups x) (aliases x) true (num_samples x) (winner x).

Definition M (A : Type) : Type := t -> result A * t.

Definition stages : list string := ["R16"; "QF"; "SF"; "F"].

Definition set_eq2 (a b c d : string) : bool :=
  Cascade.set_eq [a; b] [c; d].

Fixpoint group_lookup (gs : list (string * Group.t)) (k : string) : result Group.t :=
  match gs with
  | [] => Raise (KeyError k)
  | (k', g) :: gs' => if String.eqb k' k then Ok g else group_lookup gs' k
  end.

Section External.

(** [find_group] of [utils]: the group of a team in [teams_df]. *)
Variable find_group : string -> list (string * string) -> result string.

(** [wc_pred.simulate_outcome(team_1, team_2, seed, num_samples=1)] as it is
    called for a stage: one winner per pair. *)
Variable simulate_outcome : string -> list string -> list string -> list string.

(** The array [np.random.random] draws for the standings of a group. *)
Variable random_draw : string -> Np.ndarray.

(** The loop of [add_result] over the rows of [fixtures_df].  [Group] has no
    attribute [add_result]. *)
Fixpoint add_result_rows (x : t) (rows : list fixture)
  (team_1 team_2 : string) (score_1 score_2 : Z) (stage : string) : result unit :=
  match rows with
  | [] => Ok tt
  | row :: rows' =>
      if negb (String.eqb stage (Stage row)) then
        add_result_rows x rows' team_1 team_2 score_1 score_2 stage
      else if String.eqb stage "Group" then
        if set_eq2 (Team_1 row) (Team_2 row) team_1 team_2 then
          group <- find_group team_1 (teams_df x) ;;
          _ <- group_lookup (groups x) group ;;
          Raise (AttributeError "'Group' object has no attribute 'add_result'")
        else add_result_rows x rows' team_1 team_2 score_1 score_2 stage
      else add_result_rows x rows' team_1 team_2 score_1 score_2 stage
  end.

(** [add_result]: nothing is assigned on any path. *)
Definition add_result (team_1 team_2 : string) (score_1 score_2 : Z) (stage : string)
  : M unit := fun x =>
  (add_result_rows x (fixtures_df x) team_1 team_2 score_1 score_2 stage, x).

Fixpoint group_update (gs : list (string * Group.t)) (k : string) (g : Group.t)
  : list (string * Group.t) :=
  match gs with
  | [] => []
  | (k', g') :: gs' =>
      if String.eqb k' k then (k', g) :: gs' else (k', g') :: group_update gs' k g
  end.

(** The first loop of [play_knockout_stages], over the groups of the given
    keys: the qualifiers of a group go to the columns ["1" + name] and
    ["2" + name]. *)
Fixpoint assign_qualifiers (ks : list string) : M unit := fun x =>
  match ks with
  | [] => (Ok tt, x)
  | k :: ks' =>
      match group_lookup (groups x) k with
      | Raise e => (Raise e, x)
      | Ok g =>
          let '(r, g') := Group.get_qualifiers (random_draw (Group.name g)) g in
          let x1 := set_groups x (group_update (groups x) k g') in
          match r with
          | Raise e => (Raise e, x1)
          | Ok (t1, t2) =>
              match frame_set (aliases x1) ("1" ++ Group.name g') t1 with
              | Raise e => (Raise e, x1)
              | Ok a1 =>
                  match frame_set a1 ("2" ++ Group.name g') t2 with
                  | Raise e => (Raise e, set_aliases x1 a1)
                  | Ok a2 => assign_qualifiers ks' (set_aliases x1 a2)
                  end
              end
          end
      end
  end.

(** The rows of [fixtures_df] of a stage, and the alias keys of their
    winners. *)
Definition stage_fixtures (x : t) (stage : string) : list fixture :=
  filter (fun row => String.eqb (Stage row) stage) (fixtures_df x).

Definition fixture_key (row : fixture) : string := Team_1 row ++ Team_2 row.

(** One pass of the loop over the stages. *)
Definition play_stage (stage : string) : M unit := fun x =>
  let fx := stage_fixtures x stage in
  let S := index_len (aliases x) in
  let F := List.length fx in
  match frame_get (aliases x) (map Team_1 fx) with
  | Raise e => (Raise e, x)
  | Ok c1 =>
      match frame_get (aliases x) (map Team_2 fx) with
      | Raise e => (Raise e, x)
      | Ok c2 =>
          let out := simulate_outcome stage (flatten S c1) (flatten S c2) in
          if negb (Nat.eqb (List.length out) (num_samples x * F)) then
            (Raise (ValueError "cannot reshape array"), x)
          else
            match frame_set_all (aliases x) (num_samples x) F out
                                (map fixture_key fx) 0 with
            | Raise e => (Raise e, x)
            | Ok a =>
                let x1 := set_aliases x a in
                (Ok tt, if String.eqb stage "F" then set_winner x1 out else x1)
            end
      end
  end.

Fixpoint play_stages (l : list string) : M unit := fun x =>
  match l with
  | [] => (Ok tt, x)
  | stage :: l' =>
      match play_stage stage x with
      | (Raise e, x1) => (Raise e, x1)
      | (Ok _, x1) => play_stages l' x1
      end
  end.

(** [play_knockout_stages]. *)
Definition play_knockout_stages : M unit := fun x =>
  match assign_qualifiers (map fst (groups x)) x with
  | (Raise e, x1) => (Raise e, x1)
  | (Ok _, x1) =>
      match play_stages stages x1 with
      | (Raise e, x2) => (Raise e, x2)
      | (Ok _, x2) => (Ok tt, set_complete x2)
      end
  end.

End External.

Section Construction.

(** [list(set(names))]: the distinct names, in the order in which the set
    yields them. *)
Variable list_of_set : list string -> list string.

(** The teams of [teams_df] whose group is [n], in the order of the file. *)
Definition teams_of_group (teams_df : list (string * string)) (n : string)
  : list string :=
  map fst (filter (fun row => String.eqb (snd row) n) teams_df).

(** [Tournament(year, num_samples)], for the data frames that
    [get_teams_data] and [get_fixture_data] return; the names of a set are
    distinct, so that every assignment [self.groups[n] = g] adds a key. *)
Definition init (teams_data : list (string * string)) (fixture_data : list fixture)
  (samples : nat) : t :=
  let group_names := list_of_set (map snd teams_data) in
  mk teams_data fixture_data
     (map (fun n => (n, Group.init n (teams_of_group teams_data n))) group_names)
     (mk_frame samples [])
     false samples None.

End Construction.

Section GroupStage.

(** [wc_pred.simulate_score(team_1, team_2, seed, num_samples)]. *)
Variable simulate_score : list string -> list string -> nat -> Group.Results.

(** The array [np.random.random] draws for the standings of a group. *)
Variable random_draw : string -> Np.ndarray.

(** The loop of [play_group_stage] over [self.groups.values()]. *)
Fixpoint play_groups (results : Group.Results) (head_to_head : bool)
  (gs : list (string * Group.t)) : result unit * list (string * Group.t) :=
  match gs with
  | [] => (Ok tt, [])
  | (k, g) :: gs' =>
      let '(r0, g1) := Group.add_results results g in
      match r0 with
      | Raise e => (Raise e, (k, g1) :: gs')
      | Ok _ =>
          let '(r, g2) :=
            Group.calc_standings head_to_head (random_draw (Group.name g1)) g1 in
          match r with
          | Raise e => (Raise e, (k, g2) :: gs')
          | Ok _ =>
              let '(r', gs'') := play_groups results head_to_head gs' in
              (r', (k, g2) :: gs'')
          end
      end
  end.

(** [play_group_stage]. *)
Definition play_group_stage (head_to_head : bool) : M unit := fun x =>
  let group_fixtures :=
    filter (fun row => String.eqb (Stage row) "Group") (fixtures_df x) in
  let results :=
    simulate_score (map Team_1 group_fixtures) (map Team_2 group_fixtures)
                   (num_samples x) in
  let '(r, gs) := play_groups results head_to_head (groups x) in
  (r, set_groups x gs).

End GroupStage.

(** The truth value of a numpy array of booleans, as [if] takes it: the
    element of an array of one element, false for an empty array, and an
    error otherwise. *)
Definition array_truth (l : list bool) : result bool :=
  match l with
  | [] => Ok false
  | [b] => Ok b
  | _ =>
      Raise (ValueError "The truth value of an array with more than one element is ambiguous")
  end.

(** [get_furthest_position_for_team]: [self.winner == team_name] compares
    element by element; [self.aliases.values] is an array, and calling it
    raises, so that no later statement is reached. *)
Definition get_furthest_position_for_team (x : t) (team_name : string)
  : result (option string) :=
  if negb (is_complete x) then Ok None
  else
    match winner x with
    | None => Raise (AttributeError "'Tournament' object has no attribute 'winner'")
    | Some w =>
        is_winner <- array_truth (map (fun v => String.eqb v team_name) w) ;;
        if is_winner then Ok (Some "W")
        else Raise (TypeError "'numpy.ndarray' object is not callable")
    end.

End Tournament.

(** ** The table, sample by sample

    What a table holds, written for one team and one sample: the reference
    against which the array computation of [calc_table] is compared. *)

Module TableSpec.

Import Np Group.

(** The sum of [f 0 .. f (n-1)]. *)
Definition sum_over (n : nat) (f : nat -> Z) : Z :=
  fold_right Z.add 0 (map f (seq 0 n)).

(** Points of a match for the side that scored [x] against [y]: 3 for a win,
    1 for a draw, 0 for a loss. *)
Definition match_points (x y : Z) : Z :=
  if x >? y then 3 else if x =? y then 1 else 0.

Definition played_home (r : Results) (team : string) (m : nat) : bool :=
  String.eqb (nth m (home_team r) "") team.

Definition played_away (r : Results) (team : string) (m : nat) : bool :=
  String.eqb (nth m (away_team r) "") team.

(** The sum over the matches [team] played at home of [h], plus the sum over
    the matches it played away of [a]. *)
Definition home_and_away (r : Results) (team : string) (h a : nat -> Z) : Z :=
  let n := List.length (home_team r) in
  sum_over n (fun m => if played_home r team m then h m else 0)
  + sum_over n (fun m => if played_away r team m then a m else 0).

Definition team_points (r : Results) (team : string) (s : nat) : Z :=
  home_and_away r team
    (fun m => match_points (get (home_score r) m s) (get (away_score r) m s))
    (fun m => match_points (get (away_score r) m s) (get (home_score r) m s)).

Definition team_goals_for (r : Results) (team : string) (s : nat) : Z :=
  home_and_away r team
    (fun m => get (home_score r) m s) (fun m => get (away_score r) m s).

Definition team_goals_against (r : Results) (team : string) (s : nat) : Z :=
  home_and_away r team
    (fun m => get (away_score r) m s) (fun m => get (home_score r) m s).

(** The sum of [f] over the fixtures whose team in the list [ts] is [team]. *)
Definition masked (r : Results) (ts : list string) (team : string) (f : nat -> Z) : Z :=
  sum_over (List.length (home_team r))
    (fun m => if String.eqb (nth m ts "") team then f m else 0).

(** The scores lie between 0 and [B]. *)
Definition scores_within (B : Z) (r : Results) : Prop :=
  Forall (Forall (fun v => 0 <= v <= B)) (rows (home_score r))
  /\ Forall (Forall (fun v => 0 <= v <= B)) (rows (away_score r)).

End TableSpec.

(** ** Concrete groups and tournaments *)

Module Examples.

Import Np.

Definition roster : list string := ["a"; "b"; "c"; "d"].

(** Six fixtures in two samples.  Sample 0: [b] wins its three matches, [c]
    beats [a] and [d], [a] beats [d].  Sample 1: every home team wins 1-0. *)
Definition sim_results : Group.Results :=
  Group.mk_results
    ["a"; "c"; "a"; "b"; "a"; "b"]
    ["b"; "d"; "c"; "d"; "d"; "c"]
    (mk_ndarray 2 [[0; 1]; [1; 1]; [0; 1]; [3; 1]; [1; 1]; [2; 1]])
    (mk_ndarray 2 [[1; 0]; [0; 0]; [2; 0]; [0; 0]; [0; 0]; [1; 0]]).

(** The random keys drawn for the standings of the group. *)
Definition draws : ndarray :=
  mk_ndarray 2 [[5; 1]; [2; 7]; [9; 3]; [4; 8]].

(** Group A after [add_results]. *)
Definition group_A : Group.t :=
  snd (Group.add_results sim_results (Group.init "A" roster)).

(** Group A after [calc_table], and its table. *)
Definition tabled_group : Group.t := snd (Group.calc_table group_A).

Definition table_A : Group.Table := Group.calc_table_of roster sim_results.

(** Group A as [Group("A", roster)] leaves it. *)
Definition fresh_group : Group.t := Group.init "A" roster.

(** Standings in which the first position holds the empty name. *)
Definition empty_name_state : Cascade.state :=
  Cascade.mk_state [("1st", Some ""); ("2nd", None); ("3rd", None); ("4th", None)]
                   [] [] [].

(** Standings in which the first position holds team [a]. *)
Definition filled_state : Cascade.state :=
  Cascade.mk_state [("1st", Some "a"); ("2nd", None); ("3rd", None); ("4th", None)]
                   [] [] [].

(** A table in the dictionary form, its teams level on points. *)
Definition dict_state : Cascade.state :=
  Cascade.mk_state
    [("1st", None); ("2nd", None); ("3rd", None); ("4th", None)]
    [("a", [("points", 4); ("goal_difference", 1); ("goals_for", 3)]);
     ("b", [("points", 4); ("goal_difference", 1); ("goals_for", 2)]);
     ("c", [("points", 4); ("goal_difference", 0); ("goals_for", 2)]);
     ("d", [("points", 4); ("goal_difference", 0); ("goals_for", 2)])]
    [[("c", 1); ("d", 1)]]
    [3; 1; 2]%nat.

(** A stand-in for [sort_teams_by]: the teams by decreasing value of the
    metric. *)
Definition value (row : Cascade.dict Z) (metric : string) : Z :=
  match Cascade.dict_get row metric with
  | Ok v => v
  | Raise _ => 0
  end.

Fixpoint place (metric : string) (e : Cascade.entry) (l : list Cascade.entry)
  : list Cascade.entry :=
  match l with
  | [] => [e]
  | e' :: l' =>
      if value (Cascade.scores e') metric <? value (Cascade.scores e) metric
      then e :: e' :: l'
      else e' :: place metric e l'
  end.

Definition sort_desc (d : Cascade.dict (Cascade.dict Z)) (metric : string)
  : result (list Cascade.entry) :=
  Ok (fold_left (fun acc tr => place metric (Cascade.mk_entry (fst tr) (snd tr)) acc)
                d []).

(** A bracket in which the pair 1A, 2A is drawn both in the round of 16 and
    in the quarter-finals. *)
Definition repeated_bracket : Tournament.t :=
  Tournament.mk
    [("a", "A"); ("b", "A"); ("c", "A"); ("d", "A")]
    [Tournament.mk_fixture "Group" "a" "b";
     Tournament.mk_fixture "R16" "1A" "2A";
     Tournament.mk_fixture "QF" "1A" "2A"]
    [("A", group_A)]
    (Tournament.mk_frame 2 [])
    false 2 None.

(** A predictor for which the first team wins in the round of 16 and the
    second one afterwards. *)
Definition home_then_away (stage : string) (t1 t2 : list string) : list string :=
  if String.eqb stage "R16" then t1 else t2.

(** The repeated bracket after the qualifiers are assigned, after the round
    of 16 and after the quarter-finals. *)
Definition after_qualifiers : Tournament.t :=
  snd (Tournament.assign_qualifiers (fun _ => draws) ["A"] repeated_bracket).

Definition after_R16 : Tournament.t :=
  snd (Tournament.play_stage home_then_away "R16" after_qualifiers).

Definition after_QF : Tournament.t :=
  snd (Tournament.play_stage home_then_away "QF" after_R16).

(** [find_group] as a search of [teams_df]. *)
Fixpoint group_of (team : string) (df : list (string * string)) : result string :=
  match df with
  | [] => Raise (IndexError "index 0 is out of bounds")
  | (t, g) :: df' => if String.eqb t team then Ok g else group_of team df'
  end.

(** A finished tournament of one sample, won by [a]. *)
Definition finished_one : Tournament.t :=
  Tournament.mk
    [("a", "A"); ("b", "A"); ("c", "A"); ("d", "A")]
    [Tournament.mk_fixture "F" "1A" "2A"]
    [("A", group_A)]
    (Tournament.mk_frame 1 [("1A", ["a"]); ("2A", ["b"]); ("1A2A", ["a"])])
    true 1 (Some ["a"]).

(** A finished tournament of two samples, won by [a] in both. *)
Definition finished_two : Tournament.t :=
  Tournament.mk
    [("a", "A"); ("b", "A"); ("c", "A"); ("d", "A")]
    [Tournament.mk_fixture "F" "1A" "2A"]
    [("A", group_A)]
    (Tournament.mk_frame 2
       [("1A", ["a"; "a"]); ("2A", ["b"; "c"]); ("1A2A", ["a"; "a"])])
    true 2 (Some ["a"; "a"]).

(** The roster of group A with a fifth team that plays no fixture. *)
Definition roster5 : list string := ["a"; "b"; "c"; "d"; "e"].

(** A table of two teams, level on points and goal difference. *)
Definition two_team_table : Group.Table :=
  Group.mk_table (mk_ndarray 1 [[4]; [4]]) (mk_ndarray 1 [[5]; [2]])
                 (mk_ndarray 1 [[3]; [0]]) (mk_ndarray 1 [[2]; [2]]).

Definition two_draws : ndarray := mk_ndarray 1 [[1]; [2]].

(** Group A with its standings computed. *)
Definition ranked_group : Group.t :=
  snd (Group.calc_standings false draws tabled_group).

(** One stored result in the dictionary form: [a] beat [b] 2-1. *)
Definition h2h_results : list (Cascade.dict Z) := [[("a", 2); ("b", 1)]].

(** A table in the dictionary form with points 9, 6, 3, 0. *)
Definition ordered_state : Cascade.state :=
  Cascade.mk_state
    [("1st", None); ("2nd", None); ("3rd", None); ("4th", None)]
    [("a", [("points", 9)]); ("b", [("points", 6)]);
     ("c", [("points", 3)]); ("d", [("points", 0)])]
    [] [].

(** The teams data of one group. *)
Definition teams_data_A : list (string * string) :=
  [("a", "A"); ("b", "A"); ("c", "A"); ("d", "A")].

(** A predictor of scores that returns the results of the examples. *)
Definition score_A (t1 t2 : list string) (samples : nat) : Group.Results :=
  sim_results.

End Examples.

(** * Proofs *)

(** ** Lists and arrays *)

Module ListFacts.

Import Np.

Lemma map2_length {A B C : Type} (f : A -> B -> C) (l : list A) (m : list B) :
  List.length m = List.length l -> List.length (map2 f l m) = List.length l.
Proof.
  revert m; induction l as [|x l IH]; intros [|y m] H; simpl in *; try congruence.
  f_equal. apply IH. congruence.
Qed.

Lemma nth_map2 {A B C : Type} (f : A -> B -> C) (l : list A) (m : list B) i da db dc :
  (i < List.length l)%nat -> (i < List.length m)%nat ->
  nth i (map2 f l m) dc = f (nth i l da) (nth i m db).
Proof.
  revert m i; induction l as [|x l IH]; intros [|y m] [|i] Hl Hm; simpl in *;
    try lia; auto.
  apply IH; lia.
Qed.

Lemma nth_map_in {A B : Type} (f : A -> B) (l : list A) i da db :
  (i < List.length l)%nat -> nth i (map f l) db = f (nth i l da).
Proof.
  intro H. rewrite (nth_indep _ db (f da)) by (rewrite length_map; exact H).
  apply map_nth.
Qed.

End ListFacts.

(** ** The table *)

Module TableFacts.

Import Np Group TableSpec ListFacts.

Lemma wrap64_small (z : Z) : - 2 ^ 63 <= z < 2 ^ 63 -> wrap64 z = z.
Proof.
  intro H. unfold wrap64. rewrite Z.mod_small; lia.
Qed.

Lemma wrap64_add_l (a b : Z) : wrap64 (wrap64 a + b) = wrap64 (a + b).
Proof.
  unfold wrap64. f_equal.
  replace ((a + 2 ^ 63) mod 2 ^ 64 - 2 ^ 63 + b + 2 ^ 63)
    with ((a + 2 ^ 63) mod 2 ^ 64 + b) by lia.
  rewrite Z.add_mod_idemp_l by lia. f_equal. lia.
Qed.

Lemma wrap64_add_r (a b : Z) : wrap64 (a + wrap64 b) = wrap64 (a + b).
Proof. rewrite (Z.add_comm a), wrap64_add_l, Z.add_comm. reflexivity. Qed.

Lemma to_float_small (v : Z) : Z.abs v < 2 ^ 53 -> to_float v = v.
Proof.
  intro H. unfold to_float. cbv zeta.
  destruct (Z.ltb_spec (Z.abs v) (2 ^ 53)); [reflexivity | lia].
Qed.

Lemma nth_vadd (u v : list Z) s :
  List.length v = List.length u ->
  nth s (vadd u v) 0 = wrap64 (nth s u 0 + nth s v 0).
Proof.
  revert v s; induction u as [|x u IH]; intros [|y v] [|s] H; simpl in *;
    try congruence; try reflexivity.
  apply IH. congruence.
Qed.

Lemma nth_vsub (u v : list Z) s :
  List.length v = List.length u ->
  nth s (vsub u v) 0 = to_float (nth s u 0 - nth s v 0).
Proof.
  revert v s; induction u as [|x u IH]; intros [|y v] [|s] H; simpl in *;
    try congruence; try reflexivity.
  apply IH. congruence.
Qed.

Lemma nth_as_float (u : list Z) s : nth s (as_float u) 0 = to_float (nth s u 0).
Proof. unfold as_float. apply (map_nth to_float u 0 s). Qed.

Lemma vadd_length (u v : list Z) :
  List.length v = List.length u -> List.length (vadd u v) = List.length u.
Proof. apply map2_length. Qed.

(** Entry [s] of a sum along axis 0 is the int64 value of the sum of the
    entries [s]. *)
Lemma nth_fold_vadd (rs : list (list Z)) (acc : list Z) (x : Z) s :
  Forall (fun r => List.length r = List.length acc) rs ->
  nth s acc 0 = wrap64 x ->
  nth s (fold_left vadd rs acc) 0
  = wrap64 (x + fold_right Z.add 0 (map (fun r => nth s r 0) rs))
  /\ List.length (fold_left vadd rs acc) = List.length acc.
Proof.
  revert acc x; induction rs as [|r rs IH]; intros acc x H A; simpl.
  - rewrite Z.add_0_r. split; [exact A | reflexivity].
  - inversion H as [|? ? Hr Hrs]; subst.
    destruct (IH (vadd acc r) (x + nth s r 0)) as [E L].
    + rewrite vadd_length by assumption. assumption.
    + rewrite nth_vadd, A, wrap64_add_l by assumption. reflexivity.
    + rewrite E, L, vadd_length by assumption.
      split; [f_equal; lia | reflexivity].
Qed.

Lemma select_Forall (P : list Z -> Prop) mask rs :
  Forall P rs -> Forall P (select mask rs).
Proof.
  revert mask; induction rs as [|r rs IH]; intros [|b mask] H; simpl; auto.
  inversion H; subst. destruct b; auto.
Qed.

Lemma sum_over_S n f :
  sum_over (S n) f = f O + sum_over n (fun m => f (S m)).
Proof.
  unfold sum_over. simpl. f_equal. rewrite <- seq_shift, map_map. reflexivity.
Qed.

Lemma sum_over_ext n f g :
  (forall m, (m < n)%nat -> f m = g m) -> sum_over n f = sum_over n g.
Proof.
  revert f g; induction n as [|n IH]; intros f g H; [reflexivity|].
  rewrite !sum_over_S. rewrite (H O) by lia. f_equal.
  apply IH. intros m Hm. apply H. lia.
Qed.

Lemma sum_over_bounds n f (K : Z) :
  (forall m, (m < n)%nat -> 0 <= f m <= K) ->
  0 <= sum_over n f <= Z.of_nat n * K.
Proof.
  revert f; induction n as [|n IH]; intros f H; [cbn; lia|].
  rewrite sum_over_S.
  assert (H0 := H O ltac:(lia)).
  assert (H1 := IH (fun m => f (S m)) (fun m Hm => H (S m) ltac:(lia))).
  lia.
Qed.

(** The sum of the selected rows, as a sum over all rows. *)
Lemma sum_select (g : list Z -> Z) mask rs :
  List.length mask = List.length rs ->
  fold_right Z.add 0 (map g (select mask rs))
  = sum_over (List.length rs) (fun m => if nth m mask false then g (nth m rs []) else 0).
Proof.
  revert mask; induction rs as [|r rs IH]; intros [|b mask] H; simpl in *;
    try congruence; try reflexivity.
  rewrite sum_over_S. simpl. destruct b; simpl; rewrite IH by congruence; lia.
Qed.

Lemma nth_sum_axis0_select S mask rs s :
  Forall (fun r => List.length r = S) rs ->
  List.length mask = List.length rs ->
  nth s (sum_axis0 S (select mask rs)) 0
  = wrap64 (sum_over (List.length rs)
              (fun m => if nth m mask false then nth s (nth m rs []) 0 else 0))
  /\ List.length (sum_axis0 S (select mask rs)) = S.
Proof.
  intros Hwf Hlen. unfold sum_axis0.
  destruct (nth_fold_vadd (select mask rs) (repeat 0 S) 0 s) as [E L].
  - apply select_Forall. rewrite repeat_length. assumption.
  - rewrite nth_repeat. reflexivity.
  - rewrite E, L, repeat_length. split; [|reflexivity].
    rewrite (sum_select (fun r => nth s r 0)) by assumption. reflexivity.
Qed.

Lemma get_zip (f : Z -> Z -> Z) (a b : ndarray) m s :
  wf a -> wf b -> axis1 b = axis1 a -> axis0 b = axis0 a ->
  (m < axis0 a)%nat -> (s < axis1 a)%nat ->
  get (zip f a b) m s = f (get a m s) (get b m s).
Proof.
  unfold wf, axis0, get, zip. destruct a as [Sa ra], b as [Sb rb]; simpl.
  intros Ha Hb E1 E0 Hm Hs. subst Sb.
  rewrite (nth_map2 (map2 f) ra rb m [] [] []) by lia.
  rewrite Forall_forall in Ha, Hb.
  assert (La : List.length (nth m ra []) = Sa) by (apply Ha, nth_In; lia).
  assert (Lb : List.length (nth m rb []) = Sa) by (apply Hb, nth_In; lia).
  apply nth_map2; lia.
Qed.

Lemma wf_zip_rows (f : Z -> Z -> Z) (a b : ndarray) :
  wf a -> wf b -> axis1 b = axis1 a -> axis0 b = axis0 a ->
  Forall (fun r => List.length r = axis1 a) (rows (zip f a b))
  /\ List.length (rows (zip f a b)) = axis0 a.
Proof.
  unfold wf, axis0, zip. destruct a as [Sa ra], b as [Sb rb]; simpl.
  intros Ha Hb E1 E0. subst Sb. split; [|apply map2_length; assumption].
  revert rb Hb E0. induction ra as [|x ra IH]; intros [|y rb] Hb E0; simpl in *;
    try congruence; constructor.
  - inversion Ha; inversion Hb; subst. rewrite map2_length; congruence.
  - inversion Ha; inversion Hb; subst. apply IH; auto.
Qed.

Lemma pts_match_points x y : pts x y = match_points x y.
Proof.
  unfold pts, match_points, b2z.
  destruct (Z.eqb_spec x y), (Z.gtb_spec x y); try reflexivity; lia.
Qed.

Lemma away_pts_match_points h a :
  (let p := 3 * b2z (h <? a) in if h =? a then 1 else p) = match_points a h.
Proof.
  unfold match_points, b2z. cbv zeta.
  destruct (Z.eqb_spec h a), (Z.ltb_spec h a), (Z.gtb_spec a h), (Z.eqb_spec a h);
    try reflexivity; lia.
Qed.

Lemma match_points_bounds x y : 0 <= match_points x y <= 3.
Proof.
  unfold match_points. destruct (x >? y); [lia|]. destruct (x =? y); lia.
Qed.

(** Results of one shape need no broadcasting. *)
Lemma broadcast_away_wf (r : Results) : results_wf r -> broadcast_away r = r.
Proof.
  intros (_ & _ & E1 & _). unfold broadcast_away, broadcast_cols. rewrite E1.
  destruct (Nat.eqb (axis1 (home_score r)) 1); cbn [andb negb];
    destruct r; reflexivity.
Qed.

(** numpy raises no fault on results of one shape. *)
Lemma table_fault_wf (n : nat) (r : Results) : results_wf r -> table_fault n r = None.
Proof.
  intros (_ & _ & E1 & Nh & Na & Lt). unfold table_fault, compatible, broadcast_len.
  rewrite E1, Nh, Na, Lt, !Nat.eqb_refl. cbn [orb andb negb].
  destruct (Nat.eqb n 0); [reflexivity|].
  destruct (Nat.eqb (List.length (home_team r)) 1),
           (Nat.eqb (axis1 (home_score r)) 1);
    rewrite ?Nat.eqb_refl; reflexivity.
Qed.

(** Entry [s] of a masked sum of the rows of an array over the fixtures. *)
Lemma masked_sum (r : Results) (a : ndarray) (ts : list string) (team : string) s :
  Forall (fun row => List.length row = axis1 (home_score r)) (rows a) ->
  List.length (rows a) = List.length (home_team r) ->
  List.length ts = List.length (home_team r) ->
  let v := sum_axis0 (axis1 (home_score r))
             (select (map (fun t => String.eqb t team) ts) (rows a)) in
  nth s v 0
  = wrap64 (sum_over (List.length (home_team r))
              (fun m => if String.eqb (nth m ts "") team then get a m s else 0))
  /\ List.length v = axis1 (home_score r).
Proof.
  intros Hwf Hn Hts v. subst v.
  destruct (nth_sum_axis0_select (axis1 (home_score r))
              (map (fun t => String.eqb t team) ts) (rows a) s Hwf) as [E L];
    [rewrite length_map; congruence |].
  split; [|exact L]. rewrite E, Hn. f_equal. apply sum_over_ext. intros m Hm.
  rewrite (nth_map_in _ ts m "" false) by lia. reflexivity.
Qed.

Lemma get_within (B : Z) (a : ndarray) m s :
  Forall (Forall (fun v => 0 <= v <= B)) (rows a) ->
  (m < axis0 a)%nat -> (s < List.length (nth m (rows a) []))%nat ->
  0 <= get a m s <= B.
Proof.
  intros H Hm Hs. unfold get. rewrite Forall_forall in H.
  assert (R : Forall (fun v => 0 <= v <= B) (nth m (rows a) [])).
  { apply H, nth_In. exact Hm. }
  rewrite Forall_forall in R. apply R, nth_In. exact Hs.
Qed.

Lemma masked_bounds n (p : nat -> bool) (f : nat -> Z) (K : Z) :
  (forall m, (m < n)%nat -> 0 <= f m <= K) -> 0 <= K ->
  0 <= sum_over n (fun m => if p m then f m else 0) <= Z.of_nat n * K.
Proof.
  intros H HK. apply sum_over_bounds. intros m Hm.
  specialize (H m Hm). destruct (p m); lia.
Qed.

(** The float64 entry made of two int64 sums that are small is their sum. *)
Lemma stored_sum (x y N : Z) :
  0 <= x <= N -> 0 <= y <= N -> 2 * N < 2 ^ 53 ->
  to_float (wrap64 (wrap64 x + wrap64 y)) = x + y.
Proof.
  intros Hx Hy HN. rewrite wrap64_add_l, wrap64_add_r.
  rewrite wrap64_small by lia. apply to_float_small. lia.
Qed.

(** The entries of the table of results of one shape, as numpy computes them:
    the int64 sums over the home and the away fixtures, added as int64 and
    stored as float64. *)
Lemma table_entries_raw (teams : list string) (r : Results) (i s : nat) :
  results_wf r ->
  (i < List.length teams)%nat ->
  let tb := calc_table_of teams r in
  let team := nth i teams "" in
  let stored h a :=
    to_float (wrap64 (wrap64 (masked r (home_team r) team h)
                      + wrap64 (masked r (away_team r) team a))) in
  get (points tb) i s
  = stored (fun m => get (home_pts r) m s) (fun m => get (away_pts r) m s)
  /\ get (goals_for tb) i s
     = stored (fun m => get (home_score r) m s) (fun m => get (away_score r) m s)
  /\ get (goals_against tb) i s
     = stored (fun m => get (away_score r) m s) (fun m => get (home_score r) m s)
  /\ get (goal_difference tb) i s
     = to_float (get (goals_for tb) i s - get (goals_against tb) i s).
Proof.
  intros Wf Hi tb team stored.
  pose proof Wf as (Hh & Ha & E1 & Nh & Na & Lt).
  destruct (wf_zip_rows pts (home_score r) (away_score r)) as [Wh Lh];
    auto; try congruence.
  destruct (wf_zip_rows (fun h a => let p := 3 * b2z (h <? a) in if h =? a then 1 else p)
              (home_score r) (away_score r)) as [Wa La]; auto; try congruence.
  fold (home_pts r) in Wh, Lh. fold (away_pts r) in Wa, La.
  pose proof (fun a W L ts T => masked_sum r a ts team s W L T) as MS.
  cbv zeta in MS.
  destruct (MS (home_pts r) Wh (eq_trans Lh Nh) (home_team r) eq_refl) as [P1 Q1].
  destruct (MS (away_pts r) Wa (eq_trans La Nh) (away_team r) Lt) as [P2 Q2].
  destruct (MS (home_score r) Hh Nh (home_team r) eq_refl) as [P3 Q3].
  assert (Ha' : Forall (fun row => List.length row = axis1 (home_score r))
                  (rows (away_score r))) by (rewrite <- E1; exact Ha).
  destruct (MS (away_score r) Ha' Na (away_team r) Lt) as [P4 Q4].
  destruct (MS (away_score r) Ha' Na (home_team r) eq_refl) as [P5 Q5].
  destruct (MS (home_score r) Hh Nh (away_team r) Lt) as [P6 Q6].
  assert (Row : forall (f : list Z * list Z * list Z * list Z -> list Z) a,
            rows a = map f (map (team_rows (broadcast_away r)) teams) ->
            get a i s = nth s (f (team_rows r team)) 0).
  { intros f a Ea. unfold get. rewrite Ea, map_map, broadcast_away_wf by exact Wf.
    rewrite (nth_map_in _ teams i "" []) by assumption. reflexivity. }
  rewrite (Row (fun q => fst (fst (fst q))) (points tb) eq_refl).
  rewrite (Row (fun q => snd (fst (fst q))) (goals_for tb) eq_refl).
  rewrite (Row (fun q => snd (fst q)) (goals_against tb) eq_refl).
  rewrite (Row (fun q => snd q) (goal_difference tb) eq_refl).
  unfold team_rows. cbv zeta. cbn [fst snd].
  rewrite nth_vsub by (unfold as_float; rewrite !length_map, !vadd_length; congruence).
  rewrite !nth_as_float.
  rewrite !nth_vadd by congruence.
  rewrite P1, P2, P3, P4, P5, P6.
  unfold stored, masked. repeat split; reflexivity.
Qed.

Lemma home_pts_entry (r : Results) (m s : nat) :
  results_wf r -> (m < List.length (home_team r))%nat -> (s < axis1 (home_score r))%nat ->
  get (home_pts r) m s = match_points (get (home_score r) m s) (get (away_score r) m s).
Proof.
  intros (Hh & Ha & E1 & Nh & Na & Lt) Hm Hs. unfold home_pts.
  rewrite get_zip by (auto; congruence). apply pts_match_points.
Qed.

Lemma away_pts_entry (r : Results) (m s : nat) :
  results_wf r -> (m < List.length (home_team r))%nat -> (s < axis1 (home_score r))%nat ->
  get (away_pts r) m s = match_points (get (away_score r) m s) (get (home_score r) m s).
Proof.
  intros (Hh & Ha & E1 & Nh & Na & Lt) Hm Hs. unfold away_pts.
  rewrite get_zip by (auto; congruence). apply away_pts_match_points.
Qed.

(** The entries of the table of results of one shape whose scores are at most
    [B], when twice the number of fixtures times [max B 3] is below 2^53. *)
Lemma table_entries (B : Z) (teams : list string) (r : Results) (i s : nat) :
  results_wf r ->
  scores_within B r ->
  2 * Z.of_nat (List.length (home_team r)) * Z.max B 3 < 2 ^ 53 ->
  (i < List.length teams)%nat ->
  (s < axis1 (home_score r))%nat ->
  let tb := calc_table_of teams r in
  let team := nth i teams "" in
  (forall m, (m < List.length (home_team r))%nat ->
     get (home_pts r) m s = match_points (get (home_score r) m s) (get (away_score r) m s)
     /\ get (away_pts r) m s = match_points (get (away_score r) m s) (get (home_score r) m s))
  /\ get (points tb) i s = team_points r team s
  /\ get (goals_for tb) i s = team_goals_for r team s
  /\ get (goals_against tb) i s = team_goals_against r team s
  /\ get (goal_difference tb) i s = get (goals_for tb) i s - get (goals_against tb) i s.
Proof.
  intros Wf [Bh Ba] Small Hi Hs tb team.
  pose proof Wf as (Hh & Ha & E1 & Nh & Na & Lt).
  pose proof (fun m Hm => home_pts_entry r m s Wf Hm Hs) as Hhp.
  pose proof (fun m Hm => away_pts_entry r m s Wf Hm Hs) as Hap.
  split; [intros m Hm; split; auto|].
  destruct (table_entries_raw teams r i s Wf Hi) as (P & F & A & D).
  fold tb team in P, F, A, D. rewrite D, P, F, A. clear D P F A.
  assert (Ha' : Forall (fun row => List.length row = axis1 (home_score r))
                  (rows (away_score r))) by (rewrite <- E1; exact Ha).
  assert (Gh : forall m, (m < List.length (home_team r))%nat ->
            0 <= get (home_score r) m s <= B).
  { intros m Hm. apply get_within; [exact Bh | unfold axis0 in *; lia |].
    unfold wf in Hh. rewrite Forall_forall in Hh.
    rewrite (Hh (nth m (rows (home_score r)) [])); [exact Hs|].
    apply nth_In. unfold axis0 in *; lia. }
  assert (Ga : forall m, (m < List.length (home_team r))%nat ->
            0 <= get (away_score r) m s <= B).
  { intros m Hm. apply get_within; [exact Ba | unfold axis0 in *; lia |].
    rewrite Forall_forall in Ha'.
    rewrite (Ha' (nth m (rows (away_score r)) [])); [exact Hs|].
    apply nth_In. unfold axis0 in *; lia. }
  unfold masked.
  set (n := List.length (home_team r)) in *.
  set (K := Z.max B 3) in *.
  pose proof (fun p f H => masked_bounds n p f K H ltac:(lia)) as MB.
  assert (Gh' : forall m, (m < n)%nat -> 0 <= get (home_score r) m s <= K)
    by (intros m Hm; specialize (Gh m Hm); lia).
  assert (Ga' : forall m, (m < n)%nat -> 0 <= get (away_score r) m s <= K)
    by (intros m Hm; specialize (Ga m Hm); lia).
  assert (Ph : forall m, (m < n)%nat -> 0 <= get (home_pts r) m s <= K).
  { intros m Hm. rewrite Hhp by exact Hm.
    pose proof (match_points_bounds (get (home_score r) m s) (get (away_score r) m s)).
    lia. }
  assert (Pa : forall m, (m < n)%nat -> 0 <= get (away_pts r) m s <= K).
  { intros m Hm. rewrite Hap by exact Hm.
    pose proof (match_points_bounds (get (away_score r) m s) (get (home_score r) m s)).
    lia. }
  assert (X1 := MB (fun m => String.eqb (nth m (home_team r) "") team) _ Ph).
  assert (X2 := MB (fun m => String.eqb (nth m (away_team r) "") team) _ Pa).
  assert (X3 := MB (fun m => String.eqb (nth m (home_team r) "") team) _ Gh').
  assert (X4 := MB (fun m => String.eqb (nth m (away_team r) "") team) _ Ga').
  assert (X5 := MB (fun m => String.eqb (nth m (home_team r) "") team) _ Ga').
  assert (X6 := MB (fun m => String.eqb (nth m (away_team r) "") team) _ Gh').
  cbv beta in X1, X2, X3, X4, X5, X6.
  assert (NK : 2 * (Z.of_nat n * K) < 2 ^ 53) by lia.
  rewrite (stored_sum _ _ (Z.of_nat n * K) X1 X2 NK).
  rewrite (stored_sum _ _ (Z.of_nat n * K) X3 X4 NK).
  rewrite (stored_sum _ _ (Z.of_nat n * K) X5 X6 NK).
  rewrite to_float_small by lia.
  unfold team_points, team_goals_for, team_goals_against, home_and_away,
    played_home, played_away. fold n.
  repeat split; try reflexivity.
  f_equal; apply sum_over_ext; intros m Hm;
    destruct (String.eqb _ team); auto.
Qed.

(** C4. For results of one shape whose scores lie between 0 and [B], with
    twice the number of fixtures times [max B 3] below 2^53 (so that no int64
    sum wraps and every float64 entry is exact), [calc_table] gives a match 3
    points to the side with more goals, 0 to the other and 1 to each on a
    draw, in every sample, and the row of a team holds, in every sample, the
    sums of its points, goals for and goals against over the fixtures it
    played at home and away; the goal difference is goals for minus goals
    against. *)
Theorem calc_table_sums (B : Z) (teams : list string) (r : Results) (i s : nat) :
  results_wf r ->
  scores_within B r ->
  2 * Z.of_nat (List.length (home_team r)) * Z.max B 3 < 2 ^ 53 ->
  (i < List.length teams)%nat ->
  (s < axis1 (home_score r))%nat ->
  let tb := calc_table_of teams r in
  let team := nth i teams "" in
  (forall m, (m < List.length (home_team r))%nat ->
     get (home_pts r) m s = match_points (get (home_score r) m s) (get (away_score r) m s)
     /\ get (away_pts r) m s = match_points (get (away_score r) m s) (get (home_score r) m s))
  /\ get (points tb) i s = team_points r team s
  /\ get (goals_for tb) i s = team_goals_for r team s
  /\ get (goals_against tb) i s = team_goals_against r team s
  /\ get (goal_difference tb) i s = get (goals_for tb) i s - get (goals_against tb) i s.
Proof. exact (table_entries B teams r i s). Qed.

(** The points of [b] in sample 0 of the example results, whose scores are at
    most 3. *)
Lemma calc_table_sums_witness :
  get (points (calc_table_of Examples.roster Examples.sim_results)) 1 0
  = team_points Examples.sim_results "b" 0.
Proof.
  refine (proj1 (proj2 (calc_table_sums 3 Examples.roster Examples.sim_results 1 0 _ _ _ _ _))).
  - repeat split; repeat constructor.
  - split; repeat (first [lia | constructor]).
  - vm_compute. reflexivity.
  - repeat constructor.
  - repeat constructor.
Defined.

End TableFacts.

(** ** The standings of the default policy *)

Module StandingsFacts.

Import Np Group ListFacts Examples.

Lemma insert_perm ks i l : Permutation (insert ks i l) (i :: l).
Proof.
  induction l as [|j l IH]; simpl; [reflexivity|].
  destruct (key_ltb _ _); [reflexivity|].
  rewrite IH. apply perm_swap.
Qed.

Lemma fold_insert_perm ks idx acc :
  Permutation (fold_left (fun sorted i => insert ks i sorted) idx acc) (idx ++ acc).
Proof.
  revert acc; induction idx as [|i idx IH]; intro acc; simpl; [reflexivity|].
  rewrite IH, insert_perm. symmetry. apply Permutation_middle.
Qed.

(** [argsort] returns every index once. *)
Lemma argsort_perm ks : Permutation (argsort ks) (seq 0 (List.length ks)).
Proof.
  unfold argsort. rewrite fold_insert_perm, app_nil_r. reflexivity.
Qed.

Lemma column_keys_length k4 k3 k2 k1 s :
  List.length (column_keys k4 k3 k2 k1 s) = axis0 k1.
Proof. unfold column_keys. rewrite length_map, length_seq. reflexivity. Qed.

Lemma nth_self_seq (l : list Z) :
  map (fun i => nth i l 0) (seq 0 (List.length l)) = l.
Proof.
  apply (nth_ext _ _ 0 0); rewrite length_map, length_seq; [reflexivity|].
  intros i Hi.
  rewrite (nth_map_in _ _ i O 0) by (rewrite length_seq; exact Hi).
  rewrite seq_nth by exact Hi. reflexivity.
Qed.

(** Column [s] of the standings: the number of teams minus the indices that
    sort the keys of the sample. *)
Lemma standings_column n tb rnd s :
  (s < axis1 (points tb))%nat ->
  column (default_standings n tb rnd) s
  = map (fun i => Z.of_nat n - Z.of_nat i)
        (argsort (column_keys rnd (goals_for tb) (goal_difference tb) (points tb) s)).
Proof.
  intro Hs. unfold column, default_standings, lexsort, of_columns. cbn [rows axis1].
  set (ks := column_keys rnd (goals_for tb) (goal_difference tb) (points tb)).
  set (cols := map (fun s0 => map Z.of_nat (argsort (ks s0))) (seq 0 (axis1 (points tb)))).
  assert (Hc : nth s cols [] = map Z.of_nat (argsort (ks s))).
  { unfold cols. rewrite (nth_map_in _ _ s O []) by (rewrite length_seq; exact Hs).
    rewrite seq_nth by exact Hs. reflexivity. }
  assert (Hl : List.length cols = axis1 (points tb))
    by (unfold cols; rewrite length_map, length_seq; reflexivity).
  rewrite !map_map.
  assert (Hn : List.length (map Z.of_nat (argsort (ks s))) = axis0 (points tb)).
  { rewrite length_map, (Permutation_length (argsort_perm _)), length_seq.
    apply column_keys_length. }
  rewrite <- (map_map Z.of_nat (fun v => Z.of_nat n - v)).
  set (L := map Z.of_nat (argsort (ks s))) in *.
  replace (map (fun v => Z.of_nat n - v) L)
    with (map (fun v => Z.of_nat n - v)
              (map (fun i => nth i L 0) (seq 0 (List.length L))))
    by (rewrite nth_self_seq; reflexivity).
  rewrite Hn, map_map. apply map_ext_in. intros i _.
  rewrite (nth_map_in _ _ s 0 0) by (rewrite length_map; lia).
  rewrite (nth_map_in _ _ s [] 0) by lia.
  rewrite Hc. reflexivity.
Qed.
Lemma get_column (a : ndarray) k s : get a k s = nth k (column a s) 0.
Proof.
  unfold get, column. revert k.
  induction (rows a) as [|r rs IH]; intros [|k]; simpl; auto;
    destruct s; reflexivity.
Qed.

Lemma calc_standings_default (g : t) (tb : Table) (rnd : ndarray) :
  table g = Some tb ->
  calc_standings false rnd g
  = (Ok tt, set_standings g (default_standings (List.length (teams g)) tb rnd)).
Proof. intro H. unfold calc_standings. rewrite H. cbn. rewrite H. reflexivity. Qed.

(** C2. For a group of 4 teams with a computed table, the standings of the
    default policy hold, in every sample, each of the positions 1, 2, 3, 4
    for exactly one team, and every team holds one of them. *)
Theorem calc_standings_bijection (g : t) (tb : Table) (rnd : ndarray) (s : nat) :
  table g = Some tb ->
  List.length (teams g) = 4%nat ->
  axis0 (points tb) = 4%nat ->
  (s < axis1 (points tb))%nat ->
  exists st,
    calc_standings false rnd g = (Ok tt, set_standings g st)
    /\ Permutation (column st s) [1; 2; 3; 4]
    /\ (forall p, In p [1; 2; 3; 4] ->
          exists k, (k < 4)%nat /\ get st k s = p
                    /\ forall k', (k' < 4)%nat -> get st k' s = p -> k' = k)
    /\ (forall k, (k < 4)%nat -> In (get st k s) [1; 2; 3; 4]).
Proof.
  intros Ht Hn H0 Hs.
  exists (default_standings (List.length (teams g)) tb rnd).
  split; [apply calc_standings_default; exact Ht|].
  assert (P : Permutation (column (default_standings (List.length (teams g)) tb rnd) s)
                          [1; 2; 3; 4]).
  { rewrite standings_column by exact Hs. rewrite Hn.
    rewrite (Permutation_map _ (argsort_perm _)), column_keys_length, H0.
    cbn. symmetry. apply (Permutation_rev [1; 2; 3; 4]). }
  set (col := column (default_standings (List.length (teams g)) tb rnd) s) in *.
  assert (L : List.length col = 4%nat) by (rewrite (Permutation_length P); reflexivity).
  assert (ND : NoDup col).
  { apply (Permutation_NoDup (Permutation_sym P)).
    repeat constructor; simpl; intuition lia. }
  split; [exact P|]. split.
  - intros p Hp. apply (Permutation_in _ (Permutation_sym P)) in Hp.
    destruct (In_nth _ _ 0 Hp) as (k & Hk & E).
    exists k. rewrite get_column. repeat split; [lia | exact E |].
    intros k' Hk' E'. rewrite get_column in E'.
    apply (proj1 (NoDup_nth col 0) ND); try lia. fold col in E'. congruence.
  - intros k Hk. rewrite get_column. apply (Permutation_in _ P).
    apply nth_In. lia.
Qed.

(** Sample 0 of group A. *)
Lemma calc_standings_bijection_witness :
  exists st,
    calc_standings false draws tabled_group = (Ok tt, set_standings tabled_group st)
    /\ Permutation (column st 0) [1; 2; 3; 4].
Proof.
  destruct (calc_standings_bijection tabled_group table_A draws 0)
    as (st & E & P & _).
  - reflexivity.
  - reflexivity.
  - reflexivity.
  - repeat constructor.
  - exists st. split; assumption.
Defined.

Lemma key_ltb_points (a b : key) :
  fst (fst (fst a)) < fst (fst (fst b)) -> key_ltb a b = true.
Proof.
  destruct a as [[[a1 a2] a3] a4], b as [[[b1 b2] b3] b4]. simpl. intro H.
  apply Z.ltb_lt in H. rewrite H. reflexivity.
Qed.

(** C8. For a group of 4 teams whose points are strictly decreasing along the
    roster in a sample, the standings of the default policy give the teams
    the positions 1, 2, 3, 4 in the order of the roster in that sample,
    whatever the goal differences, the goals and the random draws are. *)
Theorem calc_standings_decreasing_points (g : t) (tb : Table) (rnd : ndarray) (s : nat) :
  table g = Some tb ->
  List.length (teams g) = 4%nat ->
  axis0 (points tb) = 4%nat ->
  (s < axis1 (points tb))%nat ->
  get (points tb) 0 s > get (points tb) 1 s ->
  get (points tb) 1 s > get (points tb) 2 s ->
  get (points tb) 2 s > get (points tb) 3 s ->
  exists st,
    calc_standings false rnd g = (Ok tt, set_standings g st)
    /\ column st s = [1; 2; 3; 4]
    /\ forall k, (k < 4)%nat -> get st k s = Z.of_nat k + 1.
Proof.
  intros Ht Hn H0 Hs P01 P12 P23.
  exists (default_standings (List.length (teams g)) tb rnd).
  split; [apply calc_standings_default; exact Ht|].
  assert (E : column (default_standings (List.length (teams g)) tb rnd) s = [1; 2; 3; 4]).
  { rewrite standings_column by exact Hs. rewrite Hn.
    unfold argsort. rewrite column_keys_length, H0.
    unfold column_keys. rewrite H0. cbn [seq map fold_left insert key_at nth].
    rewrite (key_ltb_points (get (points tb) 1 s, _, _, _)) by (cbn; lia).
    cbn [insert key_at nth].
    rewrite (key_ltb_points (get (points tb) 2 s, _, _, _)) by (cbn; lia).
    cbn [insert key_at nth].
    rewrite (key_ltb_points (get (points tb) 3 s, _, _, _)) by (cbn; lia).
    reflexivity. }
  split; [exact E|].
  intros k Hk. rewrite get_column, E.
  destruct k as [|[|[|[|k]]]]; try lia; reflexivity.
Qed.

(** Sample 1 of group A, where the points are 9, 6, 3, 0. *)
Lemma calc_standings_decreasing_points_witness :
  exists st,
    calc_standings false draws tabled_group = (Ok tt, set_standings tabled_group st)
    /\ column st 1 = [1; 2; 3; 4].
Proof.
  destruct (calc_standings_decreasing_points tabled_group table_A draws 1)
    as (st & E & C & _).
  - reflexivity.
  - reflexivity.
  - reflexivity.
  - repeat constructor.
  - reflexivity.
  - reflexivity.
  - reflexivity.
  - exists st. split; assumption.
Defined.

(** C7, as amended.  [calc_standings] with [head_to_head=True] always raises
    and leaves the standings of the group as they were.  When the group has a
    table, or stored results of one shape, the fault is the "not implemented"
    one; when it has no table, [calc_table] runs first and its fault, if it
    raises one, is the fault of the call. *)
Theorem calc_standings_head_to_head_raises (g : Group.t) (rnd : ndarray) :
  exists e g',
    calc_standings true rnd g = (Raise e, g')
    /\ Group.standings g' = Group.standings g
    /\ (Group.table g <> None
        \/ (exists r, Group.results g = Some r /\ results_wf r) ->
        e = NotImplementedError "Not updated head-to-head logic")
    /\ (Group.table g = None ->
        e = match fst (calc_table g) with
            | Raise e' => e'
            | Ok _ => NotImplementedError "Not updated head-to-head logic"
            end).
Proof.
  unfold calc_standings, calc_table.
  destruct (Group.table g) as [tb|] eqn:T.
  - rewrite T. cbn. do 2 eexists.
    split; [reflexivity|]. split; [reflexivity|]. split; [reflexivity | discriminate].
  - destruct (Group.results g) as [r|] eqn:R.
    + destruct (table_fault (List.length (teams g)) r) as [e|] eqn:F; cbn.
      * do 2 eexists.
        split; [reflexivity|]. split; [reflexivity|]. split; [|reflexivity].
        intros [H|(r' & E & W)]; [congruence|].
        injection E as <-. rewrite (TableFacts.table_fault_wf _ _ W) in F.
        discriminate.
      * do 2 eexists.
        split; [reflexivity|]. split; [reflexivity|]. split; reflexivity.
    + cbn. do 2 eexists.
      split; [reflexivity|]. split; [reflexivity|]. split; [|reflexivity].
      intros [H|(r' & E & _)]; congruence.
Qed.

(** Group A with its stored results. *)
Lemma calc_standings_head_to_head_raises_witness :
  exists g',
    calc_standings true draws group_A
    = (Raise (NotImplementedError "Not updated head-to-head logic"), g')
    /\ Group.standings g' = Group.standings group_A.
Proof.
  destruct (calc_standings_head_to_head_raises group_A draws) as (e & g' & E & S & N & _).
  exists g'. rewrite E, S. rewrite N.
  - split; reflexivity.
  - right. exists sim_results. split; [reflexivity|].
    repeat split; repeat constructor.
Defined.

(** C7, the claim as stated fails: on a group without results the call
    raises the type error of [calc_table], not the "not implemented"
    fault. *)
Lemma calc_standings_head_to_head_fresh :
  calc_standings true draws fresh_group
  = (Raise (TypeError "'NoneType' object is not subscriptable"), fresh_group).
Proof. reflexivity. Qed.

(** C1, on group A of the examples.  In sample 0 the points are 3, 9, 6, 0
    along the roster, so [b] and [c] are ranked first and second; the first
    qualifier that [get_qualifiers] returns for that sample is [a]. *)
Theorem get_qualifiers_not_top_two :
  fst (get_qualifiers draws group_A) = Ok (["a"; "a"], ["c"; "b"])
  /\ option_map (fun tb => column (points tb) 0)
       (Group.table (snd (get_qualifiers draws group_A))) = Some [3; 9; 6; 0].
Proof. split; vm_compute; reflexivity. Qed.

End StandingsFacts.

(** ** The cascade *)

Module CascadeFacts.

Import Cascade Examples.


















Section Body.

Variable sort_teams_by : dict (dict Z) -> string -> result (list entry).





End Body.




(** C6, as amended.  [fill_standings_position] on a position that holds a
    non-empty team name raises the run-time error and leaves the standings
    as they were. *)
Theorem fill_filled_position_raises (st : state) (team position cur : string) :
  dict_get (standings st) position = Ok (Some cur) ->
  cur <> "" ->
  fill_standings_position team position st
  = Some (Raise (RuntimeError ("Position " ++ position ++ " is already filled!")), st).
Proof.
  intros H N. unfold fill_standings_position. rewrite H. unfold truthy.
  destruct (String.eqb_spec cur ""); [contradiction | reflexivity].
Qed.

(** The first position, held by [a]. *)
Lemma fill_filled_position_raises_witness :
  fill_standings_position "x" "1st" filled_state
  = Some (Raise (RuntimeError "Position 1st is already filled!"), filled_state).
Proof.
  apply (fill_filled_position_raises filled_state "x" "1st" "a").
  - reflexivity.
  - discriminate.
Defined.

(** C6, the claim as stated fails: a position that holds the empty name is
    filled again without a fault. *)
Lemma fill_empty_name_overwrites :
  dict_get (standings empty_name_state) "1st" = Ok (Some "")
  /\ fill_standings_position "x" "1st" empty_name_state
     = Some (Ok tt,
             set_standings empty_name_state
               [("1st", Some "x"); ("2nd", None); ("3rd", None); ("4th", None)]).
Proof. split; reflexivity. Qed.

End CascadeFacts.

(** ** The tournament *)

Module TournamentFacts.

Import Tournament.

Lemma lookup_upsert cols k v k' :
  lookup (upsert cols k v) k' = if String.eqb k k' then Some v else lookup cols k'.
Proof.
  induction cols as [|[k0 v0] cols IH]; simpl.
  - reflexivity.
  - destruct (String.eqb_spec k0 k) as [->|N]; simpl.
    + destruct (String.eqb k k'); reflexivity.
    + destruct (String.eqb_spec k0 k') as [->|N'].
      * destruct (String.eqb_spec k k'); [congruence | reflexivity].
      * exact IH.
Qed.

(** What [df[keys] = results] leaves in the frame. *)
Lemma frame_set_all_columns S F out ks :
  forall df f df',
    frame_set_all df S F out ks f = Ok df' ->
    index_len df' = index_len df
    /\ (forall k, In k ks -> lookup (columns df') k <> None)
    /\ (forall k, ~ In k ks -> lookup (columns df') k = lookup (columns df) k)
    /\ (forall k, lookup (columns df) k <> None -> lookup (columns df') k <> None).
Proof.
  induction ks as [|k0 ks IH]; intros df f df' H; simpl in H.
  - injection H as <-. repeat split; auto; intros k [].
  - unfold frame_set in H at 1.
    destruct (Nat.eqb _ _); [|discriminate]. simpl in H.
    apply IH in H. destruct H as (L & Hin & Hout & Hkeep). simpl in *.
    assert (Hnew : lookup (columns df') k0 <> None).
    { apply Hkeep. rewrite lookup_upsert, String.eqb_refl. discriminate. }
    repeat split; auto.
    + intros k [<-|Hk]; auto.
    + intros k Hk. rewrite Hout by tauto. rewrite lookup_upsert.
      destruct (String.eqb_spec k0 k); [tauto | reflexivity].
    + intros k Hk. apply Hkeep. rewrite lookup_upsert.
      destruct (String.eqb k0 k); [discriminate | exact Hk].
Qed.

(** C9, as amended.  A knockout stage that raises leaves the tournament as it
    was.  A stage that returns leaves a column under the concatenated slot
    names of each of its fixtures, removes no column, and leaves the values
    of every column unchanged whose name is not such a concatenation; a
    column whose name is one is overwritten. *)
Theorem play_stage_columns
  (simulate_outcome : string -> list string -> list string -> list string)
  (stage : string) (x : t) :
  let keys := map fixture_key (stage_fixtures x stage) in
  match play_stage simulate_outcome stage x with
  | (Raise _, x') => x' = x
  | (Ok _, x') =>
      (forall k, In k keys -> lookup (columns (aliases x')) k <> None)
      /\ (forall k, ~ In k keys ->
            lookup (columns (aliases x')) k = lookup (columns (aliases x)) k)
      /\ (forall k, lookup (columns (aliases x)) k <> None ->
            lookup (columns (aliases x')) k <> None)
  end.
Proof.
  intro keys. unfold play_stage.
  destruct (frame_get _ (map Team_1 _)) as [c1|e]; [|reflexivity].
  destruct (frame_get _ (map Team_2 _)) as [c2|e]; [|reflexivity].
  destruct (negb _); [reflexivity|].
  destruct (frame_set_all _ _ _ _ _ _) as [a|e] eqn:E; [|reflexivity].
  apply frame_set_all_columns in E. destruct E as (_ & Hin & Hout & Hkeep).
  assert (A : forall y, aliases (if String.eqb stage "F"
                                 then set_winner (set_aliases x a) y
                                 else set_aliases x a) = a)
    by (intro y; destruct (String.eqb stage "F"); reflexivity).
  rewrite A. auto.
Qed.

(** The round of 16 of the repeated bracket keeps the column 1A. *)
Lemma play_stage_columns_witness :
  lookup (columns (aliases Examples.after_R16)) "1A"
  = lookup (columns (aliases Examples.after_qualifiers)) "1A".
Proof.
  pose proof (play_stage_columns Examples.home_then_away "R16"
                Examples.after_qualifiers) as H.
  cbv zeta in H.
  change (play_stage Examples.home_then_away "R16" Examples.after_qualifiers)
    with (Ok tt, Examples.after_R16) in H.
  destruct H as (_ & H & _). apply H.
  intros [E|[]]. discriminate E.
Defined.

(** C9, the claim as stated fails: the pair 1A, 2A is drawn in two stages,
    and the quarter-finals overwrite the column that the round of 16 wrote. *)
Lemma play_stage_overwrites :
  lookup (columns (aliases Examples.after_R16)) "1A2A" = Some ["a"; "a"]
  /\ fst (play_stage Examples.home_then_away "QF" Examples.after_R16) = Ok tt
  /\ lookup (columns (aliases Examples.after_QF)) "1A2A" = Some ["c"; "b"].
Proof. vm_compute. repeat split. Qed.

Section AddResult.

Variable find_group : string -> list (string * string) -> result string.

Lemma add_result_rows_no_match x rows t1 t2 s1 s2 stage :
  (forall row, In row rows -> Stage row = stage -> stage = "Group" ->
     set_eq2 (Team_1 row) (Team_2 row) t1 t2 = false) ->
  add_result_rows find_group x rows t1 t2 s1 s2 stage = Ok tt.
Proof.
  induction rows as [|row rows IH]; intro H; simpl; [reflexivity|].
  assert (IH' := IH (fun r Hr => H r (or_intror Hr))).
  destruct (String.eqb_spec stage (Stage row)) as [E|N]; simpl; [|exact IH'].
  destruct (String.eqb_spec stage "Group") as [G|N]; [|exact IH'].
  rewrite (H row (or_introl eq_refl) (eq_sym E) G). exact IH'.
Qed.

Lemma add_result_rows_match x rows t1 t2 s1 s2 grp g :
  (exists row, In row rows /\ Stage row = "Group"
               /\ set_eq2 (Team_1 row) (Team_2 row) t1 t2 = true) ->
  find_group t1 (teams_df x) = Ok grp ->
  group_lookup (groups x) grp = Ok g ->
  add_result_rows find_group x rows t1 t2 s1 s2 "Group"
  = Raise (AttributeError "'Group' object has no attribute 'add_result'").
Proof.
  intros (row & Hin & Hs & Hm) Hf Hg.
  induction rows as [|row0 rows IH]; [destruct Hin|]. cbn [add_result_rows].
  destruct (String.eqb_spec "Group" (Stage row0)) as [E|N]; cbn [negb].
  - rewrite String.eqb_refl.
    destruct (set_eq2 (Team_1 row0) (Team_2 row0) t1 t2) eqn:M.
    + rewrite Hf. cbn [bind]. rewrite Hg. reflexivity.
    + destruct Hin as [->|Hin]; [congruence | auto].
  - destruct Hin as [->|Hin]; [congruence | auto].
Qed.

End AddResult.

(** C10. [Tournament.add_result] leaves the tournament and its groups as they
    were on every call.  It returns without a fault when no fixture of the
    group stage has the given pair of teams, and when one has it the call
    raises the attribute error of the missing method [Group.add_result],
    [find_group] having returned the key of a group. *)
Theorem add_result_never_records
  (find_group : string -> list (string * string) -> result string)
  (team_1 team_2 : string) (score_1 score_2 : Z) (stage : string) (x : t) :
  snd (add_result find_group team_1 team_2 score_1 score_2 stage x) = x
  /\ ((forall row, In row (fixtures_df x) -> Stage row = stage -> stage = "Group" ->
         set_eq2 (Team_1 row) (Team_2 row) team_1 team_2 = false) ->
      fst (add_result find_group team_1 team_2 score_1 score_2 stage x) = Ok tt)
  /\ (forall grp g,
        stage = "Group" ->
        (exists row, In row (fixtures_df x) /\ Stage row = "Group"
                     /\ set_eq2 (Team_1 row) (Team_2 row) team_1 team_2 = true) ->
        find_group team_1 (teams_df x) = Ok grp ->
        group_lookup (groups x) grp = Ok g ->
        fst (add_result find_group team_1 team_2 score_1 score_2 stage x)
        = Raise (AttributeError "'Group' object has no attribute 'add_result'")).
Proof.
  unfold add_result. simpl. repeat split.
  - apply add_result_rows_no_match.
  - intros grp g -> Hrow Hf Hg. eapply add_result_rows_match; eassumption.
Qed.

(** The fixture a-b of the group stage. *)
Lemma add_result_never_records_witness :
  fst (add_result Examples.group_of "a" "b" 1 0 "Group" Examples.repeated_bracket)
  = Raise (AttributeError "'Group' object has no attribute 'add_result'").
Proof.
  refine (proj2 (proj2 (add_result_never_records Examples.group_of "a" "b" 1 0
                          "Group" Examples.repeated_bracket))
                "A" Examples.group_A _ _ _ _).
  - reflexivity.
  - exists (mk_fixture "Group" "a" "b"). repeat split. left. reflexivity.
  - reflexivity.
  - reflexivity.
Defined.

(** C3.  The code does not return what its docstring and the claim say.  In
    the finished tournament of one sample won by [a], the team [z] is a value
    of no alias column, and the call for it raises the fault of calling the
    array [self.aliases.values] where ["G"] is due.  In the finished
    tournament of two samples won by [a] in both, the call for [a] raises
    the fault of the truth value of an array where ["W"] is due. *)
Theorem furthest_position_faults :
  is_complete Examples.finished_one = true
  /\ existsb (fun c => existsb (String.eqb "z") (snd c))
             (columns (aliases Examples.finished_one)) = false
  /\ get_furthest_position_for_team Examples.finished_one "z"
     = Raise (TypeError "'numpy.ndarray' object is not callable")
  /\ is_complete Examples.finished_two = true
  /\ winner Examples.finished_two = Some ["a"; "a"]
  /\ get_furthest_position_for_team Examples.finished_two "a"
     = Raise (ValueError "The truth value of an array with more than one element is ambiguous").
Proof. repeat split. Qed.

End TournamentFacts.

(** ** More on the table *)

Module TableMore.

Import Np Group TableSpec ListFacts TableFacts.

Lemma sum_axis0_length S rs :
  Forall (fun r => List.length r = S) rs -> List.length (sum_axis0 S rs) = S.
Proof.
  intro H. unfold sum_axis0.
  destruct (nth_fold_vadd rs (repeat 0 S) 0 O) as [_ L].
  - rewrite repeat_length. exact H.
  - rewrite nth_repeat. reflexivity.
  - rewrite L. apply repeat_length.
Qed.

Lemma team_rows_lengths (r : Results) (team : string) :
  results_wf r ->
  let q := team_rows r team in
  let S := axis1 (home_score r) in
  List.length (fst (fst (fst q))) = S /\ List.length (snd (fst (fst q))) = S
  /\ List.length (snd (fst q)) = S /\ List.length (snd q) = S.
Proof.
  intros (Hh & Ha & E1 & Nh & Na & Lt) q S.
  assert (Ha' : Forall (fun row => List.length row = S) (rows (away_score r)))
    by (unfold S; rewrite <- E1; exact Ha).
  destruct (wf_zip_rows pts (home_score r) (away_score r)) as [Wh _];
    auto; try congruence.
  destruct (wf_zip_rows (fun h a => let p := 3 * b2z (h <? a) in if h =? a then 1 else p)
              (home_score r) (away_score r)) as [Wa _]; auto; try congruence.
  assert (SL : forall mask rs, Forall (fun row => List.length row = S) rs ->
                 List.length (sum_axis0 S (select mask rs)) = S)
    by (intros; apply sum_axis0_length, select_Forall; assumption).
  unfold q, team_rows. cbv zeta. cbn [fst snd]. fold S.
  unfold vsub, as_float, vadd.
  repeat split; repeat first [rewrite length_map | rewrite map2_length];
    rewrite ?SL; auto.
Qed.

(** X1. The table of [calc_table] has one row per team of the roster and one
    column per sample, in each of its four arrays. *)
Theorem calc_table_shape (teams : list string) (r : Results) :
  results_wf r ->
  let tb := calc_table_of teams r in
  Forall (fun a => wf a /\ axis0 a = List.length teams
                   /\ axis1 a = axis1 (home_score r))
         [points tb; goals_for tb; goals_against tb; goal_difference tb].
Proof.
  intros W tb. unfold tb, calc_table_of. rewrite (broadcast_away_wf r W). cbv zeta.
  assert (H : forall f : list Z * list Z * list Z * list Z -> list Z,
            (forall team, List.length (f (team_rows r team)) = axis1 (home_score r)) ->
            let a := mk_ndarray (axis1 (home_score r)) (map f (map (team_rows r) teams)) in
            wf a /\ axis0 a = List.length teams /\ axis1 a = axis1 (home_score r)).
  { intros f Hf a. unfold wf, axis0, a. cbn [rows axis1]. repeat split.
    - rewrite map_map. apply Forall_forall. intros row Hin.
      apply in_map_iff in Hin. destruct Hin as (team & <- & _). apply Hf.
    - rewrite !length_map. reflexivity. }
  pose proof (fun team => team_rows_lengths r team W) as L. cbv zeta in L.
  repeat constructor; apply H; intro team; apply L.
Qed.

(** The table of group A. *)
Lemma calc_table_shape_witness :
  Forall (fun a => wf a /\ axis0 a = 4%nat /\ axis1 a = 2%nat)
         [points Examples.table_A; goals_for Examples.table_A;
          goals_against Examples.table_A; goal_difference Examples.table_A].
Proof.
  apply (calc_table_shape Examples.roster Examples.sim_results).
  repeat split; repeat constructor.
Defined.

Lemma sum_over_zero n f :
  (forall m, (m < n)%nat -> f m = 0) -> sum_over n f = 0.
Proof.
  intro H. rewrite (sum_over_ext n f (fun _ => 0) H).
  clear. induction n as [|n IH]; [reflexivity|].
  rewrite sum_over_S, IH. reflexivity.
Qed.

Lemma eqb_nth_not_in (l : list string) (team : string) m :
  ~ In team l -> (m < List.length l)%nat -> String.eqb (nth m l "") team = false.
Proof.
  intros N Hm. apply String.eqb_neq. intros E. apply N. rewrite <- E.
  apply nth_In. exact Hm.
Qed.

(** X2. A team of the roster that plays in no stored fixture has a row of
    zeros: no points, no goals for or against, goal difference 0, in every
    sample. *)
Theorem calc_table_absent_team (teams : list string) (r : Results) (i s : nat) :
  results_wf r ->
  (i < List.length teams)%nat ->
  (s < axis1 (home_score r))%nat ->
  ~ In (nth i teams "") (home_team r) ->
  ~ In (nth i teams "") (away_team r) ->
  let tb := calc_table_of teams r in
  get (points tb) i s = 0 /\ get (goals_for tb) i s = 0
  /\ get (goals_against tb) i s = 0 /\ get (goal_difference tb) i s = 0.
Proof.
  intros W Hi Hs Nh Na tb.
  destruct (table_entries_raw teams r i s W Hi) as (P & F & A & D).
  fold tb in P, F, A, D.
  assert (Lt : List.length (away_team r) = List.length (home_team r)) by apply W.
  assert (Zh : forall f, masked r (home_team r) (nth i teams "") f = 0).
  { intro f. unfold masked. apply sum_over_zero.
    intros m Hm. rewrite eqb_nth_not_in; auto. }
  assert (Za : forall f, masked r (away_team r) (nth i teams "") f = 0).
  { intro f. unfold masked. apply sum_over_zero.
    intros m Hm. rewrite eqb_nth_not_in; auto. lia. }
  rewrite Zh, Za in P, F, A. rewrite D, P, F, A. auto.
Qed.

(** Team [e], which plays no fixture of the example results. *)
Lemma calc_table_absent_team_witness :
  get (points (calc_table_of Examples.roster5 Examples.sim_results)) 4 0 = 0.
Proof.
  refine (proj1 (calc_table_absent_team Examples.roster5 Examples.sim_results
                   4 0 _ _ _ _ _)).
  - repeat split; repeat constructor.
  - repeat constructor.
  - repeat constructor.
  - simpl. intuition discriminate.
  - simpl. intuition discriminate.
Defined.
Lemma sum_over_add n f g :
  sum_over n (fun m => f m + g m) = sum_over n f + sum_over n g.
Proof.
  revert f g; induction n as [|n IH]; intros f g; [reflexivity|].
  rewrite !sum_over_S, IH. lia.
Qed.

Lemma sum_over_opp n f : sum_over n (fun m => - f m) = - sum_over n f.
Proof.
  revert f; induction n as [|n IH]; intro f; [reflexivity|].
  rewrite !sum_over_S, IH. lia.
Qed.

Lemma sum_over_swap n m (f : nat -> nat -> Z) :
  sum_over n (fun i => sum_over m (f i))
  = sum_over m (fun j => sum_over n (fun i => f i j)).
Proof.
  revert f; induction n as [|n IH]; intro f.
  - symmetry. apply sum_over_zero. reflexivity.
  - rewrite sum_over_S, IH, <- sum_over_add. apply sum_over_ext.
    intros j _. rewrite sum_over_S. reflexivity.
Qed.

Lemma sum_over_list (g : string -> Z) (l : list string) :
  sum_over (List.length l) (fun i => g (nth i l "")) = fold_right Z.add 0 (map g l).
Proof.
  induction l as [|x l IH]; [reflexivity|].
  cbn [List.length]. rewrite sum_over_S. cbn [nth map fold_right]. rewrite IH.
  reflexivity.
Qed.

(** In a roster without repetition, exactly one team is the given member. *)
Lemma sum_indicator (l : list string) (x : string) (v : Z) :
  NoDup l -> In x l ->
  fold_right Z.add 0 (map (fun t => if String.eqb x t then v else 0) l) = v.
Proof.
  induction l as [|y l IH]; intros ND Hin; [destruct Hin|].
  inversion ND as [|? ? Hy ND']; subst. cbn [map fold_right].
  destruct (String.eqb_spec x y) as [->|N].
  - assert (Z : fold_right Z.add 0 (map (fun t => if String.eqb y t then v else 0) l) = 0).
    { clear IH ND ND' Hin. induction l as [|z l IH]; [reflexivity|].
      cbn [map fold_right]. destruct (String.eqb_spec y z) as [->|_].
      - exfalso. apply Hy. left. reflexivity.
      - rewrite IH; [lia|]. intro H. apply Hy. right. exact H. }
    rewrite Z. lia.
  - destruct Hin as [->|Hin]; [congruence|]. rewrite IH by assumption. lia.
Qed.

Lemma total_home_and_away (teams : list string) (r : Results) (h a : nat -> Z) :
  List.length (away_team r) = List.length (home_team r) ->
  NoDup teams ->
  (forall t, In t (home_team r) -> In t teams) ->
  (forall t, In t (away_team r) -> In t teams) ->
  sum_over (List.length teams) (fun i => home_and_away r (nth i teams "") h a)
  = sum_over (List.length (home_team r)) (fun m => h m + a m).
Proof.
  intros Lt ND Hh Ha. unfold home_and_away.
  rewrite sum_over_add.
  rewrite 2 (sum_over_swap (List.length teams) (List.length (home_team r))).
  rewrite <- sum_over_add.
  apply sum_over_ext. intros m Hm. unfold played_home, played_away.
  rewrite (sum_over_list (fun t => if String.eqb (nth m (home_team r) "") t
                                   then h m else 0)).
  rewrite (sum_over_list (fun t => if String.eqb (nth m (away_team r) "") t
                                   then a m else 0)).
  rewrite !sum_indicator; auto.
  - apply Ha, nth_In. lia.
  - apply Hh, nth_In. lia.
Qed.

(** X3. When the roster has no repeated team, every stored fixture is
    between two teams of the roster, and the scores lie between 0 and [B]
    with twice the number of fixtures times [max B 3] below 2^53, the table
    balances in every sample: the goals for and the goals against of the
    group both add up to the goals scored in its fixtures, the goal
    differences add up to 0, and the points add up to 2 for every drawn
    fixture plus 3 for every other one. *)
Theorem calc_table_totals (B : Z) (teams : list string) (r : Results) (s : nat) :
  results_wf r ->
  scores_within B r ->
  2 * Z.of_nat (List.length (home_team r)) * Z.max B 3 < 2 ^ 53 ->
  (s < axis1 (home_score r))%nat ->
  NoDup teams ->
  (forall t, In t (home_team r) -> In t teams) ->
  (forall t, In t (away_team r) -> In t teams) ->
  let tb := calc_table_of teams r in
  let n := List.length teams in
  let goals := sum_over (List.length (home_team r))
                 (fun m => get (home_score r) m s + get (away_score r) m s) in
  sum_over n (fun i => get (goals_for tb) i s) = goals
  /\ sum_over n (fun i => get (goals_against tb) i s) = goals
  /\ sum_over n (fun i => get (goal_difference tb) i s) = 0
  /\ sum_over n (fun i => get (points tb) i s)
     = sum_over (List.length (home_team r))
         (fun m => if get (home_score r) m s =? get (away_score r) m s then 2 else 3).
Proof.
  intros W SW Small Hs ND Hh Ha tb n goals. subst n.
  set (n := List.length teams) in |- *.
  assert (Lt : List.length (away_team r) = List.length (home_team r)) by apply W.
  pose proof (fun i Hi => table_entries B teams r i s W SW Small Hi Hs) as T.
  cbv zeta in T. fold tb in T.
  assert (F : sum_over n (fun i => get (goals_for tb) i s) = goals).
  { rewrite (sum_over_ext n _ (fun i => team_goals_for r (nth i teams "") s))
      by (intros i Hi; apply (T i Hi)).
    apply total_home_and_away; assumption. }
  assert (A : sum_over n (fun i => get (goals_against tb) i s) = goals).
  { rewrite (sum_over_ext n _ (fun i => team_goals_against r (nth i teams "") s))
      by (intros i Hi; apply (T i Hi)).
    unfold team_goals_against, n. rewrite total_home_and_away by assumption.
    apply sum_over_ext. intros. lia. }
  repeat split; auto.
  - rewrite (sum_over_ext n _ (fun i => get (goals_for tb) i s
                                        + (- get (goals_against tb) i s))).
    + rewrite sum_over_add.
      assert (N : sum_over n (fun i => - get (goals_against tb) i s) = - goals)
        by (rewrite sum_over_opp, A; reflexivity).
      rewrite F, N. lia.
    + intros i Hi. destruct (T i Hi) as (_ & _ & _ & _ & D). rewrite D. lia.
  - rewrite (sum_over_ext n _ (fun i => team_points r (nth i teams "") s))
      by (intros i Hi; apply (T i Hi)).
    unfold team_points, n. rewrite total_home_and_away by assumption.
    apply sum_over_ext. intros m _. unfold match_points.
    destruct (Z.gtb_spec (get (home_score r) m s) (get (away_score r) m s)),
             (Z.gtb_spec (get (away_score r) m s) (get (home_score r) m s)),
             (Z.eqb_spec (get (home_score r) m s) (get (away_score r) m s)),
             (Z.eqb_spec (get (away_score r) m s) (get (home_score r) m s));
      lia.
Qed.

(** Sample 0 of group A, whose scores are at most 3: 11 goals, and 18 points
    for six decided fixtures. *)
Lemma calc_table_totals_witness :
  sum_over 4 (fun i => get (goal_difference Examples.table_A) i 0) = 0
  /\ sum_over 4 (fun i => get (points Examples.table_A) i 0)
     = sum_over 6 (fun m =>
         if get (home_score Examples.sim_results) m 0
            =? get (away_score Examples.sim_results) m 0 then 2 else 3).
Proof.
  refine ((fun H => conj (proj1 (proj2 (proj2 H))) (proj2 (proj2 (proj2 H))))
            (calc_table_totals 3 Examples.roster Examples.sim_results 0 _ _ _ _ _ _ _)).
  - repeat split; repeat constructor.
  - split; repeat (first [lia | constructor]).
  - vm_compute. reflexivity.
  - repeat constructor.
  - repeat constructor; simpl; intuition discriminate.
  - simpl. intuition (subst; auto 10).
  - simpl. intuition (subst; auto 10).
Defined.

End TableMore.

(** ** The order of the standings *)

Module LexsortFacts.

Import Np Group ListFacts StandingsFacts.

Lemma key_ltb_iff (a b : key) :
  key_ltb a b = true <->
  let '(a1, a2, a3, a4) := a in
  let '(b1, b2, b3, b4) := b in
  a1 < b1 \/ (a1 = b1 /\ (a2 < b2 \/ (a2 = b2 /\ (a3 < b3 \/ (a3 = b3 /\ a4 < b4))))).
Proof.
  destruct a as [[[a1 a2] a3] a4], b as [[[b1 b2] b3] b4]. unfold key_ltb.
  repeat (rewrite orb_true_iff || rewrite andb_true_iff).
  rewrite !Z.ltb_lt, !Z.eqb_eq. reflexivity.
Qed.

Lemma key_ltb_asym (a b : key) : key_ltb a b = true -> key_ltb b a = false.
Proof.
  intro H. apply not_true_iff_false. intro H'.
  apply key_ltb_iff in H, H'.
  destruct a as [[[a1 a2] a3] a4], b as [[[b1 b2] b3] b4]. lia.
Qed.

Lemma key_ltb_le_trans (a b c : key) :
  key_ltb a b = true -> key_ltb c b = false -> key_ltb a c = true.
Proof.
  intros H H'. apply not_true_iff_false in H'.
  rewrite key_ltb_iff in H, H'. apply key_ltb_iff.
  destruct a as [[[a1 a2] a3] a4], b as [[[b1 b2] b3] b4], c as [[[c1 c2] c3] c4].
  lia.
Qed.

(** [a] comes before [b]: its key is not larger, and on equal keys its index
    is smaller. *)
Definition before (ks : list key) (a b : nat) : Prop :=
  key_ltb (key_at ks b) (key_at ks a) = false
  /\ (key_ltb (key_at ks a) (key_at ks b) = false -> (a < b)%nat).

Lemma insert_before ks i l :
  StronglySorted (before ks) l ->
  Forall (fun j => (j < i)%nat) l ->
  StronglySorted (before ks) (insert ks i l).
Proof.
  induction l as [|j l IH]; intros S F; simpl.
  - repeat constructor.
  - inversion S as [|? ? S' Fj]; subst. inversion F as [|? ? Hj F']; subst.
    destruct (key_ltb (key_at ks i) (key_at ks j)) eqn:E.
    + constructor; [exact S|]. constructor.
      * split; [apply key_ltb_asym; exact E | congruence].
      * rewrite Forall_forall in Fj |- *. intros x Hx.
        destruct (Fj x Hx) as [B _].
        assert (T := key_ltb_le_trans _ _ _ E B).
        split; [apply key_ltb_asym; exact T | congruence].
    + constructor; [apply IH; assumption|].
      apply (Permutation_Forall (Permutation_sym (insert_perm ks i l))).
      constructor; [|exact Fj]. split; [exact E | intros _; exact Hj].
Qed.

Lemma fold_insert_before ks n : forall a acc,
  StronglySorted (before ks) acc ->
  Forall (fun j => (j < a)%nat) acc ->
  StronglySorted (before ks)
    (fold_left (fun sorted i => insert ks i sorted) (seq a n) acc).
Proof.
  induction n as [|n IH]; intros a acc S F; simpl; [exact S|].
  apply IH.
  - apply insert_before; assumption.
  - apply (Permutation_Forall (Permutation_sym (insert_perm ks a acc))).
    constructor; [lia|]. eapply Forall_impl; [|exact F]. simpl. intros; lia.
Qed.

Lemma StronglySorted_nth (R : nat -> nat -> Prop) l :
  StronglySorted R l ->
  forall i j, (i < j)%nat -> (j < List.length l)%nat -> R (nth i l O) (nth j l O).
Proof.
  induction 1 as [|x l S IH F]; intros i j Hij Hj; simpl in Hj; [lia|].
  destruct j as [|j]; [lia|]. destruct i as [|i]; simpl.
  - rewrite Forall_forall in F. apply F, nth_In. lia.
  - apply IH; lia.
Qed.

(** [argsort] sorts and is stable: of two places of its result, the earlier
    one holds an index whose key is not larger, and when the two keys are
    equal the smaller index. *)
Lemma argsort_sorted_stable (ks : list key) (i j : nat) :
  (i < j)%nat -> (j < List.length ks)%nat ->
  let a := nth i (argsort ks) O in
  let b := nth j (argsort ks) O in
  key_ltb (key_at ks b) (key_at ks a) = false
  /\ (key_ltb (key_at ks a) (key_at ks b) = false -> (a < b)%nat).
Proof.
  intros Hij Hj a b.
  apply (StronglySorted_nth (before ks) (argsort ks)); [|exact Hij|].
  - unfold argsort. apply fold_insert_before; constructor.
  - rewrite (Permutation_length (argsort_perm ks)), length_seq. exact Hj.
Qed.

(** X4. In a group of two teams the default policy gives position 1 to the
    first team of the roster exactly when the key of the second one (points,
    goal difference, goals for, random draw) is strictly smaller, and to the
    second team otherwise. *)
Theorem two_team_standings (tb : Table) (rnd : ndarray) (s : nat) :
  axis0 (points tb) = 2%nat ->
  (s < axis1 (points tb))%nat ->
  let key_of i := (get (points tb) i s, get (goal_difference tb) i s,
                   get (goals_for tb) i s, get rnd i s) in
  column (default_standings 2 tb rnd) s
  = if key_ltb (key_of 1%nat) (key_of 0%nat) then [1; 2] else [2; 1].
Proof.
  intros H0 Hs key_of. rewrite standings_column by exact Hs.
  unfold argsort. rewrite column_keys_length, H0.
  unfold column_keys. rewrite H0. cbn [seq map fold_left insert key_at nth].
  fold (key_of 0%nat). fold (key_of 1%nat).
  destruct (key_ltb (key_of 1%nat) (key_of 0%nat)); reflexivity.
Qed.

(** Two teams level on points and goal difference; the first one has scored
    more goals. *)
Lemma two_team_standings_witness :
  column (default_standings 2 Examples.two_team_table Examples.two_draws) 0 = [1; 2].
Proof.
  apply (two_team_standings Examples.two_team_table Examples.two_draws 0).
  - reflexivity.
  - repeat constructor.
Defined.
Lemma key_at_column_keys k4 k3 k2 k1 s i :
  (i < axis0 k1)%nat ->
  key_at (column_keys k4 k3 k2 k1 s) i
  = (get k1 i s, get k2 i s, get k3 i s, get k4 i s).
Proof.
  intro H. unfold key_at, column_keys.
  rewrite (nth_map_in _ _ i O) by (rewrite length_seq; exact H).
  rewrite seq_nth by exact H. reflexivity.
Qed.

(** X5. What the stored standings hold: in every sample, the number of teams
    minus the entry of row [k] is the roster index of the team that comes
    [k]-th from the bottom.  Of two rows, the team named by the earlier one
    has a key (points, goal difference, goals for, random draw) that is not
    larger, and on equal keys it is the earlier team of the roster. *)
Theorem standings_rows_name_teams (n : nat) (tb : Table) (rnd : ndarray) (s k k' : nat) :
  axis0 (points tb) = n ->
  (s < axis1 (points tb))%nat ->
  (k < k')%nat -> (k' < n)%nat ->
  let st := default_standings n tb rnd in
  let a := Z.to_nat (Z.of_nat n - get st k s) in
  let b := Z.to_nat (Z.of_nat n - get st k' s) in
  let key_of i := (get (points tb) i s, get (goal_difference tb) i s,
                   get (goals_for tb) i s, get rnd i s) in
  (a < n)%nat /\ (b < n)%nat
  /\ key_ltb (key_of b) (key_of a) = false
  /\ (key_ltb (key_of a) (key_of b) = false -> (a < b)%nat).
Proof.
  intros H0 Hs Hk Hk' st a b key_of.
  set (ks := column_keys rnd (goals_for tb) (goal_difference tb) (points tb) s).
  assert (Lk : List.length ks = n) by (unfold ks; rewrite column_keys_length; exact H0).
  assert (La : List.length (argsort ks) = n)
    by (rewrite (Permutation_length (argsort_perm ks)), length_seq; exact Lk).
  assert (G : forall j, (j < n)%nat ->
            Z.to_nat (Z.of_nat n - get st j s) = nth j (argsort ks) O
            /\ (nth j (argsort ks) O < n)%nat).
  { intros j Hj. unfold st. rewrite get_column, standings_column by exact Hs.
    fold ks. rewrite (nth_map_in _ _ j O) by lia.
    assert (In (nth j (argsort ks) O) (seq 0 n)).
    { rewrite <- Lk. apply (Permutation_in _ (argsort_perm ks)), nth_In. lia. }
    apply in_seq in H. split; lia. }
  destruct (G k ltac:(lia)) as [Ea Ba], (G k' Hk') as [Eb Bb].
  fold a in Ea. fold b in Eb.
  destruct (argsort_sorted_stable ks k k' Hk ltac:(lia)) as [S1 S2].
  rewrite <- Ea, <- Eb in S1, S2. unfold ks in S1, S2.
  rewrite !key_at_column_keys in S1, S2 by lia.
  repeat split; try lia; assumption.
Qed.

(** The first and the last row of sample 0 of group A. *)
Lemma standings_rows_name_teams_witness :
  let st := default_standings 4 Examples.table_A Examples.draws in
  (Z.to_nat (4 - get st 0 0) < 4)%nat /\ (Z.to_nat (4 - get st 3 0) < 4)%nat.
Proof.
  intro st.
  refine ((fun H => conj (proj1 H) (proj1 (proj2 H)))
            (standings_rows_name_teams 4 Examples.table_A Examples.draws 0 0 3 _ _ _ _)).
  - reflexivity.
  - repeat constructor.
  - repeat constructor.
  - repeat constructor.
Defined.

End LexsortFacts.

(** ** The qualifiers *)

Module QualifierFacts.

Import Np Group ListFacts StandingsFacts.

Lemma filter_unique (f : nat -> bool) (l : list nat) (k0 : nat) :
  NoDup l -> In k0 l -> f k0 = true ->
  (forall k, In k l -> f k = true -> k = k0) ->
  filter f l = [k0].
Proof.
  induction l as [|x l IH]; intros ND Hin Hf Hu; [destruct Hin|].
  inversion ND as [|? ? Hx ND']; subst. simpl.
  destruct (Nat.eq_dec x k0) as [->|N].
  - rewrite Hf. f_equal.
    assert (E : forall k, In k l -> f k = false).
    { intros k Hk. destruct (f k) eqn:Fk; [|reflexivity].
      exfalso. apply Hx. rewrite <- (Hu k (or_intror Hk) Fk). exact Hk. }
    clear -E. induction l as [|y l IH]; [reflexivity|]. simpl.
    rewrite (E y (or_introl eq_refl)). apply IH. intros. apply E. right. assumption.
  - destruct (f x) eqn:Fx.
    + exfalso. apply N. apply Hu; [left; reflexivity | exact Fx].
    + destruct Hin as [->|Hin]; [congruence|]. apply IH; auto.
      intros. apply Hu; auto. right. assumption.
Qed.

Lemma default_standings_shape n tb rnd :
  axis0 (default_standings n tb rnd) = axis0 (points tb)
  /\ axis1 (default_standings n tb rnd) = axis1 (points tb).
Proof.
  unfold default_standings, lexsort, of_columns, axis0. cbn [rows axis1].
  rewrite !length_map, !length_seq. split; reflexivity.
Qed.

(** In a sample, exactly one row of the standings holds the position [v],
    for [v] from 1 to the number of teams. *)
Lemma standings_position_row n tb rnd s v :
  axis0 (points tb) = n ->
  (s < axis1 (points tb))%nat ->
  1 <= v <= Z.of_nat n ->
  exists k, (k < n)%nat
    /\ filter (fun k => get (default_standings n tb rnd) k s =? v) (seq 0 n) = [k]
    /\ get (default_standings n tb rnd) k s = v.
Proof.
  intros H0 Hs Hv.
  set (st := default_standings n tb rnd).
  set (ks := column_keys rnd (goals_for tb) (goal_difference tb) (points tb) s).
  assert (Lk : List.length ks = n) by (unfold ks; rewrite column_keys_length; exact H0).
  assert (C : column st s = map (fun i => Z.of_nat n - Z.of_nat i) (argsort ks))
    by (apply standings_column; exact Hs).
  assert (P : Permutation (column st s)
                (map (fun i => Z.of_nat n - Z.of_nat i) (seq 0 n))).
  { rewrite C, <- Lk. apply Permutation_map, argsort_perm. }
  assert (L : List.length (column st s) = n)
    by (rewrite (Permutation_length P), length_map, length_seq; reflexivity).
  assert (ND : NoDup (column st s)).
  { apply (Permutation_NoDup (Permutation_sym P)).
    apply Finite.Injective_map_NoDup; [|apply seq_NoDup].
    intros x y E. lia. }
  assert (I : In v (column st s)).
  { apply (Permutation_in _ (Permutation_sym P)). apply in_map_iff.
    exists (Z.to_nat (Z.of_nat n - v)). split; [lia|]. apply in_seq. lia. }
  destruct (In_nth _ _ 0 I) as (k & Hk & E).
  exists k. rewrite L in Hk. split; [exact Hk|]. split.
  - apply filter_unique.
    + apply seq_NoDup.
    + apply in_seq. lia.
    + rewrite get_column, E. apply Z.eqb_refl.
    + intros k' Hk' Ek'. apply in_seq in Hk'. apply Z.eqb_eq in Ek'.
      rewrite get_column in Ek'.
      apply (proj1 (NoDup_nth (column st s) 0) ND); lia.
  - rewrite get_column. exact E.
Qed.

Lemma take_map (ts : list string) (idx : list nat) :
  Forall (fun k => (k < List.length ts)%nat) idx ->
  take ts idx = Ok (map (fun k => nth k ts "") idx).
Proof.
  induction idx as [|k idx IH]; intro F; [reflexivity|].
  inversion F as [|? ? Hk F']; subst. simpl.
  destruct (nth_error ts k) as [team|] eqn:E.
  - rewrite (IH F'). simpl. f_equal. f_equal. symmetry.
    apply nth_error_nth. exact E.
  - apply nth_error_None in E. lia.
Qed.

Lemma flat_map_singletons {A : Type} (f : nat -> list A) (g : nat -> A) (l : list nat) :
  (forall x, In x l -> f x = [g x]) -> flat_map f l = map g l.
Proof.
  induction l as [|x l IH]; intro H; [reflexivity|]. simpl.
  rewrite (H x (or_introl eq_refl)), IH; [reflexivity|].
  intros. apply H. right. assumption.
Qed.

(** X6. For a group of at least two different teams with a table and no
    standings yet, [get_qualifiers] returns two teams for every sample; both
    are teams of the roster and they differ. *)
Theorem get_qualifiers_two_of_roster (g : t) (tb : Table) (rnd : ndarray) :
  table g = Some tb ->
  standings g = None ->
  axis0 (points tb) = List.length (teams g) ->
  (2 <= List.length (teams g))%nat ->
  NoDup (teams g) ->
  exists t1 t2 g',
    get_qualifiers rnd g = (Ok (t1, t2), g')
    /\ List.length t1 = axis1 (points tb)
    /\ List.length t2 = axis1 (points tb)
    /\ forall s, (s < axis1 (points tb))%nat ->
         In (nth s t1 "") (teams g) /\ In (nth s t2 "") (teams g)
         /\ nth s t1 "" <> nth s t2 "".
Proof.
  intros Ht Hst H0 H2 ND.
  set (n := List.length (teams g)) in *.
  set (st := default_standings n tb rnd).
  destruct (default_standings_shape n tb rnd) as [A0 A1]. fold st in A0, A1.
  assert (R : forall v, 1 <= v <= Z.of_nat n ->
            nonzero_T_eq st v = map (row_of st n v) (seq 0 (axis1 (points tb)))
            /\ forall s, (s < axis1 (points tb))%nat ->
                 (row_of st n v s < n)%nat /\ get st (row_of st n v s) s = v).
  { intros v Hv.
    assert (Q : forall s, (s < axis1 (points tb))%nat ->
              filter (fun k => get st k s =? v) (seq 0 n) = [row_of st n v s]
              /\ (row_of st n v s < n)%nat /\ get st (row_of st n v s) s = v).
    { intros s Hs. destruct (standings_position_row n tb rnd s v H0 Hs Hv)
        as (k & Hk & F & G). fold st in F, G.
      unfold row_of. rewrite F. simpl. auto. }
    split.
    - unfold nonzero_T_eq. rewrite A0, A1, H0. apply flat_map_singletons.
      intros s Hs. apply in_seq in Hs. apply Q. lia.
    - intros s Hs. apply Q. exact Hs. }
  destruct (R 1 ltac:(lia)) as [N1 B1], (R 2 ltac:(lia)) as [N2 B2].
  exists (map (fun k => nth k (teams g) "") (nonzero_T_eq st 1)),
         (map (fun k => nth k (teams g) "") (nonzero_T_eq st 2)),
         (set_standings g st).
  split; [|split; [|split]].
  - unfold get_qualifiers. rewrite Hst, (calc_standings_default g tb rnd Ht).
    fold n. fold st. cbn [standings set_standings teams].
    rewrite !take_map; [reflexivity| |].
    + rewrite N2. apply Forall_forall. intros k Hk. apply in_map_iff in Hk.
      destruct Hk as (s & <- & Hs). apply in_seq in Hs. apply B2. lia.
    + rewrite N1. apply Forall_forall. intros k Hk. apply in_map_iff in Hk.
      destruct Hk as (s & <- & Hs). apply in_seq in Hs. apply B1. lia.
  - rewrite N1, !length_map, length_seq. reflexivity.
  - rewrite N2, !length_map, length_seq. reflexivity.
  - intros s Hs. rewrite N1, N2, !map_map.
    rewrite !(nth_map_in _ _ s O "") by (rewrite length_seq; exact Hs).
    rewrite seq_nth by exact Hs. cbn [Nat.add].
    destruct (B1 s Hs) as [L1 G1], (B2 s Hs) as [L2 G2].
    repeat split; try (apply nth_In; exact L1 || exact L2).
    intro E. apply (proj1 (NoDup_nth (teams g) "") ND) in E; try assumption.
    rewrite E in G1. lia.
Qed.

(** Group A with its table. *)
Lemma get_qualifiers_two_of_roster_witness :
  exists t1 t2 g',
    get_qualifiers Examples.draws Examples.tabled_group = (Ok (t1, t2), g')
    /\ nth 0 t1 "" <> nth 0 t2 "".
Proof.
  destruct (get_qualifiers_two_of_roster Examples.tabled_group Examples.table_A
              Examples.draws) as (t1 & t2 & g' & E & _ & _ & D).
  - reflexivity.
  - reflexivity.
  - reflexivity.
  - repeat constructor.
  - repeat constructor; simpl; intuition discriminate.
  - exists t1, t2, g'. split; [exact E|]. apply D. repeat constructor.
Defined.

End QualifierFacts.

(** ** Results, standings and printing *)

Module GroupFacts.

Import Np Group ListFacts TableFacts StandingsFacts.

(** The fixtures that [add_results] stores from [all] for a roster. *)
Lemma select_str_filter (f : string -> bool) (l : list string) :
  select_str (map f l) l = filter f l.
Proof.
  induction l as [|x l IH]; [reflexivity|]. simpl.
  destruct (f x); rewrite IH; reflexivity.
Qed.

Lemma select_pairs (f : string -> bool) (l l' : list string) :
  List.length l' = List.length l ->
  combine (select_str (map f l) l) (select_str (map f l) l')
  = filter (fun p => f (fst p)) (combine l l').
Proof.
  revert l'; induction l as [|x l IH]; intros [|y l'] H; simpl in *;
    try congruence; try reflexivity.
  destruct (f x); simpl; rewrite IH by congruence; reflexivity.
Qed.

Lemma select_str_length (mask : list bool) (l : list string) :
  List.length l = List.length mask ->
  List.length (select_str mask l) = List.length (filter (fun b => b) mask).
Proof.
  revert l; induction mask as [|b mask IH]; intros [|x l] H; simpl in *;
    try congruence; try reflexivity.
  destruct b; simpl; rewrite IH by congruence; reflexivity.
Qed.

Lemma select_length (mask : list bool) (rs : list (list Z)) :
  List.length rs = List.length mask ->
  List.length (select mask rs) = List.length (filter (fun b => b) mask).
Proof.
  revert rs; induction mask as [|b mask IH]; intros [|x l] H; simpl in *;
    try congruence; try reflexivity.
  destruct b; simpl; rewrite IH by congruence; reflexivity.
Qed.

(** What [add_results] stores from simulated results of one shape. *)
Lemma add_results_stores (all : Results) (g : t) :
  results_wf all ->
  exists r,
    add_results all g = (Ok tt, set_results g r)
    /\ combine (home_team r) (away_team r)
       = filter (fun p => isin (teams g) (fst p))
                (combine (home_team all) (away_team all))
    /\ results_wf r
    /\ axis1 (home_score r) = axis1 (home_score all)
    /\ (forall previous, add_results all (set_results g previous)
                         = (Ok tt, set_results g r)).
Proof.
  intros (Hh & Ha & E1 & Nh & Na & Lt).
  unfold add_results. cbn [teams set_results].
  rewrite Lt, Nh, Na, !Nat.eqb_refl. cbn [andb].
  eexists. split; [reflexivity|]. cbn [home_team away_team home_score away_score].
  split; [apply select_pairs; exact Lt|]. split; [|split; [reflexivity|]].
  - unfold results_wf, wf, axis0.
    cbn [home_team away_team home_score away_score rows axis1].
    repeat split.
    + apply select_Forall. exact Hh.
    + apply select_Forall. exact Ha.
    + exact E1.
    + rewrite select_length, select_str_length; rewrite ?length_map; auto.
    + rewrite select_length, select_str_length; rewrite ?length_map; auto.
    + rewrite !select_str_length; rewrite ?length_map; auto.
  - intro previous. reflexivity.
Qed.

(** X7. [add_results] stores, in their order, exactly the fixtures of the
    simulated results whose home team is in the roster, whatever the away
    team is; the stored arrays are well formed with the same number of
    samples; and the call replaces the results stored before, leaving the
    table and the standings of the group as they were. *)
Theorem add_results_keeps_home_fixtures (all : Results) (g : t) :
  results_wf all ->
  exists r,
    add_results all g = (Ok tt, set_results g r)
    /\ combine (home_team r) (away_team r)
       = filter (fun p => isin (teams g) (fst p))
                (combine (home_team all) (away_team all))
    /\ results_wf r
    /\ axis1 (home_score r) = axis1 (home_score all)
    /\ (forall previous, add_results all (set_results g previous)
                         = (Ok tt, set_results g r)).
Proof. exact (add_results_stores all g). Qed.

(** The example results and the fresh group A. *)
Lemma add_results_keeps_home_fixtures_witness :
  exists r,
    add_results Examples.sim_results Examples.fresh_group
    = (Ok tt, set_results Examples.fresh_group r)
    /\ results_wf r.
Proof.
  destruct (add_results_keeps_home_fixtures Examples.sim_results Examples.fresh_group)
    as (r & E & _ & W & _).
  - repeat split; repeat constructor.
  - exists r. split; assumption.
Defined.

(** The default policy on a group whose table, if it has one, has arrays of
    one shape, and whose results, if it has no table, have one shape. *)
Lemma calc_standings_runs (g : t) (rnd : ndarray) :
  (table g = None -> exists r, results g = Some r /\ results_wf r) ->
  exists tb,
    calc_standings false rnd g
    = (Ok tt, set_standings (set_table g tb)
                (default_standings (List.length (teams g)) tb rnd))
    /\ match table g with
       | Some old => tb = old
       | None => option_map (calc_table_of (teams g)) (results g) = Some tb
       end.
Proof.
  intro H. unfold calc_standings, calc_table.
  destruct (table g) as [old|] eqn:T.
  - exists old. cbn. rewrite T. cbn.
    unfold set_standings, set_table. cbn. rewrite T. split; reflexivity.
  - destruct (H eq_refl) as (r & R & W). rewrite R.
    rewrite (table_fault_wf _ _ W). cbn.
    eexists. split; reflexivity.
Qed.

(** X8. For simulated results of one shape, and a group whose table, if it has
    one, has four arrays of one shape, [calc_standings] with the default
    policy, called after [add_results], does not raise.  It computes the
    table from the newly stored results only when the group had no table; a
    table computed before is used as it is, so the standings do not follow
    the new results. *)
Theorem calc_standings_after_add_results (all : Results) (g : t) (rnd : ndarray) :
  results_wf all ->
  (forall old, table g = Some old -> table_wf old) ->
  let g1 := snd (add_results all g) in
  let n := List.length (teams g) in
  exists tb,
    calc_standings false rnd g1
    = (Ok tt, set_standings (set_table g1 tb) (default_standings n tb rnd))
    /\ match table g with
       | Some old => tb = old
       | None => option_map (calc_table_of (teams g)) (results g1) = Some tb
       end.
Proof.
  intros W _ g1 n.
  destruct (add_results_stores all g W) as (r & E & _ & Wr & _).
  subst g1 n. rewrite E. cbn [snd].
  destruct (calc_standings_runs (set_results g r) rnd) as (tb & C & M).
  - intros _. exists r. split; [reflexivity | exact Wr].
  - exists tb. split; [exact C | exact M].
Qed.

(** The example results, stored in the fresh group A. *)
Lemma calc_standings_after_add_results_witness :
  exists tb,
    calc_standings false Examples.draws
      (snd (add_results Examples.sim_results Examples.fresh_group))
    = (Ok tt, set_standings
                (set_table (snd (add_results Examples.sim_results Examples.fresh_group)) tb)
                (default_standings 4 tb Examples.draws)).
Proof.
  destruct (calc_standings_after_add_results Examples.sim_results Examples.fresh_group
              Examples.draws) as (tb & E & _).
  - repeat split; repeat constructor.
  - intros old H. discriminate H.
  - exists tb. exact E.
Defined.

(** X9. Once the standings of a group are stored, [get_qualifiers] answers
    from them: it returns the same qualifiers after [add_results] has stored
    other results, and it changes nothing in the group. *)
Theorem get_qualifiers_from_stored_standings
  (all : Results) (g : t) (st : ndarray) (rnd rnd' : ndarray) :
  standings g = Some st ->
  fst (get_qualifiers rnd' (snd (add_results all g))) = fst (get_qualifiers rnd g)
  /\ snd (get_qualifiers rnd g) = g.
Proof.
  intro H. unfold get_qualifiers, add_results.
  destruct (_ && _); cbn [snd standings set_results];
    rewrite H; cbn [standings set_results teams]; rewrite ?H; split; reflexivity.
Qed.

(** Group A with its standings, and other random draws. *)
Lemma get_qualifiers_from_stored_standings_witness :
  snd (get_qualifiers Examples.draws Examples.ranked_group) = Examples.ranked_group.
Proof.
  refine (proj2 (get_qualifiers_from_stored_standings Examples.sim_results
                   Examples.ranked_group _ Examples.draws Examples.two_draws _)).
  reflexivity.
Defined.

(** X10. [__str__] never returns a string: it raises for every group.  When the
    group has a table of four arrays of one shape, or no table and stored
    results of one shape, the fault is the attribute error of [items] on the
    standings array, and the call has stored standings in the group. *)
Theorem str_always_raises (g : t) (rnd : ndarray) :
  exists e g',
    __str__ rnd g = (Raise e, g')
    /\ ((exists tb, table g = Some tb /\ table_wf tb)
        \/ (table g = None /\ exists r, results g = Some r /\ results_wf r) ->
        e = AttributeError "'numpy.ndarray' object has no attribute 'items'"
        /\ standings g' <> None).
Proof.
  unfold __str__.
  destruct (calc_standings false rnd g) as [[u|e] g1] eqn:C.
  - do 2 eexists. split; [reflexivity|]. intro H. split; [reflexivity|].
    destruct (calc_standings_runs g rnd) as (tb & C' & _).
    + intro T. destruct H as [(tb & T' & _)|(_ & H)]; [congruence | exact H].
    + rewrite C' in C. injection C as _ <-. discriminate.
  - do 2 eexists. split; [reflexivity|]. intro H.
    destruct (calc_standings_runs g rnd) as (tb & C' & _).
    + intro T. destruct H as [(tb & T' & _)|(_ & H)]; [congruence | exact H].
    + rewrite C' in C. discriminate.
Qed.

(** Printing group A. *)
Lemma str_always_raises_witness :
  exists g',
    __str__ Examples.draws Examples.group_A
    = (Raise (AttributeError "'numpy.ndarray' object has no attribute 'items'"), g')
    /\ standings g' <> None.
Proof.
  destruct (str_always_raises Examples.group_A Examples.draws) as (e & g' & E & H).
  destruct H as [-> S].
  - right. split; [reflexivity|]. exists Examples.sim_results.
    split; [reflexivity|]. repeat split; repeat constructor.
  - exists g'. split; assumption.
Defined.

End GroupFacts.

(** ** Positions and head-to-head results *)

Module CascadeMore.

Import Cascade CascadeFacts.

Lemma dict_get_set_same {V : Type} (d : dict V) k v :
  (exists v0, dict_get d k = Ok v0) -> dict_get (dict_set d k v) k = Ok v.
Proof.
  induction d as [|[k' v'] d IH]; intros [v0 H]; simpl in *; [discriminate|].
  destruct (String.eqb_spec k' k) as [->|N]; simpl.
  - rewrite String.eqb_refl. reflexivity.
  - destruct (String.eqb_spec k' k); [contradiction|]. apply IH. eauto.
Qed.

Lemma dict_get_set_other {V : Type} (d : dict V) k v k' :
  k' <> k -> dict_get (dict_set d k v) k' = dict_get d k'.
Proof.
  intro N. induction d as [|[k0 v0] d IH]; simpl.
  - destruct (String.eqb_spec k k'); [congruence | reflexivity].
  - destruct (String.eqb_spec k0 k) as [->|N0]; simpl.
    + destruct (String.eqb_spec k k'); [congruence | reflexivity].
    + destruct (String.eqb_spec k0 k'); [reflexivity | exact IH].
Qed.

Lemma keys_dict_set {V : Type} (d : dict V) k v :
  (exists v0, dict_get d k = Ok v0) -> keys (dict_set d k v) = keys d.
Proof.
  induction d as [|[k' v'] d IH]; intros [v0 H]; simpl in *; [discriminate|].
  destruct (String.eqb_spec k' k) as [->|N]; simpl; [reflexivity|].
  f_equal. apply IH. eauto.
Qed.

Lemma fill_unfilled (st : state) (team position : string) (cur : option string) :
  dict_get (standings st) position = Ok cur ->
  truthy cur = false ->
  exists st',
    fill_standings_position team position st = Some (Ok tt, st')
    /\ dict_get (standings st') position = Ok (Some team)
    /\ (forall p, p <> position ->
          dict_get (standings st') p = dict_get (standings st) p)
    /\ keys (standings st') = keys (standings st)
    /\ table st' = table st /\ results st' = results st /\ rng st' = rng st.
Proof.
  intros E T. unfold fill_standings_position. rewrite E, T.
  eexists. split; [reflexivity|]. cbn.
  repeat split.
  - apply dict_get_set_same. eauto.
  - intros p N. apply dict_get_set_other. exact N.
  - apply keys_dict_set. eauto.
Qed.

Lemma dict_get_raises {V : Type} (d : dict V) k e :
  dict_get d k = Raise e -> e = KeyError k.
Proof.
  induction d as [|[k' v'] d IH]; simpl.
  - congruence.
  - destruct (String.eqb k' k); [discriminate | exact IH].
Qed.

(** X11. On standings in the form of a dictionary from position to team,
    [fill_standings_position] on a position that is in the dictionary and
    holds [None] or the empty name stores the team there and changes no
    other position; on a position that is not in the dictionary it raises
    the key error and changes nothing.  On the standings that [__init__]
    and [calc_standings] store, [None] and an array, it raises the type
    error and the index error, and changes nothing. *)
Theorem fill_standings_position_stores (st : state) (team position : string) :
  match dict_get (standings st) position with
  | Raise e =>
      e = KeyError position
      /\ fill_standings_position team position st = Some (Raise e, st)
  | Ok cur =>
      truthy cur = false ->
      exists st',
        fill_standings_position team position st = Some (Ok tt, st')
        /\ dict_get (standings st') position = Ok (Some team)
        /\ (forall p, p <> position ->
              dict_get (standings st') p = dict_get (standings st) p)
        /\ keys (standings st') = keys (standings st)
        /\ table st' = table st /\ results st' = results st /\ rng st' = rng st
  end
  /\ option_map (fun out => (fst out, standings_dict (standings (snd out))))
       (fill_standings_position team position st)
     = Some (fill_standings_position_form team position (standings_dict (standings st)))
  /\ fill_standings_position_form team position standings_none
     = (Raise (TypeError "'NoneType' object is not subscriptable"), standings_none)
  /\ (forall a,
        fill_standings_position_form team position (standings_array a)
        = (Raise (IndexError
             "only integers, slices (`:`), ellipsis (`...`), numpy.newaxis (`None`) and integer or boolean arrays are valid indices"),
           standings_array a)).
Proof.
  split; [|split; [|split; [reflexivity | intro a; reflexivity]]].
  - destruct (dict_get (standings st) position) as [cur|e] eqn:E.
    + intro T. exact (fill_unfilled st team position cur E T).
    + split; [exact (dict_get_raises _ _ _ E)|].
      unfold fill_standings_position. rewrite E. reflexivity.
  - unfold fill_standings_position, fill_standings_position_form, standings_item.
    destruct (dict_get (standings st) position) as [cur|e]; [|reflexivity].
    destruct (truthy cur); reflexivity.
Qed.

(** The unfilled first position. *)
Lemma fill_standings_position_stores_witness :
  exists st',
    fill_standings_position "a" "1st" Examples.dict_state = Some (Ok tt, st')
    /\ dict_get (standings st') "1st" = Ok (Some "a").
Proof.
  destruct (proj1 (fill_standings_position_stores Examples.dict_state "a" "1st") eq_refl)
    as (st' & E & G & _).
  exists st'. split; assumption.
Defined.

Lemma dict_get_key {V : Type} (d : dict V) k :
  existsb (String.eqb k) (keys d) = true -> exists v, dict_get d k = Ok v.
Proof.
  induction d as [|[k' v'] d IH]; simpl; [discriminate|].
  rewrite (String.eqb_sym k k'). destruct (String.eqb k' k); simpl; eauto.
Qed.

Lemma set_eq_pair_swap (l : list string) a b :
  set_eq l [a; b] = set_eq l [b; a].
Proof.
  unfold set_eq, subset. f_equal.
  - induction l as [|x l IH]; [reflexivity|]. cbn [forallb].
    rewrite IH. f_equal. cbn [existsb].
    rewrite !orb_false_r. apply orb_comm.
  - cbn [forallb]. rewrite !andb_true_r. apply andb_comm.
Qed.

Lemma find_head_to_head_winner_cases (rs : list (dict Z)) (team_A team_B : string) :
  find_head_to_head_winner rs team_A team_B = find_head_to_head_winner rs team_B team_A
  /\ (find_head_to_head_winner rs team_A team_B = Ok (None, None)
      \/ find_head_to_head_winner rs team_A team_B = Ok (Some team_A, Some team_B)
      \/ find_head_to_head_winner rs team_A team_B = Ok (Some team_B, Some team_A))
  /\ (forall w l,
        find_head_to_head_winner rs team_A team_B = Ok (Some w, Some l) ->
        exists r a b,
          In r rs /\ set_eq (keys r) [team_A; team_B] = true
          /\ dict_get r w = Ok a /\ dict_get r l = Ok b /\ a > b).
Proof.
  induction rs as [|r rs (IH1 & IH2 & IH3)]; simpl.
  - repeat split; auto. intros w l H. discriminate H.
  - rewrite <- (set_eq_pair_swap (keys r) team_A team_B).
    destruct (set_eq (keys r) [team_A; team_B]) eqn:E.
    + pose proof E as E'.
      unfold set_eq in E. apply andb_true_iff in E. destruct E as [_ E].
      simpl in E. rewrite andb_true_r in E. apply andb_true_iff in E.
      destruct E as [EA EB].
      destruct (dict_get_key r team_A EA) as [a Ha],
               (dict_get_key r team_B EB) as [b Hb].
      rewrite Ha, Hb. simpl.
      destruct (Z.gtb_spec a b) as [G1|G1], (Z.gtb_spec b a) as [G2|G2]; try lia;
        repeat split; auto; intros w l H.
      * injection H as <- <-. exists r, a, b. repeat split; auto. lia.
      * injection H as <- <-. exists r, b, a. repeat split; auto. lia.
      * discriminate H.
    + repeat split; auto. intros w l H. destruct (IH3 w l H) as (r0 & a & b & I & R).
      exists r0, a, b. split; [right; exact I | exact R].
Qed.

(** X12. On results in the form of a list of dictionaries from team to score,
    [find_head_to_head_winner] does not raise and does not depend on the
    order of its two teams: it returns no winner, or the two teams in one of
    their two orders, and a team returned in front scored strictly more than
    the other one in a stored result between the two.  On the results that
    [__init__] and [add_results] store, [None] and a dictionary of arrays,
    it raises the type error and the attribute error. *)
Theorem find_head_to_head_winner_pair (r : results_form) (team_A team_B : string) :
  match r with
  | results_none =>
      find_head_to_head_winner_form r team_A team_B
      = Raise (TypeError "'NoneType' object is not iterable")
  | results_arrays _ =>
      find_head_to_head_winner_form r team_A team_B
      = Raise (AttributeError "'str' object has no attribute 'keys'")
  | results_list rs =>
      find_head_to_head_winner_form r team_A team_B
      = find_head_to_head_winner_form r team_B team_A
      /\ (find_head_to_head_winner_form r team_A team_B = Ok (None, None)
          \/ find_head_to_head_winner_form r team_A team_B
             = Ok (Some team_A, Some team_B)
          \/ find_head_to_head_winner_form r team_A team_B
             = Ok (Some team_B, Some team_A))
      /\ (forall w l,
            find_head_to_head_winner_form r team_A team_B = Ok (Some w, Some l) ->
            exists d a b,
              In d rs /\ set_eq (keys d) [team_A; team_B] = true
              /\ dict_get d w = Ok a /\ dict_get d l = Ok b /\ a > b)
  end.
Proof.
  destruct r as [|r|rs]; [reflexivity | reflexivity |].
  exact (find_head_to_head_winner_cases rs team_A team_B).
Qed.

(** [a] beat [b] 2-1. *)
Lemma find_head_to_head_winner_pair_witness :
  exists d x y,
    In d Examples.h2h_results /\ set_eq (keys d) ["b"; "a"] = true
    /\ dict_get d "a" = Ok x /\ dict_get d "b" = Ok y /\ x > y.
Proof.
  apply (proj2 (proj2 (find_head_to_head_winner_pair
                         (results_list Examples.h2h_results) "b" "a"))).
  reflexivity.
Defined.

(** X13. [check_if_result_exists] does not depend on the order of its two
    teams, and when it finds no result between them
    [find_head_to_head_winner] returns no winner. *)
Theorem check_if_result_exists_pair (rs : list (dict Z)) (team_1 team_2 : string) :
  check_if_result_exists rs team_1 team_2 = check_if_result_exists rs team_2 team_1
  /\ (check_if_result_exists rs team_1 team_2 = false ->
      find_head_to_head_winner rs team_1 team_2 = Ok (None, None)).
Proof.
  induction rs as [|r rs [IH1 IH2]]; simpl; [auto|].
  assert (S1 : set_eq [team_1; team_2] (keys r) = set_eq (keys r) [team_1; team_2])
    by (unfold set_eq; apply andb_comm).
  assert (S2 : set_eq [team_2; team_1] (keys r) = set_eq (keys r) [team_1; team_2])
    by (rewrite set_eq_pair_swap; unfold set_eq; apply andb_comm).
  rewrite S1, S2.
  destruct (set_eq (keys r) [team_1; team_2]); [split; [reflexivity | discriminate]|].
  split; assumption.
Qed.

(** No result between [a] and [c] is stored. *)
Lemma check_if_result_exists_pair_witness :
  find_head_to_head_winner Examples.h2h_results "a" "c" = Ok (None, None).
Proof.
  apply (proj2 (check_if_result_exists_pair Examples.h2h_results "a" "c")).
  reflexivity.
Defined.

End CascadeMore.

(** ** What the cascade keeps *)

Module CascadeFrame.

Import Cascade CascadeFacts CascadeMore.

Lemma keeps_refl st : keeps st st.
Proof. unfold keeps. auto. Qed.

Lemma keeps_trans st1 st2 st3 : keeps st1 st2 -> keeps st2 st3 -> keeps st1 st3.
Proof.
  intros (K1 & T1 & R1 & F1) (K2 & T2 & R2 & F2). unfold keeps.
  repeat split; try congruence. intros p t H N. apply F2; auto.
Qed.

Lemma preserves_lift {A : Type} (r : result A) : preserves (lift r).
Proof. intros st r' st' H. injection H as _ <-. apply keeps_refl. Qed.

Lemma preserves_read {A : Type} (f : state -> result A) :
  preserves (fun st => lift (f st) st).
Proof. intros st r' st' H. injection H as _ <-. apply keeps_refl. Qed.

Lemma preserves_ret {A : Type} (a : A) : preserves (ret a).
Proof. intros st r' st' H. injection H as _ <-. apply keeps_refl. Qed.

Lemma preserves_raise {A : Type} e : preserves (@raise A e).
Proof. intros st r' st' H. injection H as _ <-. apply keeps_refl. Qed.

Lemma preserves_cbind {A B : Type} (c : C A) (k : A -> C B) :
  preserves c -> (forall a, preserves (k a)) -> preserves (cbind c k).
Proof.
  intros Hc Hk st r st' H. unfold cbind in H.
  destruct (c st) as [[[a|e] st1]|] eqn:E; [| |discriminate].
  - eapply keeps_trans; [eapply Hc; exact E | eapply Hk; exact H].
  - injection H as _ <-. eapply Hc. exact E.
Qed.

Lemma preserves_ifc {A : Type} (c : result bool) (a b : C A) :
  preserves a -> preserves b -> preserves (ifc c a b).
Proof.
  intros Ha Hb. unfold ifc. apply preserves_cbind; [apply preserves_lift|].
  intros [|]; assumption.
Qed.

Lemma preserves_fill team position : preserves (fill_standings_position team position).
Proof.
  intros st r st' H. unfold fill_standings_position in H.
  destruct (dict_get (standings st) position) as [cur|e] eqn:E.
  - destruct (truthy cur) eqn:T; injection H as _ <-; [apply keeps_refl|].
    unfold keeps. cbn. repeat split.
    + apply keys_dict_set. eauto.
    + intros p t Hp N. destruct (String.eqb_spec p position) as [->|Np].
      * rewrite E in Hp. injection Hp as ->. simpl in T.
        destruct (String.eqb_spec t ""); [contradiction | discriminate].
      * rewrite dict_get_set_other by exact Np. exact Hp.
  - injection H as _ <-. apply keeps_refl.
Qed.

Lemma preserves_fill_at l i ps j : preserves (fill_at l i ps j).
Proof.
  unfold fill_at. apply preserves_cbind; [apply preserves_lift|]. intro.
  apply preserves_cbind; [apply preserves_lift|]. intro. apply preserves_fill.
Qed.

Lemma preserves_fill_named l i p : preserves (fill_named l i p).
Proof.
  unfold fill_named. apply preserves_cbind; [apply preserves_lift|]. intro.
  apply preserves_fill.
Qed.

Lemma preserves_fill_all ts ps : forall i, preserves (fill_all ts i ps).
Proof.
  induction ps as [|p ps IH]; intro i; simpl; [apply preserves_ret|].
  apply preserves_cbind; [apply preserves_lift|]. intro.
  apply preserves_cbind; [apply preserves_fill|]. intro. apply IH.
Qed.

Lemma preserves_shuffle l : preserves (shuffle l).
Proof.
  intros st r st' H. unfold shuffle in H.
  destruct (shuffle_from _ _ _). injection H as _ <-.
  unfold keeps. cbn. auto.
Qed.

Section Body.

Variable sort_teams_by : dict (dict Z) -> string -> result (list entry).

Lemma preserves_body self ts ps m :
  (forall ts' ps' m', preserves (self ts' ps' m')) ->
  preserves (body sort_teams_by self ts ps m).
Proof.
  intro H. unfold body.
  destruct (negb _); [apply preserves_raise|].
  destruct (String.eqb m "random").
  { apply preserves_cbind; [apply preserves_shuffle|]. intro.
    apply preserves_fill_all. }
  destruct (String.eqb m "head-to-head").
  - destruct (Nat.ltb _ _); [apply H|].
    do 2 (apply preserves_cbind; [apply preserves_lift|]; intro).
    apply preserves_cbind; [apply preserves_read|]. intros [[t1|] [t2|]]; try apply H.
    destruct (truthy (Some t1) && truthy (Some t2)); [|apply H].
    apply preserves_cbind; [apply preserves_lift|]; intro.
    apply preserves_cbind; [apply preserves_fill|]; intro.
    apply preserves_cbind; [apply preserves_lift|]; intro.
    apply preserves_fill.
  - cbv zeta.
    apply preserves_cbind; [apply preserves_read|]; intro team_dict.
    apply preserves_cbind; [apply preserves_lift|]; intro team_scores.
    apply preserves_cbind; [apply preserves_lift|]; intro i.
    apply preserves_cbind; [apply preserves_lift|]; intro nm.
    destruct (List.length (map team team_scores)) as [|[|[|[|[|n]]]]];
      try apply preserves_ret;
      repeat first
        [ apply H
        | apply preserves_fill_at
        | apply preserves_fill_named
        | apply preserves_ifc
        | apply preserves_cbind; [|intro] ].
Qed.

Lemma preserves_set_positions depth :
  forall ts ps m, preserves (set_positions_using_metric sort_teams_by depth ts ps m).
Proof.
  induction depth as [|d IH]; intros ts ps m; simpl.
  - intros st r st' H. discriminate H.
  - apply preserves_body. exact IH.
Qed.

End Body.

(** X14. Whatever it is called with and however it ends, returning or raising,
    [set_positions_using_metric] keeps the positions of the standings, the
    table and the results, and never changes a position that already holds
    a non-empty team name. *)
Theorem set_positions_keeps_filled
  (sort_teams_by : dict (dict Z) -> string -> result (list entry))
  (depth : nat) (teams_to_sort positions_to_fill : list string) (metric : string)
  (st st' : state) (r : result unit) :
  set_positions_using_metric sort_teams_by depth
    teams_to_sort positions_to_fill metric st = Some (r, st') ->
  keys (standings st') = keys (standings st)
  /\ table st' = table st
  /\ results st' = results st
  /\ forall p t, dict_get (standings st) p = Ok (Some t) -> t <> "" ->
                 dict_get (standings st') p = Ok (Some t).
Proof.
  intro H. exact (preserves_set_positions sort_teams_by depth _ _ _ _ _ _ H).
Qed.

(** The first position, held by [a], after a call that tries to fill it. *)
Lemma set_positions_keeps_filled_witness :
  exists r st',
    set_positions_using_metric Examples.sort_desc 5 Examples.roster
      ["1st"; "2nd"; "3rd"; "4th"] "random" Examples.filled_state = Some (r, st')
    /\ dict_get (standings st') "1st" = Ok (Some "a").
Proof.
  destruct (set_positions_using_metric Examples.sort_desc 5 Examples.roster
              ["1st"; "2nd"; "3rd"; "4th"] "random" Examples.filled_state)
    as [[r st']|] eqn:E; [|discriminate E].
  exists r, st'. split; [reflexivity|].
  apply (proj2 (proj2 (proj2 (set_positions_keeps_filled _ _ _ _ _ _ _ _ E)))).
  - reflexivity.
  - discriminate.
Defined.

(** X15. Called with different numbers of teams and positions,
    [set_positions_using_metric] raises the run-time error that names both
    numbers, before it reads or changes anything. *)
Theorem set_positions_count_mismatch
  (sort_teams_by : dict (dict Z) -> string -> result (list entry))
  (depth : nat) (teams_to_sort positions_to_fill : list string) (metric : string)
  (st : state) :
  List.length teams_to_sort <> List.length positions_to_fill ->
  set_positions_using_metric sort_teams_by (S depth)
    teams_to_sort positions_to_fill metric st
  = Some (Raise (RuntimeError
                   ("Can't fill " ++ str_of_nat (List.length positions_to_fill)
                    ++ " positions with "
                    ++ str_of_nat (List.length teams_to_sort) ++ " teams")), st).
Proof.
  intro N. cbn [set_positions_using_metric]. unfold body.
  apply Nat.eqb_neq in N. rewrite N. reflexivity.
Qed.

(** Four teams for one position. *)
Lemma set_positions_count_mismatch_witness :
  set_positions_using_metric Examples.sort_desc 1 Examples.roster ["1st"]
    "points" Examples.dict_state
  = Some (Raise (RuntimeError "Can't fill 1 positions with 4 teams"),
          Examples.dict_state).
Proof.
  apply (set_positions_count_mismatch Examples.sort_desc 0 Examples.roster ["1st"]
           "points" Examples.dict_state).
  discriminate.
Defined.

End CascadeFrame.

(** ** The random metric *)

Module ShuffleFacts.

Import Cascade CascadeFacts CascadeMore.

Lemma set_nth_length {A : Type} (l : list A) i x :
  List.length (set_nth l i x) = List.length l.
Proof.
  revert i; induction l as [|y l IH]; intros [|i]; simpl; auto.
Qed.

Lemma set_nth_same (l : list string) i j b :
  nth_error l j = Some b -> nth_error (set_nth l i b) j = Some b.
Proof.
  revert i j; induction l as [|y l IH]; intros [|i] [|j] H; simpl in *;
    try discriminate; auto.
Qed.

Lemma count_set_nth (l : list string) i a b x :
  nth_error l i = Some a ->
  (count_occ string_dec (set_nth l i b) x + (if string_dec a x then 1 else 0)
   = count_occ string_dec l x + (if string_dec b x then 1 else 0))%nat.
Proof.
  revert i; induction l as [|y l IH]; intros [|i] H; simpl in *; try discriminate.
  - injection H as ->.
    destruct (string_dec a x), (string_dec b x); lia.
  - specialize (IH i H). destruct (string_dec y x); lia.
Qed.

Lemma swap_perm (l : list string) i j : Permutation (swap l i j) l.
Proof.
  unfold swap.
  destruct (nth_error l i) as [a|] eqn:Ei; [|reflexivity].
  destruct (nth_error l j) as [b|] eqn:Ej; [|reflexivity].
  apply (Permutation_count_occ string_dec). intro x.
  pose proof (count_set_nth l i a b x Ei) as H1.
  pose proof (count_set_nth (set_nth l i b) j b a x (set_nth_same l i j b Ej)) as H2.
  lia.
Qed.

Lemma shuffle_from_perm n : forall draws l,
  Permutation (fst (shuffle_from n draws l)) l.
Proof.
  induction n as [|n IH]; intros draws l; simpl; [reflexivity|].
  destruct draws as [|d draws]; rewrite IH; apply swap_perm.
Qed.

(** [fill_all] on distinct positions that are all unfilled. *)
Lemma fill_all_fresh (ts : list string) (ps : list string) : forall i st,
  NoDup ps ->
  (forall p, In p ps ->
     exists cur, dict_get (standings st) p = Ok cur /\ truthy cur = false) ->
  (i + List.length ps <= List.length ts)%nat ->
  exists st',
    fill_all ts i ps st = Some (Ok tt, st')
    /\ (forall j, (j < List.length ps)%nat ->
          dict_get (standings st') (nth j ps "") = Ok (Some (nth (i + j) ts "")))
    /\ (forall p, ~ In p ps ->
          dict_get (standings st') p = dict_get (standings st) p).
Proof.
  induction ps as [|p ps IH]; intros i st ND U L; simpl in *.
  - exists st. repeat split; auto. intros j Hj. lia.
  - inversion ND as [|? ? Np ND']; subst.
    destruct (U p (or_introl eq_refl)) as (cur & E & T).
    destruct (fill_unfilled st (nth i ts "") p cur E T)
      as (st1 & F & G & O & _).
    destruct (IH (S i) st1 ND') as (st' & F' & G' & O').
    + intros q Hq. destruct (U q (or_intror Hq)) as (c & Ec & Tc).
      exists c. split; [|exact Tc]. rewrite O; [exact Ec|].
      intros ->. contradiction.
    + lia.
    + exists st'. split; [|split].
      * unfold cbind, lift, item.
        destruct (nth_error ts i) as [t|] eqn:Et.
        -- rewrite (nth_error_nth _ _ "" Et) in F. rewrite F. exact F'.
        -- apply nth_error_None in Et. lia.
      * intros [|j] Hj; simpl.
        -- rewrite O' by exact Np. rewrite Nat.add_0_r. exact G.
        -- rewrite G' by lia. f_equal. f_equal. f_equal. lia.
      * intros q Nq. rewrite O' by tauto. apply O.
        intros ->. apply Nq. left. reflexivity.
Qed.

(** X16. With the metric ["random"], as many teams as positions, and the
    positions distinct, in the standings and unfilled,
    [set_positions_using_metric] returns without a fault; the teams it has
    stored under the positions, in their order, are a rearrangement of the
    teams it was given, and no other position has changed. *)
Theorem set_positions_random_permutes
  (sort_teams_by : dict (dict Z) -> string -> result (list entry))
  (depth : nat) (teams_to_sort positions_to_fill : list string) (st : state) :
  List.length teams_to_sort = List.length positions_to_fill ->
  NoDup positions_to_fill ->
  (forall p, In p positions_to_fill ->
     exists cur, dict_get (standings st) p = Ok cur /\ truthy cur = false) ->
  exists shuffled st',
    set_positions_using_metric sort_teams_by (S depth)
      teams_to_sort positions_to_fill "random" st = Some (Ok tt, st')
    /\ Permutation shuffled teams_to_sort
    /\ (forall j, (j < List.length positions_to_fill)%nat ->
          dict_get (standings st') (nth j positions_to_fill "")
          = Ok (Some (nth j shuffled "")))
    /\ (forall p, ~ In p positions_to_fill ->
          dict_get (standings st') p = dict_get (standings st) p).
Proof.
  intros L ND U. cbn [set_positions_using_metric]. unfold body.
  rewrite L, Nat.eqb_refl. cbn [negb]. rewrite String.eqb_refl.
  unfold cbind at 1. unfold shuffle.
  pose proof (shuffle_from_perm (List.length teams_to_sort - 1) (rng st) teams_to_sort) as P.
  destruct (shuffle_from (List.length teams_to_sort - 1) (rng st) teams_to_sort)
    as [l' draws'] eqn:E.
  cbn [fst] in P.
  set (st0 := mk_state (standings st) (table st) (results st) draws').
  destruct (fill_all_fresh l' positions_to_fill O st0 ND) as (st' & F & G & O).
  - exact U.
  - rewrite (Permutation_length P). lia.
  - exists l', st'. repeat split; assumption.
Qed.

(** The four teams and the four unfilled positions of the example state. *)
Lemma set_positions_random_permutes_witness :
  exists shuffled st',
    set_positions_using_metric Examples.sort_desc 1 Examples.roster
      ["1st"; "2nd"; "3rd"; "4th"] "random" Examples.dict_state = Some (Ok tt, st')
    /\ Permutation shuffled Examples.roster.
Proof.
  destruct (set_positions_random_permutes Examples.sort_desc 0 Examples.roster
              ["1st"; "2nd"; "3rd"; "4th"] Examples.dict_state)
    as (l & st' & E & P & _).
  - reflexivity.
  - repeat constructor; simpl; intuition discriminate.
  - intros p [<-|[<-|[<-|[<-|[]]]]]; exists None; split; reflexivity.
  - exists l, st'. split; assumption.
Defined.

End ShuffleFacts.

(** ** Teams in order *)

Module OrderFacts.

Import Cascade CascadeFacts CascadeMore.

(** X17. Four teams that [sort_teams_by] returns with strictly decreasing
    points are stored under ["1st"], ["2nd"], ["3rd"], ["4th"] in that
    order, without a further call, when these four positions are in the
    standings and unfilled; the names in [positions_to_fill] are not used,
    and no other position changes. *)
Theorem set_positions_four_in_order
  (sort_teams_by : dict (dict Z) -> string -> result (list entry))
  (depth : nat) (teams_to_sort positions_to_fill : list string) (st : state)
  (team_dict : dict (dict Z)) (e0 e1 e2 e3 : entry) (v0 v1 v2 v3 : Z) :
  List.length teams_to_sort = List.length positions_to_fill ->
  team_dict_of (table st) teams_to_sort [] = Ok team_dict ->
  sort_teams_by team_dict "points" = Ok [e0; e1; e2; e3] ->
  dict_get (scores e0) "points" = Ok v0 ->
  dict_get (scores e1) "points" = Ok v1 ->
  dict_get (scores e2) "points" = Ok v2 ->
  dict_get (scores e3) "points" = Ok v3 ->
  v0 > v1 -> v1 > v2 -> v2 > v3 ->
  (forall p, In p ["1st"; "2nd"; "3rd"; "4th"] ->
     exists cur, dict_get (standings st) p = Ok cur /\ truthy cur = false) ->
  exists st',
    set_positions_using_metric sort_teams_by (S depth)
      teams_to_sort positions_to_fill "points" st = Some (Ok tt, st')
    /\ dict_get (standings st') "1st" = Ok (Some (team e0))
    /\ dict_get (standings st') "2nd" = Ok (Some (team e1))
    /\ dict_get (standings st') "3rd" = Ok (Some (team e2))
    /\ dict_get (standings st') "4th" = Ok (Some (team e3))
    /\ (forall p, ~ In p ["1st"; "2nd"; "3rd"; "4th"] ->
          dict_get (standings st') p = dict_get (standings st) p).
Proof.
  intros L Hd Hs S0 S1 S2 S3 G01 G12 G23 U.
  destruct (U "1st") as (c1 & E1 & T1); [simpl; auto|].
  destruct (U "2nd") as (c2 & E2 & T2); [simpl; auto|].
  destruct (U "3rd") as (c3 & E3 & T3); [simpl; auto 6|].
  destruct (U "4th") as (c4 & E4 & T4); [simpl; auto 6|].
  destruct (fill_unfilled st (team e0) "1st" c1 E1 T1) as (st1 & F1 & A1 & O1 & _).
  destruct (fill_unfilled st1 (team e1) "2nd" c2) as (st2 & F2 & A2 & O2 & _);
    [rewrite O1 by discriminate; exact E2 | exact T2 |].
  destruct (fill_unfilled st2 (team e2) "3rd" c3) as (st3 & F3 & A3 & O3 & _);
    [rewrite O2, O1 by discriminate; exact E3 | exact T3 |].
  destruct (fill_unfilled st3 (team e3) "4th" c4) as (st4 & F4 & A4 & O4 & _);
    [rewrite O3, O2, O1 by discriminate; exact E4 | exact T4 |].
  exists st4. split.
  - cbn [set_positions_using_metric]. unfold body.
    rewrite L, Nat.eqb_refl. cbn [negb].
    change (String.eqb "points" "random") with false.
    change (String.eqb "points" "head-to-head") with false.
    cbv zeta iota. unfold cbind at 1. unfold lift at 1. rewrite Hd.
    unfold cbind at 1. unfold lift at 1. rewrite Hs.
    change (index "points") with (@Ok nat 0%nat).
    unfold cbind at 1. unfold lift at 1.
    change (item metrics 1) with (@Ok string "goal_difference").
    unfold cbind at 1. unfold lift at 1.
    cbn [map team List.length].
    assert (GT : forall i j a b ei ej,
              nth_error [e0; e1; e2; e3] i = Some ei ->
              nth_error [e0; e1; e2; e3] j = Some ej ->
              dict_get (scores ei) "points" = Ok a ->
              dict_get (scores ej) "points" = Ok b ->
              a > b ->
              gt [e0; e1; e2; e3] "points" i j = Ok true).
    { intros i j a b ei ej Hi Hj Ha Hb Hab. unfold gt, score, item.
      rewrite Hi, Hj. cbn [bind]. rewrite Ha, Hb. cbn [bind].
      f_equal. apply Z.gtb_lt. lia. }
    rewrite (GT 0%nat 1%nat v0 v1 e0 e1), (GT 1%nat 2%nat v1 v2 e1 e2),
      (GT 2%nat 3%nat v2 v3 e2 e3) by (reflexivity || assumption).
    cbn [and_]. unfold ifc, cbind at 1, lift at 1.
    unfold fill_named, item. cbn [nth_error].
    unfold cbind, lift. rewrite F1, F2, F3. exact F4.
  - repeat split.
    + rewrite O4, O3, O2 by discriminate. exact A1.
    + rewrite O4, O3 by discriminate. exact A2.
    + rewrite O4 by discriminate. exact A3.
    + exact A4.
    + intros p N. simpl in N.
      rewrite O4, O3, O2, O1; try reflexivity; intros ->; tauto.
Qed.

(** Points 9, 6, 3, 0. *)
Lemma set_positions_four_in_order_witness :
  exists st',
    set_positions_using_metric Examples.sort_desc 1 Examples.roster
      ["1st"; "2nd"; "3rd"; "4th"] "points" Examples.ordered_state = Some (Ok tt, st')
    /\ dict_get (standings st') "1st" = Ok (Some "a")
    /\ dict_get (standings st') "4th" = Ok (Some "d").
Proof.
  edestruct (set_positions_four_in_order Examples.sort_desc 0 Examples.roster
               ["1st"; "2nd"; "3rd"; "4th"] Examples.ordered_state)
    as (st' & E & A & _ & _ & D & _);
    [ reflexivity | reflexivity | reflexivity | reflexivity | reflexivity
    | reflexivity | reflexivity | reflexivity | reflexivity | reflexivity
    | intros p [<-|[<-|[<-|[<-|[]]]]]; exists None; split; reflexivity
    | exists st'; repeat split; assumption ].
Defined.

End OrderFacts.

(** ** Construction and group stage *)

Module SetupFacts.

Import Tournament.

Lemma group_lookup_map (f : string -> Group.t) (names : list string) (n : string) :
  (In n names -> group_lookup (map (fun k => (k, f k)) names) n = Ok (f n))
  /\ (forall g, group_lookup (map (fun k => (k, f k)) names) n = Ok g ->
        In n names /\ g = f n).
Proof.
  induction names as [|k names [IH1 IH2]]; simpl.
  - split; [tauto | discriminate].
  - destruct (String.eqb_spec k n) as [->|N].
    + split; [reflexivity|]. intros g H. injection H as <-. auto.
    + split.
      * intros [E|H]; [contradiction | auto].
      * intros g H. destruct (IH2 g H). auto.
Qed.

Lemma in_teams_of_group (teams_data : list (string * string)) (team grp : string) :
  In team (teams_of_group teams_data grp) <-> In (team, grp) teams_data.
Proof.
  unfold teams_of_group. rewrite in_map_iff. split.
  - intros ([t g'] & E & H). apply filter_In in H. destruct H as [H Eg].
    simpl in *. apply String.eqb_eq in Eg. subst. exact H.
  - intro H. exists (team, grp). split; [reflexivity|].
    apply filter_In. split; [exact H|]. simpl. apply String.eqb_refl.
Qed.

(** X18. [Tournament(...)] makes one group for every group name of the teams
    data: the group of a listed team exists under its name, is named by it,
    has as roster exactly the teams listed with that name, and has no
    results, table or standings yet.  No other group exists; the alias
    table has one row per sample and no column, and the tournament is not
    complete. *)
Theorem init_groups (list_of_set : list string -> list string)
  (teams_data : list (string * string)) (fixture_data : list fixture) (samples : nat) :
  (forall l x, In x (list_of_set l) <-> In x l) ->
  let x := init list_of_set teams_data fixture_data samples in
  (forall team grp, In (team, grp) teams_data ->
     exists g, group_lookup (groups x) grp = Ok g /\ In team (Group.teams g))
  /\ (forall grp g, group_lookup (groups x) grp = Ok g ->
        g = Group.init grp (teams_of_group teams_data grp)
        /\ (exists team, In (team, grp) teams_data)
        /\ forall team, In team (Group.teams g) <-> In (team, grp) teams_data)
  /\ aliases x = mk_frame samples []
  /\ is_complete x = false
  /\ num_samples x = samples.
Proof.
  intros Hset x. unfold x, init. cbn [groups aliases is_complete num_samples].
  set (f := fun n => Group.init n (teams_of_group teams_data n)).
  set (names := list_of_set (map snd teams_data)).
  repeat split.
  - intros team grp H.
    assert (I : In grp names).
    { apply Hset. apply in_map_iff. exists (team, grp). auto. }
    exists (f grp). split; [apply (group_lookup_map f names grp); exact I|].
    apply in_teams_of_group. exact H.
  - apply (group_lookup_map f names grp). exact H.
  - apply (group_lookup_map f names grp) in H. destruct H as [I _].
    apply Hset, in_map_iff in I. destruct I as ([t g'] & E & I).
    simpl in E. subst. eauto.
  - apply (group_lookup_map f names grp) in H. destruct H as [_ ->].
    apply in_teams_of_group.
  - apply (group_lookup_map f names grp) in H. destruct H as [_ ->].
    apply in_teams_of_group.
Qed.

(** One group of four teams, the names of the set in their order of first
    occurrence. *)
Lemma init_groups_witness :
  exists g,
    group_lookup
      (groups (init (nodup string_dec) Examples.teams_data_A [] 2)) "A" = Ok g
    /\ In "c" (Group.teams g).
Proof.
  apply (proj1 (init_groups (nodup string_dec) Examples.teams_data_A [] 2
                  (fun l x => nodup_In string_dec l x))).
  simpl. auto.
Defined.

Section GroupStage.

Variable simulate_score : list string -> list string -> nat -> Group.Results.
Variable random_draw : string -> Np.ndarray.

Lemma play_groups_default (results : Group.Results) (gs : list (string * Group.t)) :
  Group.results_wf results ->
  exists gs',
    play_groups random_draw results false gs = (Ok tt, gs')
    /\ map fst gs' = map fst gs
    /\ Forall (fun kg => Group.results (snd kg) <> None
                         /\ Group.table (snd kg) <> None
                         /\ Group.standings (snd kg) <> None) gs'
    /\ map (fun kg => Group.teams (snd kg)) gs'
       = map (fun kg => Group.teams (snd kg)) gs.
Proof.
  intro W. induction gs as [|[k g] gs (gs' & E & K & F & T)].
  - exists []. repeat split; constructor.
  - cbn [play_groups].
    destruct (GroupFacts.add_results_stores results g W) as (r & A & _ & Wr & _).
    rewrite A.
    destruct (GroupFacts.calc_standings_runs (Group.set_results g r)
                (random_draw (Group.name (Group.set_results g r))))
      as (tb & C & _).
    { intros _. exists r. split; [reflexivity | exact Wr]. }
    rewrite C, E.
    eexists. split; [reflexivity|].
    split; [cbn; f_equal; exact K|].
    split; [|cbn; f_equal; exact T].
    constructor; [|exact F]. cbn. repeat split; discriminate.
Qed.

Lemma play_groups_head_to_head (results : Group.Results) k g gs :
  Group.results_wf results ->
  exists g',
    play_groups random_draw results true ((k, g) :: gs)
    = (Raise (NotImplementedError "Not updated head-to-head logic"), (k, g') :: gs)
    /\ Group.standings g' = Group.standings g.
Proof.
  intro W. cbn [play_groups].
  destruct (GroupFacts.add_results_stores results g W) as (r & A & _ & Wr & _).
  rewrite A.
  unfold Group.calc_standings, Group.calc_table.
  cbn [Group.table Group.set_results Group.results Group.name Group.teams].
  rewrite (TableFacts.table_fault_wf _ _ Wr).
  destruct (Group.table g) as [tb|] eqn:Tb; cbn; rewrite ?Tb; cbn;
    eexists; split; reflexivity.
Qed.

End GroupStage.

(** X19. When the simulated scores of the group fixtures have one shape, and
    every table that a group already has is made of four arrays of one
    shape, [play_group_stage] with the default policy does not raise: it
    leaves every group of the tournament, under the same name and with the
    same roster, with stored results, a table and standings, and changes
    nothing else in the tournament. *)
Theorem play_group_stage_default
  (simulate_score : list string -> list string -> nat -> Group.Results)
  (random_draw : string -> Np.ndarray) (x : t) :
  let group_fixtures :=
    filter (fun row => String.eqb (Stage row) "Group") (fixtures_df x) in
  Group.results_wf
    (simulate_score (map Team_1 group_fixtures) (map Team_2 group_fixtures)
                    (num_samples x)) ->
  Forall (fun kg => forall old, Group.table (snd kg) = Some old -> Group.table_wf old)
         (groups x) ->
  exists gs',
    play_group_stage simulate_score random_draw false x = (Ok tt, set_groups x gs')
    /\ map fst gs' = map fst (groups x)
    /\ map (fun kg => Group.teams (snd kg)) gs'
       = map (fun kg => Group.teams (snd kg)) (groups x)
    /\ Forall (fun kg => Group.results (snd kg) <> None
                         /\ Group.table (snd kg) <> None
                         /\ Group.standings (snd kg) <> None) gs'.
Proof.
  intros group_fixtures W _. unfold play_group_stage. cbv zeta.
  destruct (play_groups_default random_draw _ (groups x) W) as (gs' & E & K & F & T).
  exists gs'. fold group_fixtures. rewrite E. auto.
Qed.

(** The bracket of the examples, whose only group is group A. *)
Lemma play_group_stage_default_witness :
  exists gs',
    play_group_stage Examples.score_A (fun _ => Examples.draws) false
      Examples.repeated_bracket
    = (Ok tt, set_groups Examples.repeated_bracket gs')
    /\ map fst gs' = ["A"].
Proof.
  destruct (play_group_stage_default Examples.score_A (fun _ => Examples.draws)
              Examples.repeated_bracket) as (gs' & E & K & _).
  - repeat split; repeat constructor.
  - constructor; [intros old H; discriminate H | constructor].
  - exists gs'. split; [exact E | exact K].
Defined.

(** X20. When the simulated scores of the group fixtures have one shape,
    [play_group_stage] with [head_to_head=True] on a tournament that has a
    group raises the "not implemented" fault at the first group: no group
    gets standings, and the groups after the first one are not touched. *)
Theorem play_group_stage_head_to_head
  (simulate_score : list string -> list string -> nat -> Group.Results)
  (random_draw : string -> Np.ndarray) (x : t) k g gs :
  let group_fixtures :=
    filter (fun row => String.eqb (Stage row) "Group") (fixtures_df x) in
  Group.results_wf
    (simulate_score (map Team_1 group_fixtures) (map Team_2 group_fixtures)
                    (num_samples x)) ->
  groups x = (k, g) :: gs ->
  exists g',
    play_group_stage simulate_score random_draw true x
    = (Raise (NotImplementedError "Not updated head-to-head logic"),
       set_groups x ((k, g') :: gs))
    /\ Group.standings g' = Group.standings g.
Proof.
  intros group_fixtures W H. unfold play_group_stage. cbv zeta. rewrite H.
  destruct (play_groups_head_to_head random_draw _ k g gs W) as (g' & E & S).
  exists g'. fold group_fixtures. rewrite E. auto.
Qed.

(** The bracket of the examples, whose only group is group A. *)
Lemma play_group_stage_head_to_head_witness :
  exists g',
    play_group_stage Examples.score_A (fun _ => Examples.draws) true
      Examples.repeated_bracket
    = (Raise (NotImplementedError "Not updated head-to-head logic"),
       set_groups Examples.repeated_bracket [("A", g')])
    /\ Group.standings g' = None.
Proof.
  apply (play_group_stage_head_to_head Examples.score_A (fun _ => Examples.draws)
           Examples.repeated_bracket "A" Examples.group_A []).
  - repeat split; repeat constructor.
  - reflexivity.
Defined.

End SetupFacts.

(** ** The knockout stages *)

Module KnockoutFacts.

Import Tournament TournamentFacts.

Lemma frame_get_ok (df : frame) (ks : list string) (cs : list (list string)) :
  frame_get df ks = Ok cs ->
  List.length cs = List.length ks
  /\ forall f, (f < List.length ks)%nat ->
       lookup (columns df) (nth f ks "") = Some (nth f cs []).
Proof.
  revert cs; induction ks as [|k ks IH]; intros cs H; simpl in H.
  - injection H as <-. split; [reflexivity|]. intros f Hf. simpl in Hf. lia.
  - destruct (lookup (columns df) k) as [c|] eqn:E; [|discriminate].
    destruct (frame_get df ks) as [cs'|] eqn:E'; [|discriminate].
    injection H as <-. destruct (IH cs' eq_refl) as [L G].
    split; [simpl; congruence|].
    intros [|f] Hf; simpl in *; [exact E | apply G; lia].
Qed.

Lemma frame_get_raise (df : frame) (ks : list string) (e : exn) :
  frame_get df ks = Raise e ->
  exists k, e = KeyError k /\ In k ks /\ lookup (columns df) k = None.
Proof.
  induction ks as [|k ks IH]; intro H; simpl in H; [discriminate|].
  destruct (lookup (columns df) k) as [c|] eqn:E.
  - destruct (frame_get df ks) as [cs'|e'] eqn:E'; [discriminate|].
    injection H as <-. destruct (IH eq_refl) as (k' & -> & I & N).
    exists k'. simpl. auto.
  - injection H as <-. exists k. simpl. auto.
Qed.

Lemma frame_get_total (df : frame) (ks : list string) :
  (forall k, In k ks -> lookup (columns df) k <> None) ->
  exists cs, frame_get df ks = Ok cs.
Proof.
  intro H. destruct (frame_get df ks) as [cs|e] eqn:E; [eauto|].
  destruct (frame_get_raise df ks e E) as (k & _ & I & N).
  exfalso. exact (H k I N).
Qed.

(** X21. A knockout stage with a fixture that names a slot for which the alias
    table has no column raises the key error of such a slot, and leaves the
    tournament as it was. *)
Theorem play_stage_missing_slot
  (simulate_outcome : string -> list string -> list string -> list string)
  (stage : string) (x : t) (row : fixture) :
  In row (stage_fixtures x stage) ->
  lookup (columns (aliases x)) (Team_1 row) = None
  \/ lookup (columns (aliases x)) (Team_2 row) = None ->
  exists k,
    play_stage simulate_outcome stage x = (Raise (KeyError k), x)
    /\ lookup (columns (aliases x)) k = None
    /\ exists row', In row' (stage_fixtures x stage)
                    /\ (k = Team_1 row' \/ k = Team_2 row').
Proof.
  intros Hrow Hmiss. unfold play_stage.
  destruct (frame_get (aliases x) (map Team_1 (stage_fixtures x stage)))
    as [c1|e1] eqn:E1.
  - destruct (frame_get (aliases x) (map Team_2 (stage_fixtures x stage)))
      as [c2|e2] eqn:E2.
    + exfalso. destruct Hmiss as [N|N].
      * destruct (In_nth _ _ (mk_fixture "" "" "") Hrow) as (f & Hf & Ef).
        destruct (frame_get_ok _ _ _ E1) as [_ G].
        specialize (G f). rewrite length_map in G. specialize (G Hf).
        rewrite (nth_indep _ "" (Team_1 (mk_fixture "" "" ""))) in G
          by (rewrite length_map; exact Hf).
        rewrite map_nth, Ef in G. congruence.
      * destruct (In_nth _ _ (mk_fixture "" "" "") Hrow) as (f & Hf & Ef).
        destruct (frame_get_ok _ _ _ E2) as [_ G].
        specialize (G f). rewrite length_map in G. specialize (G Hf).
        rewrite (nth_indep _ "" (Team_2 (mk_fixture "" "" ""))) in G
          by (rewrite length_map; exact Hf).
        rewrite map_nth, Ef in G. congruence.
    + destruct (frame_get_raise _ _ _ E2) as (k & -> & I & N).
      exists k. repeat split; auto. apply in_map_iff in I.
      destruct I as (row' & <- & I). eauto.
  - destruct (frame_get_raise _ _ _ E1) as (k & -> & I & N).
    exists k. repeat split; auto. apply in_map_iff in I.
    destruct I as (row' & <- & I). eauto.
Qed.

(** The round of 16 before the qualifiers are assigned. *)
Lemma play_stage_missing_slot_witness :
  exists k,
    play_stage Examples.home_then_away "R16" Examples.repeated_bracket
    = (Raise (KeyError k), Examples.repeated_bracket).
Proof.
  destruct (play_stage_missing_slot Examples.home_then_away "R16"
              Examples.repeated_bracket (mk_fixture "R16" "1A" "2A"))
    as (k & E & _).
  - simpl. auto.
  - left. reflexivity.
  - exists k. exact E.
Defined.

(** What a stage leaves of the tournament, and the winner it records. *)
Lemma play_stage_fields
  (simulate_outcome : string -> list string -> list string -> list string)
  (stage : string) (x x' : t) (r : result unit) :
  play_stage simulate_outcome stage x = (r, x') ->
  teams_df x' = teams_df x /\ fixtures_df x' = fixtures_df x
  /\ groups x' = groups x /\ num_samples x' = num_samples x
  /\ is_complete x' = is_complete x
  /\ index_len (aliases x') = index_len (aliases x)
  /\ match r with
     | Raise _ => winner x' = winner x
     | Ok _ =>
         if String.eqb stage "F"
         then exists w, winner x' = Some w
                /\ List.length w
                   = (num_samples x * List.length (stage_fixtures x stage))%nat
         else winner x' = winner x
     end.
Proof.
  unfold play_stage.
  destruct (frame_get _ (map Team_1 _)) as [c1|e];
    [|intro H; injection H as <- <-; repeat split].
  destruct (frame_get _ (map Team_2 _)) as [c2|e];
    [|intro H; injection H as <- <-; repeat split].
  destruct (Nat.eqb _ _) eqn:N; cbn [negb];
    [|intro H; injection H as <- <-; repeat split].
  destruct (frame_set_all _ _ _ _ _ _) as [a|e] eqn:E;
    [|intro H; injection H as <- <-; repeat split].
  apply frame_set_all_columns in E. destruct E as (Li & _).
  intro H. injection H as <- <-.
  destruct (String.eqb stage "F"); cbn; repeat split; auto.
  eexists. split; [reflexivity|]. apply Nat.eqb_eq. exact N.
Qed.

Lemma assign_qualifiers_fields (random_draw : string -> Np.ndarray) (ks : list string) :
  forall x r x',
    assign_qualifiers random_draw ks x = (r, x') ->
    teams_df x' = teams_df x /\ fixtures_df x' = fixtures_df x
    /\ num_samples x' = num_samples x /\ is_complete x' = is_complete x
    /\ winner x' = winner x.
Proof.
  induction ks as [|k ks IH]; intros x r x' H; simpl in H.
  - injection H as <- <-. auto.
  - destruct (group_lookup (groups x) k) as [g|e]; [|injection H as <- <-; auto].
    destruct (Group.get_qualifiers _ g) as [[[t1 t2]|e] g'];
      [|injection H as <- <-; cbn; auto].
    destruct (frame_set _ _ t1) as [a1|e]; [|injection H as <- <-; cbn; auto].
    destruct (frame_set a1 _ t2) as [a2|e]; [|injection H as <- <-; cbn; auto].
    apply IH in H. cbn in H. exact H.
Qed.

(** X22. [play_knockout_stages] marks the tournament complete exactly when it
    returns: then a winner is recorded, with one entry per sample and final
    fixture; when it raises, the completion flag is as before.  In both
    cases the teams data, the fixtures and the number of samples are
    unchanged. *)
Theorem play_knockout_stages_completion
  (simulate_outcome : string -> list string -> list string -> list string)
  (random_draw : string -> Np.ndarray) (x : t) :
  let '(r, x') := play_knockout_stages simulate_outcome random_draw x in
  teams_df x' = teams_df x /\ fixtures_df x' = fixtures_df x
  /\ num_samples x' = num_samples x
  /\ match r with
     | Ok _ =>
         is_complete x' = true
         /\ exists w, winner x' = Some w
              /\ List.length w
                 = (num_samples x * List.length (stage_fixtures x "F"))%nat
     | Raise _ => is_complete x' = is_complete x
     end.
Proof.
  unfold play_knockout_stages.
  destruct (assign_qualifiers random_draw (map fst (groups x)) x) as [r0 x0] eqn:E0.
  apply assign_qualifiers_fields in E0. destruct E0 as (T0 & F0 & N0 & C0 & _).
  destruct r0 as [[]|e]; [|auto].
  unfold stages. cbn [play_stages].
  destruct (play_stage simulate_outcome "R16" x0) as [r1 x1] eqn:E1.
  apply play_stage_fields in E1. destruct E1 as (T1 & F1 & _ & N1 & C1 & _).
  destruct r1 as [[]|e]; [|repeat split; congruence].
  destruct (play_stage simulate_outcome "QF" x1) as [r2 x2] eqn:E2.
  apply play_stage_fields in E2. destruct E2 as (T2 & F2 & _ & N2 & C2 & _).
  destruct r2 as [[]|e]; [|repeat split; congruence].
  destruct (play_stage simulate_outcome "SF" x2) as [r3 x3] eqn:E3.
  apply play_stage_fields in E3. destruct E3 as (T3 & F3 & _ & N3 & C3 & _).
  destruct r3 as [[]|e]; [|repeat split; congruence].
  destruct (play_stage simulate_outcome "F" x3) as [r4 x4] eqn:E4.
  apply play_stage_fields in E4. destruct E4 as (T4 & F4 & _ & N4 & C4 & _ & W4).
  destruct r4 as [[]|e]; [|repeat split; congruence].
  change (String.eqb "F" "F") with true in W4. cbv iota in W4.
  destruct W4 as (w & W & L).
  cbn. repeat split; try congruence.
  exists w. split; [exact W|]. rewrite L. unfold stage_fixtures. congruence.
Qed.

(** X23. [get_furthest_position_for_team] returns no stage other than ["W"]:
    before the tournament is complete it returns [None], and afterwards it
    returns ["W"] or raises.  It returns ["W"] only for a tournament of one
    sample and its winner. *)
Theorem furthest_position_only_W (x : t) (team_name : string) :
  (is_complete x = false -> get_furthest_position_for_team x team_name = Ok None)
  /\ (forall answer,
        get_furthest_position_for_team x team_name = Ok (Some answer) ->
        answer = "W" /\ is_complete x = true /\ winner x = Some [team_name]).
Proof.
  unfold get_furthest_position_for_team. split.
  - intros ->. reflexivity.
  - intros answer H. destruct (is_complete x); [|discriminate H]. cbn [negb] in H.
    destruct (winner x) as [ws|]; [|discriminate H].
    destruct ws as [|w [|w' ws]]; cbn [map array_truth bind] in H;
      try discriminate H.
    destruct (String.eqb_spec w team_name) as [E|N]; [|discriminate H].
    injection H as <-. subst w. auto.
Qed.

(** The bracket of the examples is not complete. *)
Lemma furthest_position_only_W_witness :
  get_furthest_position_for_team Examples.repeated_bracket "a" = Ok None.
Proof.
  apply (proj1 (furthest_position_only_W Examples.repeated_bracket "a")).
  reflexivity.
Defined.

End KnockoutFacts.

(** ** Samples and fixtures *)

Module WinnerFacts.

Import Tournament TournamentFacts KnockoutFacts.

Lemma frame_set_all_values n F out ks : forall df f0 df',
  frame_set_all df n F out ks f0 = Ok df' ->
  NoDup ks ->
  forall j, (j < List.length ks)%nat ->
    lookup (columns df') (nth j ks "") = Some (reshaped_column n F out (f0 + j)).
Proof.
  induction ks as [|k ks IH]; intros df f0 df' H ND j Hj; simpl in Hj; [lia|].
  inversion ND as [|? ? Nk ND']; subst. cbn [frame_set_all] in H.
  destruct (frame_set df k (reshaped_column n F out f0)) as [df1|e] eqn:E1;
    [|discriminate H]. cbn [bind] in H.
  destruct j as [|j]; cbn [nth].
  - destruct (frame_set_all_columns _ _ _ _ _ _ _ H) as (_ & _ & Hout & _).
    rewrite Hout by exact Nk. unfold frame_set in E1.
    destruct (Nat.eqb _ _); [|discriminate E1]. injection E1 as <-.
    cbn [columns]. rewrite lookup_upsert, String.eqb_refl, Nat.add_0_r.
    reflexivity.
  - rewrite (IH df1 (S f0) df' H ND' j) by lia. do 2 f_equal. lia.
Qed.

Lemma frame_set_all_index n F out ks : forall df f0 df',
  frame_set_all df n F out ks f0 = Ok df' ->
  ks <> [] -> index_len df = n.
Proof.
  intros df f0 df' H N. destruct ks as [|k ks]; [congruence|].
  cbn [frame_set_all] in H. unfold frame_set in H at 1.
  destruct (Nat.eqb _ _) eqn:E; [|discriminate H].
  apply Nat.eqb_eq in E. unfold reshaped_column in E.
  rewrite length_map, length_seq in E. congruence.
Qed.

(** Entry [s * F + f] of a list made of blocks of [F] entries. *)
Lemma nth_blocks (h : nat -> list string) (F : nat) : forall n a s f,
  (forall i, List.length (h i) = F) ->
  (s < n)%nat -> (f < F)%nat ->
  nth (s * F + f) (flat_map h (seq a n)) "" = nth f (h (a + s)%nat) "".
Proof.
  induction n as [|n IH]; intros a s f Hh Hs Hf; [lia|]. cbn [seq flat_map].
  destruct s as [|s].
  - rewrite app_nth1 by (rewrite Hh; lia). rewrite Nat.add_0_r. reflexivity.
  - rewrite app_nth2 by (rewrite Hh; lia). rewrite Hh.
    replace (S s * F + f - F)%nat with (s * F + f)%nat by lia.
    rewrite IH by (auto; lia). do 2 f_equal. lia.
Qed.

Lemma nth_flatten (n : nat) (cols : list (list string)) s f :
  (s < n)%nat -> (f < List.length cols)%nat ->
  nth (s * List.length cols + f) (flatten n cols) "" = nth s (nth f cols []) "".
Proof.
  intros Hs Hf. unfold flatten.
  rewrite (nth_blocks (fun s => map (fun c => nth s c "") cols) (List.length cols))
    by (auto; intro; apply length_map).
  cbn [Nat.add].
  rewrite (nth_indep _ "" ((fun c => nth s c "") []))
    by (rewrite length_map; exact Hf).
  apply (map_nth (fun c => nth s c "")).
Qed.

(** X24. In a knockout stage that returns and whose fixtures have distinct
    concatenated slot names, sample and fixture stay aligned.  For fixture
    [f] of [F] and sample [s], the predictor gets at place [s * F + f] of
    its two inputs the teams that the columns of the two slots of the
    fixture hold for sample [s], and the new column of the fixture holds
    for sample [s] the output of the predictor at place [s * F + f]. *)
Theorem play_stage_sample_aligned
  (simulate_outcome : string -> list string -> list string -> list string)
  (stage : string) (x x' : t) :
  play_stage simulate_outcome stage x = (Ok tt, x') ->
  NoDup (map fixture_key (stage_fixtures x stage)) ->
  let fx := stage_fixtures x stage in
  let F := List.length fx in
  exists team_1 team_2,
    forall f s row,
      nth_error fx f = Some row ->
      (s < num_samples x)%nat ->
      exists slot_1 slot_2 winners,
        lookup (columns (aliases x)) (Team_1 row) = Some slot_1
        /\ lookup (columns (aliases x)) (Team_2 row) = Some slot_2
        /\ lookup (columns (aliases x')) (fixture_key row) = Some winners
        /\ nth (s * F + f) team_1 "" = nth s slot_1 ""
        /\ nth (s * F + f) team_2 "" = nth s slot_2 ""
        /\ nth s winners "" = nth (s * F + f) (simulate_outcome stage team_1 team_2) "".
Proof.
  intros H ND fx F. unfold play_stage in H. fold fx in H. fold F in H.
  destruct (frame_get (aliases x) (map Team_1 fx)) as [c1|e] eqn:E1;
    [|discriminate H].
  destruct (frame_get (aliases x) (map Team_2 fx)) as [c2|e] eqn:E2;
    [|discriminate H].
  set (n := index_len (aliases x)) in *.
  set (out := simulate_outcome stage (flatten n c1) (flatten n c2)) in *.
  destruct (Nat.eqb (List.length out) (num_samples x * F)); cbn [negb] in H;
    [|discriminate H].
  destruct (frame_set_all (aliases x) (num_samples x) F out (map fixture_key fx) 0)
    as [a|e] eqn:E; [|discriminate H].
  assert (A : aliases x' = a).
  { injection H as <-. destruct (String.eqb stage "F"); reflexivity. }
  destruct (frame_get_ok _ _ _ E1) as [L1 G1], (frame_get_ok _ _ _ E2) as [L2 G2].
  rewrite length_map in L1, L2, G1, G2. fold F in L1, L2, G1, G2.
  exists (flatten n c1), (flatten n c2). fold out.
  intros f s row Hrow Hs.
  assert (Hf : (f < F)%nat) by (apply nth_error_Some; congruence).
  assert (Rf : forall (g : fixture -> string), nth f (map g fx) "" = g row).
  { intro g. rewrite (nth_indep _ "" (g row)) by (rewrite length_map; exact Hf).
    rewrite map_nth. f_equal. apply nth_error_nth. exact Hrow. }
  assert (SS : n = num_samples x).
  { unfold n. apply (frame_set_all_index _ _ _ _ _ _ _ E).
    intro Hnil. apply map_eq_nil in Hnil. unfold F in Hf. rewrite Hnil in Hf.
    simpl in Hf. lia. }
  exists (nth f c1 []), (nth f c2 []), (reshaped_column (num_samples x) F out f).
  repeat split.
  - rewrite <- (Rf Team_1). apply G1. exact Hf.
  - rewrite <- (Rf Team_2). apply G2. exact Hf.
  - rewrite A, <- (Rf fixture_key).
    rewrite (frame_set_all_values _ _ _ _ _ _ _ E ND f)
      by (rewrite length_map; exact Hf).
    reflexivity.
  - rewrite <- L1. apply nth_flatten; [lia | rewrite L1; exact Hf].
  - rewrite <- L2. apply nth_flatten; [lia | rewrite L2; exact Hf].
  - unfold reshaped_column.
    rewrite (nth_indep _ "" ((fun s => nth (s * F + f) out "") O))
      by (rewrite length_map, length_seq; exact Hs).
    rewrite (map_nth (fun s => nth (s * F + f) out "")), seq_nth by exact Hs.
    reflexivity.
Qed.

(** The round of 16 of the repeated bracket, sample 1. *)
Lemma play_stage_sample_aligned_witness :
  exists team_1 team_2 winners,
    lookup (columns (aliases Examples.after_R16)) "1A2A" = Some winners
    /\ nth 1 winners ""
       = nth 1 (Examples.home_then_away "R16" team_1 team_2) "".
Proof.
  destruct (play_stage_sample_aligned Examples.home_then_away "R16"
              Examples.after_qualifiers Examples.after_R16)
    as (t1 & t2 & H).
  - reflexivity.
  - repeat constructor. simpl. tauto.
  - destruct (H O 1%nat (mk_fixture "R16" "1A" "2A") eq_refl)
      as (s1 & s2 & w & _ & _ & L & _ & _ & V).
    + repeat constructor.
    + exists t1, t2, w. split; [exact L | exact V].
Defined.

End WinnerFacts.
